(** * stl2vrml: a shallow embedding of the STL reader, the field tokenizer
      and the VRML writer, with the properties of its specification.

    Sources embedded: [stl2vrml.cpp] (StringFields, VrmlWriter, StlReader,
    UpdateMinMax, ConvertStlToWrl) and [simplefile.h] (File).

    Conventions.
    - [char] is [ascii]; [std::string] is [string]; a file on disk is a
      [list byte]; [double] is the primitive binary64 [float].
    - [size_t] is 64 bits wide and its wrap-around is written out where the
      source does arithmetic on it; [std::vector::size()] is a [nat].
    - functions that can throw, fail an [assert] or loop for ever return a
      [result]. *)

From Stdlib Require Import ZArith List String Ascii Strings.Byte Bool Lia.
From Stdlib Require Import PrimFloat SpecFloat FloatOps DecimalString.
From Stdlib Require FloatAxioms.
Import ListNotations.

Local Open Scope string_scope.
Local Open Scope list_scope.

(* ================================================================== *)
(** * Characters *)

Definition NUL : ascii := "000"%char.
Definition LF  : ascii := "010"%char.
Definition CR  : ascii := "013"%char.

Definition CRLF : string := String CR (String LF "").
Definition LFs  : string := String LF "".

(** A double quote, and a word between double quotes, for the messages
    and the output text that contain some. *)
Definition DQUOTE : ascii := "034"%char.
Definition quoted (s : string) : string :=
  String DQUOTE (s ++ String DQUOTE "")%string.

(** [isspace] of <ctype.h> in the "C" locale: space, \t, \n, \v, \f, \r.
    The source passes a plain [char]; bytes above 127 are not white space. *)
Definition isspace (c : ascii) : bool :=
  match c with
  | " "%char | "009"%char | "010"%char | "011"%char | "012"%char | "013"%char => true
  | _ => false
  end.

(** [*pstr == ',' || *pstr == ';'] *)
Definition is_delim (c : ascii) : bool :=
  (c =? ",")%char || (c =? ";")%char.

(** The characters that end a field in [StringFields]. *)
Definition is_sep (c : ascii) : bool := isspace c || is_delim c.

(** [std::string::c_str()] read as a NUL-terminated string: the characters
    before the first NUL. *)
Fixpoint c_str (s : string) : string :=
  match s with
  | "" => ""
  | String c r => if (c =? NUL)%char then "" else String c (c_str r)
  end.

(** [s[0]] of a [std::string]: the NUL terminator when [s] is empty. *)
Definition first_char (s : string) : ascii :=
  match s with
  | "" => NUL
  | String c _ => c
  end.

(* ================================================================== *)
(** * Field tokenizer: [StringFields] *)

Module Tokenizer.

(** [while (isspace( *pstr)) ++pstr;] *)
Fixpoint skip_spaces (p : string) : string :=
  match p with
  | "" => ""
  | String c r => if isspace c then skip_spaces r else p
  end.

(** [if ( *pstr == ',' || *pstr == ';') ++pstr;] *)
Definition skip_one_delim (p : string) : string :=
  match p with
  | "" => ""
  | String c r => if is_delim c then r else p
  end.

(** [while ( *pstr && !isspace( *pstr) && *pstr != ',' && *pstr != ';')
       field += *pstr++;]  returns the field and the new [pstr]. *)
Fixpoint take_field (p : string) : string * string :=
  match p with
  | "" => ("", "")
  | String c r =>
      if is_sep c then ("", p)
      else let (f, q) := take_field r in (String c f, q)
  end.

(** One turn of the outer [while ( *pstr)] loop. *)
Definition next_field (p : string) : string * string :=
  take_field (skip_spaces (skip_one_delim (skip_spaces p))).

(** The outer loop.  Every turn consumes at least one character, so
    [S (length p)] turns are enough (see [fields_loop_fuel]). *)
Fixpoint fields_loop (fuel : nat) (p : string) : list string :=
  match fuel with
  | O => []
  | S k =>
      match p with
      | "" => []
      | _ => let (field, q) := next_field p in field :: fields_loop k q
      end
  end.

Definition StringFields (str : string) : list string :=
  fields_loop (S (String.length str)) (c_str str).

(** ** What the specification says a tokenizer does

    Tokens are the maximal runs of characters that are neither white space
    nor comma nor semicolon; separators only separate. *)
Fixpoint maximal_runs (p : string) : list string :=
  match p with
  | "" => []
  | String c r =>
      if is_sep c then maximal_runs r
      else match r with
           | "" => [String c ""]
           | String c' _ =>
               if is_sep c' then String c "" :: maximal_runs r
               else match maximal_runs r with
                    | t :: ts => String c t :: ts
                    | [] => [String c ""]
                    end
           end
  end.

(** The line with its separator characters removed. *)
Fixpoint strip_seps (p : string) : string :=
  match p with
  | "" => ""
  | String c r => if is_sep c then strip_seps r else String c (strip_seps r)
  end.

Fixpoint no_sep (t : string) : bool :=
  match t with
  | "" => true
  | String c r => negb (is_sep c) && no_sep r
  end.

Definition nonempty (t : string) : bool :=
  match t with "" => false | _ => true end.

(** [no_double_delim d p]: no comma or semicolon of [p] follows another one
    with only white space between them; [d] tells that such a delimiter was
    the last character before [p] that is not white space. *)
Fixpoint no_double_delim (d : bool) (p : string) : bool :=
  match p with
  | "" => true
  | String c r =>
      if is_delim c then negb d && no_double_delim true r
      else if isspace c then no_double_delim d r
      else no_double_delim false r
  end.

(** The last character of [p] exists and is not a separator. *)
Fixpoint ends_in_token (p : string) : bool :=
  match p with
  | "" => false
  | String c "" => negb (is_sep c)
  | String _ r => ends_in_token r
  end.

(** Lines on which the tokenizer is asked nothing unusual: no two
    delimiters in a row and no separator at the end. *)
Definition plainly_separated (p : string) : bool :=
  no_double_delim false p && (negb (nonempty p) || ends_in_token p).

End Tokenizer.

(* ================================================================== *)
(** * Outcomes of the functions that can fail *)

(** The reader throws [const char*] messages, the writer throws its
    [writeError] message: two kinds of error. *)
Inductive error : Type :=
| FormatError (msg : string)
| WriteError (msg : string).

(** [Ok]: normal return.  [Throw]: a C++ exception left the function.
    [AssertFailed]: an [assert] failed (builds without NDEBUG).
    [Hang]: a loop of the source that never exits. *)
Inductive result (A : Type) : Type :=
| Ok (a : A)
| Throw (e : error)
| AssertFailed
| Hang.

Arguments Ok {A} a.
Arguments Throw {A} e.
Arguments AssertFailed {A}.
Arguments Hang {A}.

Definition bind {A B : Type} (m : result A) (k : A -> result B) : result B :=
  match m with
  | Ok a => k a
  | Throw e => Throw e
  | AssertFailed => AssertFailed
  | Hang => Hang
  end.

Notation "x <- m ;; k" := (bind m (fun x => k))
  (at level 61, m at next level, right associativity).
Notation "' pat <- m ;; k" := (bind m (fun x => match x with pat => k end))
  (at level 61, pat pattern, m at next level, right associativity).

Definition is_format_error {A : Type} (r : result A) : bool :=
  match r with
  | Throw (FormatError _) => true
  | _ => false
  end.

(** The function returned or threw: no assertion failed, no loop hung. *)
Definition returns_or_throws {A : Type} (r : result A) : Prop :=
  match r with
  | Ok _ | Throw _ => True
  | AssertFailed | Hang => False
  end.

(** A 3D coordinate. *)
Record Point : Type := mkPoint { px : float; py : float; pz : float }.

(* ================================================================== *)
(** * [File] of simplefile.h, opened for reading *)

Module SimpleFile.

(** An open input file: its bytes, the position of the stream and the
    line counter.  (The model covers files below 2 GiB, the limit the
    header states for its 32-bit offsets.) *)
Record File : Type := mkFile {
  f_data : list byte;
  f_pos : nat;
  m_lineCounter : nat
}.

Definition open_file (data : list byte) : File := mkFile data 0 0.

(** Bytes between the stream position and the end of the file. *)
Definition remaining (f : File) : list byte := skipn (f_pos f) (f_data f).

(** [fseek(m_file, position, SEEK_SET)] succeeds at any position of a
    regular file, also past its end. *)
Definition Seek (f : File) (position : nat) : bool * File :=
  (true, mkFile (f_data f) position (m_lineCounter f)).

(** [fread(data, 1, numbytes, m_file)]: the bytes read (their number is the
    return value) and the file after the read. *)
Definition Read (f : File) (numbytes : nat) : list byte * File :=
  let got := firstn numbytes (remaining f) in
  (got, mkFile (f_data f) (f_pos f + List.length got) (m_lineCounter f)).

(** [Length()]: the position is restored, the length returned.  The value
    is that of the source for a file below 2 GiB: the source takes it from
    [ftell], a [long], and its header notes that it is incorrect for larger
    files.  The theorems that tell which files are taken for binary assume
    that bound. *)
Definition Length (f : File) : Z := Z.of_nat (List.length (f_data f)).

Definition is_empty (s : string) : bool :=
  match s with "" => true | _ => false end.

Inductive line_result : Type :=
| LineRet (readAny : bool) (text : string) (consumed : nat) (newlines : nat)
| LineHang.

(** The [do ... while] of [ReadLine] run on the bytes [rest] ahead of the
    stream.  [text] and [readAny] are the variables of the source,
    [consumed] and [newlines] count the bytes read and the '\n' seen.
    At end of file [Read] returns 0 and leaves the stream where it is: when
    the loop condition holds there, it holds for ever. *)
Fixpoint read_line_loop (skipBlankLines : bool) (rest : list byte)
    (text : string) (readAny : bool) (consumed newlines : nat) : line_result :=
  match rest with
  | [] =>
      if skipBlankLines && is_empty text && readAny then LineHang
      else LineRet readAny text consumed newlines
  | b :: rest' =>
      let c := ascii_of_byte b in
      if (c =? LF)%char then
        if skipBlankLines && is_empty text && readAny
        then read_line_loop skipBlankLines rest' "" readAny (S consumed) (S newlines)
        else LineRet readAny text (S consumed) (S newlines)
      else
        read_line_loop skipBlankLines rest'
          (if (c =? CR)%char then text else text ++ String c "")%string
          true (S consumed) newlines
  end.

(** [bool ReadLine(std::string &text, bool skipBlankLines)] *)
Definition ReadLine (f : File) (skipBlankLines : bool) : result (bool * string * File) :=
  match read_line_loop skipBlankLines (remaining f) "" false 0 0 with
  | LineHang => Hang
  | LineRet readAny text consumed newlines =>
      Ok (readAny, text,
          mkFile (f_data f) (f_pos f + consumed) (m_lineCounter f + newlines))
  end.

(** Bytes left to read. *)
Definition left (f : File) : nat := List.length (remaining f).

End SimpleFile.

(* ================================================================== *)
(** * [StlReader] *)

Module Reader.
Import SimpleFile Tokenizer.

Definition size_t_modulus : Z := 2 ^ 64.

(** [sizeof(std::uint32_t)]. *)
Definition sizeof_uint32 : nat := 4.

(** [sizeof(BinaryStlRecord)].  The [#pragma pack(push)] and
    [#pragma pack(1)] stand inside the body of the struct, after its opening
    brace, and the [#pragma pack(pop)] before its closing brace, so the
    struct itself is not packed: it keeps the alignment of [float].  Its
    twelve floats take bytes 0 to 47, [m_attributeSize] bytes 48 and 49, and
    two bytes of padding follow: 52 bytes, two more than a record of the
    STL format. *)
Definition sizeof_BinaryStlRecord : nat := 52.

(** Little-endian unsigned value of a run of bytes. *)
Fixpoint le_uint (bs : list byte) : Z :=
  match bs with
  | [] => 0
  | b :: r => Z.lor (Z.of_N (Byte.to_N b)) (Z.shiftl (le_uint r) 8)
  end%Z.

(** The [double] a C [float] with the given 32 bits converts to. *)
Definition double_of_float_bits (w : Z) : float :=
  (let s := Z.testbit w 31 in
   let e := Z.land (Z.shiftr w 23) 255 in
   let m := Z.land w (2 ^ 23 - 1) in
   if e =? 255 then
     if m =? 0 then (if s then neg_infinity else infinity) else nan
   else if e =? 0 then
     if m =? 0 then (if s then neg_zero else zero)
     else SF2Prim (S754_finite s (Z.to_pos m) (-149))
   else SF2Prim (S754_finite s (Z.to_pos (m + 2 ^ 23)) (e - 150)))%Z.

(** The [i]-th float of a buffer of little-endian floats. *)
Definition float_at (bs : list byte) (i : nat) : float :=
  double_of_float_bits (le_uint (firstn 4 (skipn (4 * i) bs))).

Record StlReader : Type := mkReader {
  m_file : File;
  m_isBinaryStl : bool;
  m_numFacets : Z;
  m_curFacet : Z
}.

(** [explicit StlReader(File &file)] *)
Definition new_reader (file : File) : StlReader := mkReader file false 0 0.

(** [void ReadHeaderFromBinaryStl(size_t &numFacets)]: the facet count and
    the file after the read. *)
Definition ReadHeaderFromBinaryStl (f : File) : result (Z * File) :=
  let (sought, f1) := Seek f 80 in
  if negb sought then Throw (FormatError "Seek error reading header of binary STL file.")
  else
    let (got, f2) := Read f1 sizeof_uint32 in
    if negb (List.length got =? sizeof_uint32)%nat
    then Throw (FormatError "Failed reading facet count from binary STL file.")
    else
      let facets := le_uint got in
      if (facets <? 1)%Z
      then Throw (FormatError "Facet count in file header is not valid.")
      else Ok (facets, f2).

Definition badStl : string :=
  ("File does not appear to be in STL format." ++ CRLF)%string.

(** [void ReadHeaderFromAsciiStl()] *)
Definition ReadHeaderFromAsciiStl (f : File) : result File :=
  let (_, f0) := Seek f 0 in
  '(more, text, f1) <- ReadLine f0 true ;;
  if negb more then Throw (FormatError badStl)
  else
    let fields := StringFields text in
    match fields with
    | [] => Throw (FormatError badStl)
    | field0 :: _ =>
        if negb (field0 =? "solid")%string
        then Throw (FormatError
               ("File does not appear to be an ASCII STL file.  Expected keyword "
                ++ quoted "solid" ++ "." ++ LFs)%string)
        else Ok f1
    end.

(** [bool IsBinaryStl(File &inFile)]: the answer and the file, whose stream
    position the header read has moved. *)
Definition IsBinaryStl (f : File) : bool * File :=
  match ReadHeaderFromBinaryStl f with
  | Ok (numFacets, f1) =>
      if (numFacets <? 1)%Z then (false, f1)
      else
        let expectedLength :=
          ((80 + Z.of_nat sizeof_uint32
            + numFacets * Z.of_nat sizeof_BinaryStlRecord) mod size_t_modulus)%Z in
        ((Length f1 =? expectedLength)%Z, f1)
  | _ =>
      (* catch(...): the stream is where the failed read left it *)
      (false, snd (Read (snd (Seek f 80)) sizeof_uint32))
  end.

(** [void ReadHeaderFromStl()] *)
Definition ReadHeaderFromStl (r : StlReader) : result StlReader :=
  let (_, f0) := Seek (m_file r) 0 in
  let (isBinary, f1) := IsBinaryStl f0 in
  if isBinary then
    '(numFacets, f2) <- ReadHeaderFromBinaryStl f1 ;;
    Ok (mkReader f2 true numFacets 0)
  else
    f2 <- ReadHeaderFromAsciiStl f1 ;;
    Ok (mkReader f2 false 0 0).

(** [fields[i]] where the source has checked that it exists. *)
Definition field (fields : list string) (i : nat) : string := nth i fields "".

Section WithAtof.

(** [atof] of the C library. *)
Variable atof : string -> float.

(** The test of [ReadVertexFromAsciiStl] on one coordinate:
    [(v == 0. && token[0] != '0')], [_isnan(v)], [!_finite(v)]. *)
Definition zero_not_from_0 (v : float) (token : string) : bool :=
  PrimFloat.eqb v zero && negb (first_char token =? "0")%char.

Definition bad_conversion (p : Point) (fields : list string) : bool :=
  zero_not_from_0 (px p) (field fields 1)
  || zero_not_from_0 (py p) (field fields 2)
  || zero_not_from_0 (pz p) (field fields 3)
  || is_nan (px p) || is_nan (py p) || is_nan (pz p)
  || negb (is_finite (px p)) || negb (is_finite (py p)) || negb (is_finite (pz p)).

(** [void ReadVertexFromAsciiStl(Point &point)] *)
Definition ReadVertexFromAsciiStl (f : File) : result (Point * File) :=
  '(more, text, f1) <- ReadLine f true ;;
  if negb more
  then Throw (FormatError
         ("Unexpected end of file while looking for " ++ quoted "vertex" ++ "." ++ LFs)%string)
  else
    let fields := StringFields text in
    if (List.length fields <? 4)%nat
    then Throw (FormatError
           ("Malformed vertex line.  Expected x, y, and z coordinates." ++ LFs)%string)
    else if negb (field fields 0 =? "vertex")%string
    then Throw (FormatError ("Missing or malformed vertex." ++ LFs)%string)
    else
      let point := mkPoint (atof (c_str (field fields 1)))
                           (atof (c_str (field fields 2)))
                           (atof (c_str (field fields 3))) in
      if bad_conversion point fields
      then Throw (FormatError
             ("One or more invalid coordinate values after " ++ quoted "vertex" ++ "." ++ LFs)%string)
      else Ok (point, f1).

(** The [for (int i = 0; i < 3; ++i)] loop over the vertex lines. *)
Fixpoint read_vertices (n : nat) (f : File) (coords : list Point)
  : result (list Point * File) :=
  match n with
  | O => Ok (coords, f)
  | S k =>
      '(point, f1) <- ReadVertexFromAsciiStl f ;;
      read_vertices k f1 (coords ++ [point])
  end.

(** [fields] starts with the one-word or the two-word form of a keyword. *)
Definition starts_with_keyword (fields : list string) (one w1 w2 : string) : bool :=
  ((0 <? List.length fields)%nat && (field fields 0 =? one)%string)
  || ((1 <? List.length fields)%nat && (field fields 0 =? w1)%string
      && (field fields 1 =? w2)%string).

Definition unexpected_eof_in_facet : error :=
  FormatError ("Unexpected end of file while reading a facet." ++ LFs)%string.

(** [bool ReadFacetFromAsciiStl(std::vector<Point> &coords)], entered with
    [coords] empty. *)
Definition ReadFacetFromAsciiStl (f : File) : result (bool * list Point * File) :=
  '(more, text, f1) <- ReadLine f true ;;
  if negb more then Ok (false, [], f1)
  else
    let fields := StringFields text in
    match fields with
    | [] => Ok (false, [], f1)
    | _ =>
      if (field fields 0 =? "endsolid")%string
         || ((1 <? List.length fields)%nat && (field fields 0 =? "end")%string
             && (field fields 1 =? "solid")%string)
      then Ok (false, [], f1)
      else if (field fields 0 =? "facet")%string then
        (* the outer loop line *)
        '(more2, text2, f2) <- ReadLine f1 true ;;
        if negb more2 then Ok (false, [], f2)
        else
          if negb (starts_with_keyword (StringFields text2) "outerloop" "outer" "loop")
          then Throw (FormatError ("A facet is missing its outer loop." ++ LFs)%string)
          else
            '(coords, f3) <- read_vertices 3 f2 [] ;;
            (* the end loop line *)
            '(more4, text4, f4) <- ReadLine f3 true ;;
            if negb more4 then Throw unexpected_eof_in_facet
            else
              if negb (starts_with_keyword (StringFields text4) "endloop" "end" "loop")
              then Throw (FormatError
                     ("Expected " ++ quoted "end loop" ++ " after vertex." ++ LFs)%string)
              else
                (* the end facet line *)
                '(more5, text5, f5) <- ReadLine f4 true ;;
                if negb more5 then Throw unexpected_eof_in_facet
                else
                  if negb (starts_with_keyword (StringFields text5) "endfacet" "end" "facet")
                  then Throw (FormatError
                         ("Expected " ++ quoted "end facet" ++ " after "
                          ++ quoted "end loop" ++ "." ++ LFs)%string)
                  else Ok (true, coords, f5)
      else Throw (FormatError
             ("Expected " ++ quoted "facet" ++ " or " ++ quoted "end solid" ++ LFs)%string)
    end.

(** The three points of [m_coorddata]: floats 3 to 11 of the record. *)
Definition record_points (rec : list byte) : list Point :=
  map (fun i => mkPoint (float_at rec (3 + 3 * i))
                        (float_at rec (3 + 3 * i + 1))
                        (float_at rec (3 + 3 * i + 2)))
      [0; 1; 2]%nat.

(** [m_attributeSize]: the last two bytes of the record. *)
Definition record_attribute (rec : list byte) : Z :=
  le_uint (firstn 2 (skipn 48 rec)).

(** [bool ReadFacetFromBinaryStl(std::vector<Point> &coords)] *)
Definition ReadFacetFromBinaryStl (r : StlReader) : result (bool * list Point * StlReader) :=
  if (m_curFacet r >=? m_numFacets r)%Z then Ok (false, [], r)
  else
    let (rec, f1) := Read (m_file r) sizeof_BinaryStlRecord in
    if negb (List.length rec =? sizeof_BinaryStlRecord)%nat
    then Throw (FormatError "Failed reading facet record from binary STL file.")
    else if negb (record_attribute rec =? 0)%Z
    then Throw (FormatError "Invalid attribute size in binary STL file.")
    else
      Ok (true, record_points rec,
          mkReader f1 (m_isBinaryStl r) (m_numFacets r)
                   ((m_curFacet r + 1) mod size_t_modulus)%Z).

(** [bool ReadFacetFromStl(std::vector<Point> &coords)] *)
Definition ReadFacetFromStl (r : StlReader) : result (bool * list Point * StlReader) :=
  if m_isBinaryStl r then ReadFacetFromBinaryStl r
  else
    '(more, coords, f1) <- ReadFacetFromAsciiStl (m_file r) ;;
    Ok (more, coords, mkReader f1 (m_isBinaryStl r) (m_numFacets r) (m_curFacet r)).

End WithAtof.

(** ** Notions of the properties of the reader *)

(** The facet count of a binary header: bytes 80 to 83, little-endian. *)
Definition header_count (data : list byte) : Z :=
  le_uint (firstn 4 (skipn 80 data)).

(** A coordinate the vertex check is to refuse: a value equal to 0 whose token
    does not start with the character 0, a NaN, or an infinity. *)
Definition rejected_coordinate (v : float) (token : string) : bool :=
  (PrimFloat.eqb v zero && negb (first_char token =? "0")%char)
  || is_nan v || is_infinity v.

End Reader.

(* ================================================================== *)
(** * [File] opened for writing, and [VrmlWriter] *)

Module Writer.
Import Reader.

(** The arguments the source passes to [Printf]: a [size_t] for "%zu", a
    [double] for "%G" and "%.15G". *)
Inductive printf_arg : Type :=
| ArgSize (n : Z)
| ArgDouble (d : float).

Record printf_call : Type := mkCall {
  call_fmt : string;
  call_args : list printf_arg
}.

(** An open output file: the [Printf] calls that wrote to it, the newest
    first, and how many more writes the device takes ([None]: any number).
    The bytes of the file are the calls, oldest first, each formatted
    ([file_text]). *)
Record OutFile : Type := mkOut {
  o_calls : list printf_call;
  o_quota : option nat
}.

Definition create_file (quota : option nat) : OutFile := mkOut [] quota.

(** [bool Printf(const char *fmt, ...)]: true when the text was written.
    A write that fails leaves the file as it is, and so do the next ones. *)
Definition Printf (f : OutFile) (fmt : string) (args : list printf_arg)
  : bool * OutFile :=
  match o_quota f with
  | Some O => (false, f)
  | Some (S k) => (true, mkOut (mkCall fmt args :: o_calls f) (Some k))
  | None => (true, mkOut (mkCall fmt args :: o_calls f) None)
  end.

Definition writeError : error := WriteError "Failed writing to file.".

(** [if (!m_file.Printf(...)) throw writeError;] *)
Definition Printf_or_throw (f : OutFile) (fmt : string) (args : list printf_arg)
  : result OutFile :=
  let (ok, f1) := Printf f fmt args in
  if ok then Ok f1 else Throw writeError.

(** [n - 1] on [size_t]. *)
Definition size_pred (n : nat) : Z := ((Z.of_nat n - 1) mod size_t_modulus)%Z.

Definition fmt_point : string := "%.15G %.15G %.15G".
Definition fmt_index : string := "%zu, ".
Definition fmt_face_end : string := "-1".

Definition shape_header : string :=
  (CRLF ++ "Shape {" ++ CRLF
   ++ "  appearance Appearance {" ++ CRLF
   ++ "    material Material {" ++ CRLF
   ++ "      diffuseColor 0.8 0.8 0.8" ++ CRLF
   ++ "    }" ++ CRLF
   ++ "  }" ++ CRLF
   ++ "  geometry IndexedFaceSet {" ++ CRLF
   ++ "    coord Coordinate {" ++ CRLF
   ++ "      point [" ++ CRLF)%string.

Definition shape_middle : string :=
  ("      ]" ++ CRLF ++ "    }" ++ CRLF ++ "    coordIndex [" ++ CRLF)%string.

Definition shape_footer : string :=
  ("    ]" ++ CRLF ++ "  }" ++ CRLF ++ "}" ++ CRLF)%string.

Definition wrl_header : string :=
  ("#VRML V2.0 utf8" ++ CRLF ++ "# Model converted by stl2vrml." ++ CRLF)%string.

Definition viewpoint_header : string :=
  (CRLF ++ "Viewpoint {" ++ CRLF
   ++ "  description " ++ quoted "View_1" ++ CRLF
   ++ "  orientation 1 0 0 0" ++ CRLF)%string.

Definition fmt_position : string := ("  position %G %G %G" ++ LFs)%string.

Definition viewpoint_footer : string := ("}" ++ CRLF)%string.

Definition background_line : string :=
  ("Background { skyColor 0.4 0.4 0.4 }" ++ CRLF)%string.

Definition navigation_line : string :=
  ("NavigationInfo { type [ " ++ quoted "EXAMINE" ++ " " ++ quoted "ANY" ++ " ] }"
   ++ CRLF ++ CRLF)%string.

(** [std::max(a, b)] *)
Definition std_max (a b : float) : float := if ltb a b then b else a.

Record VrmlWriter : Type := mkWriter {
  w_file : OutFile;
  m_triangles : list Point
}.

(** [explicit VrmlWriter(File &file)] *)
Definition new_writer (file : OutFile) : VrmlWriter := mkWriter file [].

(** [void WriteStartOfWrl()] *)
Definition WriteStartOfWrl (w : VrmlWriter) : result VrmlWriter :=
  f1 <- Printf_or_throw (w_file w) wrl_header [] ;;
  Ok (mkWriter f1 (m_triangles w)).

(** The loop of [WriteCoordListToWrl]; [size] is [points.size()] of the
    whole list. *)
Fixpoint coord_list_loop (points : list Point) (pointsWritten size : nat)
    (f : OutFile) : result OutFile :=
  match points with
  | [] => Ok f
  | point :: rest =>
      f1 <- Printf_or_throw f "        " [] ;;
      f2 <- Printf_or_throw f1 fmt_point
              [ArgDouble (px point); ArgDouble (py point); ArgDouble (pz point)] ;;
      f3 <- (if (Z.of_nat pointsWritten <? size_pred size)%Z
             then Printf_or_throw f2 ", " []
             else Ok f2) ;;
      f4 <- Printf_or_throw f3 CRLF [] ;;
      coord_list_loop rest (S pointsWritten) size f4
  end.

(** [void WriteCoordListToWrl(const std::vector<Point> &points)] *)
Definition WriteCoordListToWrl (points : list Point) (f : OutFile) : result OutFile :=
  coord_list_loop points 0 (List.length points) f.

(** The loop of [WriteCoordIndexesToWrl], [turns] turns from [trndx] on.
    The result of [Printf("-1")] is not looked at. *)
Fixpoint coord_index_loop (turns trndx numTriangles : nat) (f : OutFile)
  : result OutFile :=
  match turns with
  | O => Ok f
  | S k =>
      f1 <- Printf_or_throw f "      " [] ;;
      f2 <- Printf_or_throw f1 fmt_index [ArgSize (Z.of_nat trndx * 3 + 0)] ;;
      f3 <- Printf_or_throw f2 fmt_index [ArgSize (Z.of_nat trndx * 3 + 1)] ;;
      f4 <- Printf_or_throw f3 fmt_index [ArgSize (Z.of_nat trndx * 3 + 2)] ;;
      let f5 := snd (Printf f4 fmt_face_end []) in
      f6 <- (if (Z.of_nat trndx <? size_pred numTriangles)%Z
             then Printf_or_throw f5 "," []
             else Ok f5) ;;
      f7 <- Printf_or_throw f6 CRLF [] ;;
      coord_index_loop k (S trndx) numTriangles f7
  end.

(** [void WriteCoordIndexesToWrl(const size_t numTriangles)] *)
Definition WriteCoordIndexesToWrl (numTriangles : nat) (f : OutFile) : result OutFile :=
  coord_index_loop numTriangles 0 numTriangles f.

Section WithAsserts.

(** Whether the program is built with NDEBUG, which removes the [assert]s. *)
Variable NDEBUG : bool.

Definition assert (cond : bool) : result unit :=
  if NDEBUG || cond then Ok tt else AssertFailed.

(** [void WriteFacetsToWrl(const std::vector<Point> &points)] *)
Definition WriteFacetsToWrl (points : list Point) (f : OutFile) : result OutFile :=
  _ <- assert (List.length points mod 3 =? 0)%nat ;;
  let numTriangles := (List.length points / 3)%nat in
  if (numTriangles <? 1)%nat then Ok f
  else
    f1 <- Printf_or_throw f shape_header [] ;;
    f2 <- WriteCoordListToWrl points f1 ;;
    f3 <- Printf_or_throw f2 shape_middle [] ;;
    f4 <- WriteCoordIndexesToWrl numTriangles f3 ;;
    Printf_or_throw f4 shape_footer [].

Definition maxPointsPerFaceSet : nat := 3000.

(** [void WriteFacetToWrl(const std::vector<Point> &coords)] *)
Definition WriteFacetToWrl (w : VrmlWriter) (coords : list Point) : result VrmlWriter :=
  let triangles := m_triangles w ++ coords in
  if (maxPointsPerFaceSet <=? List.length triangles)%nat then
    f1 <- WriteFacetsToWrl triangles (w_file w) ;;
    Ok (mkWriter f1 [])
  else Ok (mkWriter (w_file w) triangles).

(** [void WriteEndOfWrl(const Point &emin, const Point &emax)] *)
Definition WriteEndOfWrl (w : VrmlWriter) (emin emax : Point) : result VrmlWriter :=
  f1 <- (match m_triangles w with
         | [] => Ok (w_file w)
         | _ => WriteFacetsToWrl (m_triangles w) (w_file w)
         end) ;;
  f2 <- Printf_or_throw f1 viewpoint_header [] ;;
  f3 <- Printf_or_throw f2 fmt_position
          [ArgDouble (px emin + (px emax - px emin) / 2)%float;
           ArgDouble (py emin + (py emax - py emin) / 2)%float;
           ArgDouble (pz emin + (pz emax - pz emin) / 2
                      + std_max (px emax - px emin) (py emax - py emin))%float] ;;
  f4 <- Printf_or_throw f3 viewpoint_footer [] ;;
  f5 <- Printf_or_throw f4 background_line [] ;;
  f6 <- Printf_or_throw f5 navigation_line [] ;;
  Ok (mkWriter f6 (m_triangles w)).

(** The feed calls of a conversion, one after the other. *)
Fixpoint feed_all (w : VrmlWriter) (calls : list (list Point)) : result VrmlWriter :=
  match calls with
  | [] => Ok w
  | coords :: rest =>
      w1 <- WriteFacetToWrl w coords ;;
      feed_all w1 rest
  end.

End WithAsserts.

(** ** What is in the file *)

Definition calls_in_order (f : OutFile) : list printf_call := rev (o_calls f).

Definition count_fmt (fmt : string) (f : OutFile) : nat :=
  List.length (filter (fun c => (call_fmt c =? fmt)%string) (o_calls f)).

(** Shape nodes, coordinate lines and index lines (the lines
    [i, j, k, -1]) written to [f]. *)
Definition shapes_in (f : OutFile) : nat := count_fmt shape_header f.
Definition points_in (f : OutFile) : nat := count_fmt fmt_point f.
Definition index_triples_in (f : OutFile) : nat := count_fmt fmt_face_end f.

Section Rendering.

(** What [vsprintf_s] makes of a [double] under "%G" and under "%.15G". *)
Variable render_G : float -> string.
Variable render_15G : float -> string.

(** "%zu" *)
Definition render_zu (n : Z) : string :=
  NilZero.string_of_uint (N.to_uint (Z.to_N n)).

(** [vsprintf_s] on the formats of this program: "%zu", "%G", "%.15G". *)
Fixpoint vsprintf (fmt : string) (args : list printf_arg) : string :=
  match fmt with
  | "" => ""
  | String c r =>
      if negb (c =? "%")%char then String c (vsprintf r args)
      else
        match r with
        | String "G" r1 =>
            match args with
            | ArgDouble d :: args' => (render_G d ++ vsprintf r1 args')%string
            | _ => vsprintf r1 args
            end
        | String "z" (String "u" r2) =>
            match args with
            | ArgSize n :: args' => (render_zu n ++ vsprintf r2 args')%string
            | _ => vsprintf r2 args
            end
        | String "." (String "1" (String "5" (String "G" r4))) =>
            match args with
            | ArgDouble d :: args' => (render_15G d ++ vsprintf r4 args')%string
            | _ => vsprintf r4 args
            end
        | _ => String c (vsprintf r args)
        end
  end.

Definition file_text (f : OutFile) : string :=
  String.concat "" (map (fun c => vsprintf (call_fmt c) (call_args c)) (calls_in_order f)).

End Rendering.

(** ** Notions of the properties of the writer *)

(** The file after one more [Printf] that succeeded. *)
Definition push (f : OutFile) (fmt : string) (args : list printf_arg) : OutFile :=
  mkOut (mkCall fmt args :: o_calls f) (o_quota f).

(** What is counted in a file: shapes, points and index
    triples. *)
Definition tally (f : OutFile) : nat * nat * nat :=
  (shapes_in f, points_in f, index_triples_in f).

Definition counted (fmt : string) : bool :=
  (fmt =? shape_header)%string || (fmt =? fmt_point)%string
  || (fmt =? fmt_face_end)%string.

Definition tally_add (t : nat * nat * nat) (shapes points triples : nat)
  : nat * nat * nat :=
  let '(a, b, c) := t in (a + shapes, b + points, c + triples).

(** The call returned, or threw the write error of the writer. *)
Definition write_outcome {A : Type} (m : result A) : Prop :=
  match m with
  | Ok _ => True
  | Throw e => e = writeError
  | AssertFailed | Hang => False
  end.

(** Points waiting in the batch. *)
Definition pending (w : VrmlWriter) : nat := List.length (m_triangles w).

(** The invariant of the batch when whole triangles are fed. *)
Definition whole_triangles (w : VrmlWriter) : Prop :=
  (pending w mod 3 = 0)%nat /\ (pending w < maxPointsPerFaceSet)%nat.

(** [lone_LF_after prev s]: some '\n' of [s] does not follow a '\r'
    ([prev] is the character before [s]). *)
Fixpoint lone_LF_after (prev : ascii) (s : string) : bool :=
  match s with
  | "" => false
  | String c r => ((c =? LF)%char && negb (prev =? CR)%char) || lone_LF_after c r
  end.

Definition has_lone_LF (s : string) : bool := lone_LF_after NUL s.

(** ** The text of a Shape node, as the comments of the writer describe it *)

Section Texts.

Variable render_G : float -> string.
Variable render_15G : float -> string.

(** One line of the coordinate list: the three coordinates of a point with
    spaces between them. *)
Definition point_line (p : Point) : string :=
  ("        " ++ render_15G (px p) ++ " " ++ render_15G (py p) ++ " "
   ++ render_15G (pz p))%string.

(** One line per point; all but the last line end with a comma. *)
Fixpoint coord_list_text (points : list Point) : string :=
  match points with
  | [] => ""
  | p :: rest =>
      (point_line p ++ (match rest with [] => "" | _ => ", " end) ++ CRLF
       ++ coord_list_text rest)%string
  end.

(** One line of the index list: the indexes of the three points of
    triangle [t], then -1. *)
Definition index_line (t : nat) : string :=
  ("      " ++ render_zu (Z.of_nat (3 * t)) ++ ", "
   ++ render_zu (Z.of_nat (3 * t + 1)) ++ ", "
   ++ render_zu (Z.of_nat (3 * t + 2)) ++ ", " ++ "-1")%string.

(** The lines of [n] triangles from triangle [t] on; all but the last line
    end with a comma. *)
Fixpoint coord_index_text (n t : nat) : string :=
  match n with
  | O => ""
  | S k =>
      (index_line t ++ (match k with O => "" | _ => "," end) ++ CRLF
       ++ coord_index_text k (S t))%string
  end.

(** A Shape node with an IndexedFaceSet of the triangles of [points]. *)
Definition shape_text (points : list Point) : string :=
  (shape_header ++ coord_list_text points ++ shape_middle
   ++ coord_index_text (List.length points / 3) 0 ++ shape_footer)%string.

(** The Viewpoint, Background and NavigationInfo nodes that end the file. *)
Definition end_text (emin emax : Point) : string :=
  (viewpoint_header ++ "  position "
   ++ render_G (px emin + (px emax - px emin) / 2)%float ++ " "
   ++ render_G (py emin + (py emax - py emin) / 2)%float ++ " "
   ++ render_G (pz emin + (pz emax - pz emin) / 2
                + std_max (px emax - px emin) (py emax - py emin))%float
   ++ LFs ++ viewpoint_footer ++ background_line ++ navigation_line)%string.

End Texts.

(** [points] cut into consecutive batches of [n] points, the last one
    shorter when the points do not fill it. *)
Fixpoint batches_from (fuel n : nat) (points : list Point) : list (list Point) :=
  match fuel, points with
  | S k, _ :: _ => firstn n points :: batches_from k n (skipn n points)
  | _, _ => []
  end.

Definition batches (n : nat) (points : list Point) : list (list Point) :=
  batches_from (List.length points) n points.

End Writer.

(* ================================================================== *)
(** * Conversion driver *)

Module Driver.
Import SimpleFile Reader Writer.

(** [void UpdateMinMax(const Point &input, Point &emin, Point &emax)] *)
Definition UpdateMinMax (input emin emax : Point) : Point * Point :=
  (mkPoint (if ltb (px input) (px emin) then px input else px emin)
           (if ltb (py input) (py emin) then py input else py emin)
           (if ltb (pz input) (pz emin) then pz input else pz emin),
   mkPoint (if ltb (px emax) (px input) then px input else px emax)
           (if ltb (py emax) (py input) then py input else py emax)
           (if ltb (pz emax) (pz input) then pz input else pz emax)).

Definition DBL_MAX : float := 0x1.fffffffffffffp+1023%float.

(** What the loop of [ConvertStlToWrl] has when it ends. *)
Record conversion : Type := mkConversion {
  c_reader : StlReader;
  c_writer : VrmlWriter;
  c_emin : Point;
  c_emax : Point;
  numFacetsProcessed : nat
}.

Section WithEnvironment.

Variable NDEBUG : bool.
Variable atof : string -> float.

(** [while (reader.ReadFacetFromStl(coords)) { ... }].  A facet that is read
    takes at least one byte of the input, so the loop ends before [fuel],
    set to more than the bytes of the file, runs out
    (see [convert_loop_ends]); [None] tells that it ran out.  The progress
    dots on stderr are left out. *)
Fixpoint convert_loop (fuel : nat) (c : conversion) : option (result conversion) :=
  match fuel with
  | O => None
  | S k =>
      match ReadFacetFromStl atof (c_reader c) with
      | Ok (more, coords, reader1) =>
          if negb more
          then Some (Ok (mkConversion reader1 (c_writer c) (c_emin c) (c_emax c)
                                      (numFacetsProcessed c)))
          else
            match WriteFacetToWrl NDEBUG (c_writer c) coords with
            | Ok writer1 =>
                let (emin1, emax1) :=
                  fold_left (fun mm point => UpdateMinMax point (fst mm) (snd mm))
                            coords (c_emin c, c_emax c) in
                convert_loop k (mkConversion reader1 writer1 emin1 emax1
                                             (S (numFacetsProcessed c)))
            | Throw e => Some (Throw e)
            | AssertFailed => Some AssertFailed
            | Hang => Some Hang
            end
      | Throw e => Some (Throw e)
      | AssertFailed => Some AssertFailed
      | Hang => Some Hang
      end
  end.

(** [void ConvertStlToWrl(File &inFile, File &outFile)]: the output file and
    the number of facets processed. *)
Definition ConvertStlToWrl (inFile : File) (outFile : OutFile) : result (OutFile * nat) :=
  reader <- ReadHeaderFromStl (new_reader inFile) ;;
  writer <- WriteStartOfWrl (new_writer outFile) ;;
  let emin := mkPoint DBL_MAX DBL_MAX DBL_MAX in
  let emax := mkPoint (- DBL_MAX) (- DBL_MAX) (- DBL_MAX) in
  match convert_loop (S (List.length (f_data inFile)))
                     (mkConversion reader writer emin emax 0) with
  | None => Hang
  | Some looped =>
      c <- looped ;;
      (* reader.Close() *)
      writer1 <- WriteEndOfWrl NDEBUG (c_writer c) (c_emin c) (c_emax c) ;;
      Ok (w_file writer1, numFacetsProcessed c)
  end.

End WithEnvironment.

(** ** Notions of the properties of the conversion *)

(** The [k]-th record the reader reads from a file it takes for binary:
    [sizeof(BinaryStlRecord)] = 52 bytes from byte 84 + 52 k on. *)
Definition record_at (data : list byte) (k : nat) : list byte :=
  firstn 52 (skipn (84 + 52 * k) data).

(** A file the reader takes for a binary STL of [N] facets and reads to its
    end: 80 bytes of preamble, the count [N >= 1], then [N] records of 52
    bytes (the 50 bytes of a record of the format and two more) whose
    attribute field is zero; the file is below 2 GiB, the limit of
    [Length]. *)
Definition accepted_binary_stl (data : list byte) (N : nat) : Prop :=
  List.length data = (84 + 52 * N)%nat
  /\ (Z.of_nat (List.length data) < 2 ^ 31)%Z
  /\ (1 <= N)%nat
  /\ header_count data = Z.of_nat N
  /\ forall k, (k < N)%nat -> record_attribute (record_at data k) = 0%Z.

(** A binary STL of [N] facets as the format describes it: 80 bytes of
    preamble, the count [N >= 1], then [N] records of 50 bytes. *)
Definition standard_binary_stl (data : list byte) (N : nat) : Prop :=
  List.length data = (84 + 50 * N)%nat
  /\ (1 <= N)%nat
  /\ header_count data = Z.of_nat N.

(** Index triples written, and those waiting in the batch. *)
Definition triples_done (w : VrmlWriter) : nat :=
  (index_triples_in (w_file w) + pending w / 3)%nat.

(** A line of text as it stands in a file: its characters, then LF, or
    CR LF when the flag is set. *)
Definition text_line : Type := (string * bool)%type.

Definition line_bytes (l : text_line) : list byte :=
  list_byte_of_string (fst l) ++ (if snd l then [x0d; x0a] else [x0a]).

Definition file_bytes (ls : list text_line) : list byte :=
  List.concat (map line_bytes ls).

(** The file after a line of it is read. *)
Definition after_line (f : File) (l : text_line) : File :=
  mkFile (f_data f) (f_pos f + List.length (line_bytes l)) (m_lineCounter f + 1).

Fixpoint no_eol (s : string) : bool :=
  match s with
  | "" => true
  | String c r => negb (c =? LF)%char && negb (c =? CR)%char && no_eol r
  end.

(** A line that is not empty and holds no CR or LF. *)
Definition clean_line (l : text_line) : bool :=
  negb (is_empty (fst l)) && no_eol (fst l).

Definition first_token_is (word : string) (l : text_line) : bool :=
  match Tokenizer.StringFields (fst l) with
  | t :: _ => (t =? word)%string
  | [] => false
  end.

(** The line starts with the one-word or the two-word form of a keyword. *)
Definition keyword_line (one w1 w2 : string) (l : text_line) : bool :=
  starts_with_keyword (Tokenizer.StringFields (fst l)) one w1 w2.

(** A vertex line with three coordinates that the vertex check lets pass. *)
Definition vertex_line (atof : string -> float) (l : text_line) : bool :=
  let fields := Tokenizer.StringFields (fst l) in
  (4 <=? List.length fields)%nat
  && (field fields 0 =? "vertex")%string
  && negb (bad_conversion
             (mkPoint (atof (c_str (field fields 1))) (atof (c_str (field fields 2)))
                      (atof (c_str (field fields 3))))
             fields).

(** The point a vertex line stands for: [atof] of its tokens 1 to 3. *)
Definition vertex_point (atof : string -> float) (l : text_line) : Point :=
  let fields := Tokenizer.StringFields (fst l) in
  mkPoint (atof (c_str (field fields 1))) (atof (c_str (field fields 2)))
          (atof (c_str (field fields 3))).

(** [n] facets of seven lines each, then the line that ends the solid;
    what follows that line is not read. *)
Fixpoint facet_blocks (atof : string -> float) (n : nat) (ls : list text_line) : bool :=
  match n, ls with
  | O, l :: _ => clean_line l && keyword_line "endsolid" "end" "solid" l
  | S k, l1 :: l2 :: l3 :: l4 :: l5 :: l6 :: l7 :: rest =>
      forallb clean_line [l1; l2; l3; l4; l5; l6; l7]
      && first_token_is "facet" l1
      && keyword_line "outerloop" "outer" "loop" l2
      && vertex_line atof l3 && vertex_line atof l4 && vertex_line atof l5
      && keyword_line "endloop" "end" "loop" l6
      && keyword_line "endfacet" "end" "facet" l7
      && facet_blocks atof k rest
  | _, _ => false
  end.

(** An ASCII STL of [n] facets, token by token as the format describes it,
    with no empty line. *)
Definition valid_ascii_stl (atof : string -> float) (ls : list text_line) (n : nat) : bool :=
  match ls with
  | header :: rest =>
      clean_line header && first_token_is "solid" header && facet_blocks atof n rest
  | [] => false
  end.

(** The bounds the loop of [ConvertStlToWrl] starts from, and the bounds
    after [UpdateMinMax] has been given [points] one by one. *)
Definition initial_bounds : Point * Point :=
  (mkPoint DBL_MAX DBL_MAX DBL_MAX, mkPoint (- DBL_MAX) (- DBL_MAX) (- DBL_MAX)).

Definition bounds_from (mm : Point * Point) (points : list Point) : Point * Point :=
  fold_left (fun mm point => UpdateMinMax point (fst mm) (snd mm)) points mm.

Definition bounds (points : list Point) : Point * Point :=
  bounds_from initial_bounds points.

(** [p] is within the bounds [mm]: no coordinate of [p] is less than that
    of the minimum or greater than that of the maximum, by the [<] of
    doubles. *)
Definition inside (p : Point) (mm : Point * Point) : bool :=
  negb (ltb (px p) (px (fst mm))) && negb (ltb (px (snd mm)) (px p))
  && negb (ltb (py p) (py (fst mm))) && negb (ltb (py (snd mm)) (py p))
  && negb (ltb (pz p) (pz (fst mm))) && negb (ltb (pz (snd mm)) (pz p)).

(** The least and the greatest of [start] and the coordinates [g p] of the
    points, taken one by one with [<]. *)
Definition running_min (g : Point -> float) (points : list Point) (start : float) : float :=
  fold_left (fun m p => if ltb (g p) m then g p else m) points start.

Definition running_max (g : Point -> float) (points : list Point) (start : float) : float :=
  fold_left (fun m p => if ltb m (g p) then g p else m) points start.

(** The file has, from some byte on, a CR followed by nothing but CR and
    LF up to its end: it ends in blank lines, one of them with a CR. *)
Definition blank_CR_tail (data : list byte) : Prop :=
  exists n tail,
    skipn n data = x0d :: tail /\ Forall (fun b => b = x0d \/ b = x0a) tail.

(** [reads_facets atof r facets r']: from [r], [ReadFacetFromStl] returns
    the facets [facets] one after the other, then false, leaving [r']. *)
Inductive reads_facets (atof : string -> float)
  : StlReader -> list (list Point) -> StlReader -> Prop :=
| reads_end r r' :
    ReadFacetFromStl atof r = Ok (false, [], r') ->
    reads_facets atof r [] r'
| reads_facet r coords r1 rest r' :
    ReadFacetFromStl atof r = Ok (true, coords, r1) ->
    reads_facets atof r1 rest r' ->
    reads_facets atof r (coords :: rest) r'.

(** The triangles of a file of [N] records: the points of its records, in
    the order of the file. *)
Definition binary_facets (data : list byte) (N : nat) : list (list Point) :=
  map (fun k => record_points (record_at data k)) (seq 0 N).

(** The triangles of [n] facet blocks of an ASCII STL: the points of the
    three vertex lines of each block, in the order of the file. *)
Fixpoint ascii_facets (atof : string -> float) (n : nat) (ls : list text_line)
  : list (list Point) :=
  match n, ls with
  | S k, _ :: _ :: l3 :: l4 :: l5 :: _ :: _ :: rest =>
      [vertex_point atof l3; vertex_point atof l4; vertex_point atof l5]
      :: ascii_facets atof k rest
  | _, _ => []
  end.

(** The VRML text of a model: the header, one Shape node per batch of 1000
    triangles, and the nodes of the end with the bounds of all the points. *)
Definition conversion_text (render_G render_15G : float -> string)
    (facets : list (list Point)) : string :=
  (wrl_header
   ++ String.concat ""
        (map (shape_text render_15G) (batches maxPointsPerFaceSet (List.concat facets)))
   ++ end_text render_G (fst (bounds (List.concat facets)))
                        (snd (bounds (List.concat facets))))%string.

End Driver.

(* ================================================================== *)
(** * Program entry point *)

Module Main.
Import SimpleFile Reader Writer Driver.

Definition EXIT_SUCCESS : Z := 0.
Definition EXIT_FAILURE : Z := 1.

(** A stream, as the [File] objects that hold it see it: whether their
    [FILE *m_file] is set, and how many times [fclose] has been called on the
    stream.  The copy constructor of [File] is the implicit one: a copy
    holds the same [m_file], so the original and its copies close the same
    stream, and one record is threaded through their calls. *)
Record Handle : Type := mkHandle {
  h_stream : bool;
  h_fcloses : nat
}.

(** [File inFile;] and the object after an [Open] or [Create] that
    succeeded. *)
Definition unopened : Handle := mkHandle false 0.
Definition opened : Handle := mkHandle true 0.

(** [bool IsOpen() { return (m_file != nullptr); }] *)
Definition IsOpen (h : Handle) : bool := h_stream h.

(** [void Close() { if (m_file) fclose(m_file); }]: [m_file] is left as it
    is. *)
Definition Close (h : Handle) : Handle :=
  if h_stream h then mkHandle (h_stream h) (S (h_fcloses h)) else h.

(** [~File() { if (m_file) fclose(m_file); }], of the object or of a copy
    of it. *)
Definition destroy (h : Handle) : Handle :=
  if h_stream h then mkHandle (h_stream h) (S (h_fcloses h)) else h.

(** What the program finds outside: [fs_open name] tells whether the file
    opens for reading, and the bytes its reads then give; [fs_create name]
    tells whether the file can be created for writing, and how many writes
    the device then takes ([None]: any number). *)
Record FileSystem : Type := mkFs {
  fs_open : string -> option (list byte);
  fs_create : string -> option (option nat)
}.

(** The output file when [wmain] returns: not created; created, with what
    a conversion that failed has written to it (not tracked); or as the
    conversion that succeeded has left it. *)
Inductive output_state : Type :=
| NotCreated
| Partial
| Written (f : OutFile).

(** How a run ends: [wmain] returns an exit code, having printed lines on
    stdout, and the destructors of the [File] objects have run (the two
    numbers are the [fclose] calls on the stream of the input and on that of
    the output); or an assertion aborts the program; or it does not
    return. *)
Inductive run : Type :=
| Returned (code : Z) (stdout : list string) (out : output_state)
           (in_fcloses out_fcloses : nat)
| AssertAbort
| NoReturn.

Section WithEnvironment.

Variable NDEBUG : bool.
Variable atof : string -> float.

(** Whether [ConvertStlToWrl] gets to its [reader.Close()]: the header
    read, the start of the output and the loop over the facets have
    returned. *)
Definition reaches_Close (inFile : File) (outFile : OutFile) : bool :=
  match ReadHeaderFromStl (new_reader inFile) with
  | Ok reader =>
      match WriteStartOfWrl (new_writer outFile) with
      | Ok writer =>
          match convert_loop NDEBUG atof (S (List.length (f_data inFile)))
                  (mkConversion reader writer
                     (mkPoint DBL_MAX DBL_MAX DBL_MAX)
                     (mkPoint (- DBL_MAX) (- DBL_MAX) (- DBL_MAX)) 0) with
          | Some (Ok _) => true
          | _ => false
          end
      | _ => false
      end
  | _ => false
  end.

Definition usage : string := ("Usage:  stl2vrml infile.stl outfile.wrl" ++ LFs)%string.

(** [int wmain(int argc, wchar_t **argv)], with [argc] the length of
    [argv].  The lines written to stderr are left out. *)
Definition wmain (fs : FileSystem) (argv : list string) : run :=
  if negb (List.length argv =? 3)%nat then
    Returned EXIT_FAILURE [usage] NotCreated 0 0
  else
    let inFilename := nth 1 argv "" in
    let outFilename := nth 2 argv "" in
    let out1 := [("Opening " ++ inFilename ++ " for reading." ++ LFs)%string] in
    match fs_open fs inFilename with
    | None =>
        Returned EXIT_FAILURE
          (out1 ++ [("stl2vrml:  Failed opening input file:  " ++ inFilename ++ LFs)%string])
          NotCreated (h_fcloses (destroy unopened)) 0
    | Some data =>
        let out2 :=
          out1 ++ [("stl2vrml:  Opening " ++ outFilename ++ " for writing." ++ LFs)%string] in
        match fs_create fs outFilename with
        | None =>
            Returned EXIT_FAILURE
              (out2 ++ [("stl2vrml:  Failed opening output file:  " ++ outFilename
                         ++ LFs)%string])
              NotCreated (h_fcloses (destroy opened)) (h_fcloses (destroy unopened))
        | Some quota =>
            let out3 := out2 ++ [("stl2vrml:  Processing." ++ LFs)%string] in
            let inFile := open_file data in
            let outFile := create_file quota in
            (* [StlReader reader(inFile)]: the reader holds a copy of the
               [File] object ([File m_file;], by value), the writer a
               reference.  [reader.Close()] when it is reached, then the
               destructor of the reader's copy when [ConvertStlToWrl] is
               left, by return or by exception, then that of [inFile]. *)
            let inHandle :=
              if reaches_Close inFile outFile then Close opened else opened in
            let in_fcloses := h_fcloses (destroy (destroy inHandle)) in
            let out_fcloses := h_fcloses (destroy opened) in
            match ConvertStlToWrl NDEBUG atof inFile outFile with
            | Ok (f, _) =>
                Returned EXIT_SUCCESS (out3 ++ [("stl2vrml:  Done." ++ LFs)%string])
                         (Written f) in_fcloses out_fcloses
            | Throw (FormatError text) =>
                (* catch(const char *text) *)
                Returned EXIT_FAILURE
                  (out3 ++ [("stl2vrml:  Error - " ++ text ++ LFs)%string])
                  Partial in_fcloses out_fcloses
            | Throw (WriteError _) =>
                (* catch(...): [writeError] is a [const wchar_t *] *)
                Returned EXIT_FAILURE
                  (out3 ++ [("stl2vrml:  Aborted due to exception!" ++ LFs)%string])
                  Partial in_fcloses out_fcloses
            | AssertFailed => AssertAbort
            | Hang => NoReturn
            end
        end
    end.

End WithEnvironment.

(** ** Notions of the properties of a run *)

(** The line printed by the [catch(...)] of [wmain]. *)
Definition aborted_line : string :=
  ("stl2vrml:  Aborted due to exception!" ++ LFs)%string.

Definition exit_code (r : run) : option Z :=
  match r with
  | Returned code _ _ _ _ => Some code
  | _ => None
  end.

Definition last_line (r : run) : option string :=
  match r with
  | Returned _ stdout _ _ _ => Some (List.last stdout "")
  | _ => None
  end.

Definition output_of (r : run) : option output_state :=
  match r with
  | Returned _ _ out _ _ => Some out
  | _ => None
  end.

End Main.

(* ================================================================== *)
(** * Inputs for the examples *)

Module Samples.
Import SimpleFile Reader Writer Driver.

(** Lines joined with '\n' after each. *)
Fixpoint unix_lines (ls : list string) : string :=
  match ls with
  | [] => ""
  | l :: r => (l ++ LFs ++ unix_lines r)%string
  end.

Definition file_of_string (s : string) : File := open_file (list_byte_of_string s).

(** A decimal reader standing for [atof] in the examples: an optional sign,
    digits, an optional fraction; 0 when there is no digit.  (Exact for the
    short literals used here.) *)
Fixpoint digits_value (s : string) (acc : Z) : Z * string :=
  match s with
  | String c r =>
      let n := Z.of_nat (nat_of_ascii c) in
      if ((48 <=? n) && (n <=? 57))%Z then digits_value r (10 * acc + (n - 48))%Z
      else (acc, s)
  | "" => (acc, "")
  end.

Definition float_of_Z (z : Z) : float :=
  SF2Prim (binary_normalize prec emax z 0 false).

Definition atof_decimal (s : string) : float :=
  let (neg, s1) := match s with
                   | String "-" r => (true, r)
                   | String "+" r => (false, r)
                   | _ => (false, s)
                   end in
  let (int_part, s2) := digits_value s1 0%Z in
  let v := match s2 with
           | String "." r =>
               let (frac, rest) := digits_value r 0%Z in
               let k := (String.length r - String.length rest)%nat in
               (float_of_Z (int_part * 10 ^ Z.of_nat k + frac)
                / float_of_Z (10 ^ Z.of_nat k))%float
           | _ => float_of_Z int_part
           end in
  if neg then (- v)%float else v.

(** One ASCII facet with three vertices given as text. *)
Definition facet_lines (v1 v2 v3 : string) : list string :=
  [ "facet normal 0 0 1";
    "  outer loop";
    ("    vertex " ++ v1)%string;
    ("    vertex " ++ v2)%string;
    ("    vertex " ++ v3)%string;
    "  end loop";
    "end facet" ].

Definition one_facet : list string := facet_lines "0 0 0" "1 0 0" "0 1 0".

(** A well-formed ASCII STL of one facet, with Unix line ends. *)
Definition ascii_one_facet : string :=
  unix_lines (["solid a"] ++ one_facet ++ ["endsolid a"]).

(** The same with an empty line after the "solid" line. *)
Definition ascii_blank_line : string :=
  unix_lines (["solid a"; ""] ++ one_facet ++ ["endsolid a"]).

(** A file that ends after the "facet" line. *)
Definition ascii_cut_after_facet : string :=
  unix_lines ["solid a"; "facet normal 0 0 1"].

(** The lines of [ascii_one_facet], ended by CR LF. *)
Definition dos_one_facet : list Driver.text_line :=
  map (fun l => (l, true)) (["solid a"] ++ one_facet ++ ["endsolid a"]).

(** A stand-in for the rendering of a [double] in the examples: exact for
    0 and 1. *)
Definition render_small (d : float) : string :=
  if PrimFloat.eqb d 0 then "0" else if PrimFloat.eqb d 1 then "1" else "?".

Definition unit_triangle : list Point :=
  [mkPoint 0 0 0; mkPoint 1 0 0; mkPoint 0 1 0].

(** A record as the reader reads it, 52 bytes, whose first vertex is
    (NaN, +infinity, -infinity). *)
Definition nan_record : list byte :=
  repeat x00 12
  ++ [x00; x00; xc0; x7f] ++ [x00; x00; x80; x7f] ++ [x00; x00; x80; xff]
  ++ repeat x00 24
  ++ [x00; x00]
  ++ [x00; x00].

(** A binary STL of one facet in the layout of the format, 84 + 50 bytes:
    the unit triangle with normal (0, 0, 1). *)
Definition binary_one_facet : list byte :=
  repeat x00 80
  ++ [x01; x00; x00; x00]
  ++ (repeat x00 8 ++ [x00; x00; x80; x3f])
  ++ repeat x00 12
  ++ ([x00; x00; x80; x3f] ++ repeat x00 8)
  ++ (repeat x00 4 ++ [x00; x00; x80; x3f] ++ repeat x00 4)
  ++ [x00; x00].

(** The same facet in a record of 52 bytes: two bytes follow the attribute
    field. *)
Definition padded_one_facet : list byte := binary_one_facet ++ [x00; x00].

(** A file system with one input file, the binary STL of one facet, where
    any file can be created on a device that takes all writes. *)
Definition one_file_fs : Main.FileSystem :=
  Main.mkFs (fun name => if (name =? "in.stl")%string then Some binary_one_facet else None)
            (fun _ => Some None).

End Samples.

(* ================================================================== *)
(** * Properties of the tokenizer *)

Module TokenizerProps.
Import Tokenizer.

Lemma is_sep_space c : isspace c = true -> is_sep c = true.
Proof. unfold is_sep. intros ->. reflexivity. Qed.

Lemma is_sep_delim c : is_delim c = true -> is_sep c = true.
Proof. unfold is_sep. intros ->. apply orb_true_r. Qed.

Lemma not_sep c : is_sep c = false -> isspace c = false /\ is_delim c = false.
Proof. unfold is_sep. apply orb_false_elim. Qed.

(** ** The loop ends: every turn shortens the rest of the line *)

Lemma skip_spaces_length p : String.length (skip_spaces p) <= String.length p.
Proof.
  induction p as [|c r IH]; simpl; [lia|].
  destruct (isspace c); simpl; lia.
Qed.

Lemma skip_one_delim_length p : String.length (skip_one_delim p) <= String.length p.
Proof. destruct p as [|c r]; simpl; [lia|]. destruct (is_delim c); simpl; lia. Qed.

Lemma take_field_length p : String.length (snd (take_field p)) <= String.length p.
Proof.
  induction p as [|c r IH]; simpl; [lia|].
  destruct (is_sep c); simpl; [lia|].
  destruct (take_field r) as [f q]; simpl in *; lia.
Qed.

Lemma take_field_token_length c r :
  is_sep c = false ->
  String.length (snd (take_field (String c r))) < String.length (String c r).
Proof.
  intros Hc. simpl. rewrite Hc.
  pose proof (take_field_length r) as H.
  destruct (take_field r) as [f q]; simpl in *; lia.
Qed.

Lemma next_field_shorter c r :
  String.length (snd (next_field (String c r))) < String.length (String c r).
Proof.
  unfold next_field.
  destruct (isspace c) eqn:Hs.
  - (* a space is skipped *)
    cbn [skip_spaces]. rewrite Hs.
    pose proof (skip_spaces_length r).
    pose proof (skip_one_delim_length (skip_spaces r)).
    pose proof (skip_spaces_length (skip_one_delim (skip_spaces r))).
    pose proof (take_field_length (skip_spaces (skip_one_delim (skip_spaces r)))).
    simpl String.length. lia.
  - cbn [skip_spaces]. rewrite Hs.
    destruct (is_delim c) eqn:Hd.
    + (* a delimiter is skipped *)
      cbn [skip_one_delim]. rewrite Hd.
      pose proof (skip_spaces_length r).
      pose proof (take_field_length (skip_spaces r)).
      simpl String.length. lia.
    + (* the field starts here *)
      cbn [skip_one_delim]. rewrite Hd.
      cbn [skip_spaces]. rewrite Hs.
      apply take_field_token_length. unfold is_sep. now rewrite Hs, Hd.
Qed.

Lemma fields_loop_S k c r :
  fields_loop (S k) (String c r) =
    let (field, q) := next_field (String c r) in field :: fields_loop k q.
Proof. reflexivity. Qed.

(** More fuel than the line has characters is enough fuel. *)
Lemma fields_loop_fuel n : forall m p,
  String.length p < n -> String.length p < m ->
  fields_loop n p = fields_loop m p.
Proof.
  induction n as [|n IH]; intros m p Hn Hm; [lia|].
  destruct m as [|m]; [lia|].
  destruct p as [|c r]; [reflexivity|].
  cbn [fields_loop].
  pose proof (next_field_shorter c r) as Hlt.
  destruct (next_field (String c r)) as [f q]. cbn [snd] in Hlt.
  f_equal. apply IH; simpl in *; lia.
Qed.

Lemma c_str_length s : String.length (c_str s) <= String.length s.
Proof.
  induction s as [|c r IH]; simpl; [lia|].
  destruct (c =? NUL)%char; simpl; lia.
Qed.

(** The equation of the [while] loop of the source. *)
Lemma StringFields_loop p :
  c_str p = p ->
  StringFields p =
    match p with
    | "" => []
    | _ => let (field, q) := next_field p in field :: fields_loop (S (String.length q)) q
    end.
Proof.
  intros Hp. unfold StringFields. rewrite Hp.
  destruct p as [|c r]; [reflexivity|].
  rewrite fields_loop_S.
  pose proof (next_field_shorter c r) as Hlt.
  destruct (next_field (String c r)) as [f q]. cbn [snd] in Hlt.
  f_equal. apply fields_loop_fuel; simpl in *; lia.
Qed.

(** ** Tokens hold no separator *)

Lemma take_field_no_sep p : no_sep (fst (take_field p)) = true.
Proof.
  induction p as [|c r IH]; simpl; [reflexivity|].
  destruct (is_sep c) eqn:Hc; simpl; [reflexivity|].
  destruct (take_field r) as [f q]; simpl in *. now rewrite Hc, IH.
Qed.

Lemma fields_loop_no_sep n : forall p,
  Forall (fun t => no_sep t = true) (fields_loop n p).
Proof.
  induction n as [|n IH]; intros p; simpl; [constructor|].
  destruct p as [|c r]; [constructor|].
  unfold next_field.
  pose proof (take_field_no_sep
                (skip_spaces (skip_one_delim (skip_spaces (String c r))))) as H.
  destruct (take_field _) as [f q]. constructor; [exact H | apply IH].
Qed.

(** ** Tokens, put end to end, are the line without its separators *)

Lemma strip_skip_spaces p : strip_seps (skip_spaces p) = strip_seps p.
Proof.
  induction p as [|c r IH]; simpl; [reflexivity|].
  destruct (isspace c) eqn:Hs; [|reflexivity].
  now rewrite (is_sep_space _ Hs).
Qed.

Lemma strip_skip_one_delim p : strip_seps (skip_one_delim p) = strip_seps p.
Proof.
  destruct p as [|c r]; simpl; [reflexivity|].
  destruct (is_delim c) eqn:Hd; [|reflexivity].
  now rewrite (is_sep_delim _ Hd).
Qed.

Lemma strip_take_field p :
  strip_seps p = (fst (take_field p) ++ strip_seps (snd (take_field p)))%string.
Proof.
  induction p as [|c r IH]; simpl; [reflexivity|].
  destruct (is_sep c) eqn:Hc; simpl.
  - now rewrite Hc.
  - destruct (take_field r) as [f q]; simpl in *. now rewrite IH.
Qed.

Lemma append_empty_r s : (s ++ "")%string = s.
Proof. induction s as [|c r IH]; simpl; [reflexivity | now rewrite IH]. Qed.

Lemma fields_loop_concat n : forall p,
  String.length p < n ->
  String.concat "" (fields_loop n p) = strip_seps p.
Proof.
  induction n as [|n IH]; intros p Hn; [lia|].
  destruct p as [|c r]; [reflexivity|].
  cbn [fields_loop].
  pose proof (next_field_shorter c r) as Hlt.
  assert (Hs : strip_seps (String c r) =
               (fst (next_field (String c r))
                ++ strip_seps (snd (next_field (String c r))))%string).
  { unfold next_field. rewrite <- strip_take_field.
    now rewrite strip_skip_spaces, strip_skip_one_delim, strip_skip_spaces. }
  destruct (next_field (String c r)) as [f q]. cbn [fst snd] in *.
  rewrite Hs, <- (IH q) by (simpl in *; lia).
  destruct (fields_loop n q) as [|t ts]; cbn [String.concat].
  - now rewrite append_empty_r.
  - reflexivity.
Qed.

(** ** On plainly separated lines the tokens are the maximal runs *)

Lemma runs_skip_spaces p : maximal_runs (skip_spaces p) = maximal_runs p.
Proof.
  induction p as [|c r IH]; [reflexivity|].
  cbn [skip_spaces]. destruct (isspace c) eqn:Hs; [|reflexivity].
  cbn [maximal_runs]. now rewrite (is_sep_space _ Hs).
Qed.

Lemma runs_skip_one_delim p : maximal_runs (skip_one_delim p) = maximal_runs p.
Proof.
  destruct p as [|c r]; [reflexivity|].
  cbn [skip_one_delim]. destruct (is_delim c) eqn:Hd; [|reflexivity].
  cbn [maximal_runs]. now rewrite (is_sep_delim _ Hd).
Qed.

Lemma runs_take_field r : forall c,
  is_sep c = false ->
  maximal_runs (String c r)
  = fst (take_field (String c r)) :: maximal_runs (snd (take_field (String c r))).
Proof.
  induction r as [|c' r' IH]; intros c Hc.
  - cbn [maximal_runs take_field]. rewrite Hc. reflexivity.
  - destruct (is_sep c') eqn:Hc'.
    + cbn [maximal_runs take_field]. rewrite Hc, Hc'.
      cbn [fst snd maximal_runs]. rewrite Hc'. reflexivity.
    + specialize (IH c' Hc').
      change (maximal_runs (String c (String c' r')))
        with (if is_sep c then maximal_runs (String c' r')
              else if is_sep c' then String c "" :: maximal_runs (String c' r')
              else match maximal_runs (String c' r') with
                   | t :: ts => String c t :: ts
                   | [] => [String c ""]
                   end).
      rewrite Hc, Hc', IH.
      change (take_field (String c (String c' r')))
        with (if is_sep c then ("", String c (String c' r'))
              else let (f, q) := take_field (String c' r') in (String c f, q)).
      rewrite Hc. destruct (take_field (String c' r')) as [f q]. reflexivity.
Qed.

Lemma runs_nonempty p : Forall (fun t => nonempty t = true) (maximal_runs p).
Proof.
  induction p as [|c r IH]; [constructor|].
  cbn [maximal_runs]. destruct (is_sep c); [exact IH|].
  destruct r as [|c' r']; [repeat constructor|].
  destruct (is_sep c'); [constructor; [reflexivity | exact IH]|].
  destruct (maximal_runs (String c' r')) as [|t ts]; [repeat constructor|].
  inversion IH; subst. constructor; [reflexivity | assumption].
Qed.

Lemma no_double_delim_weaken p : forall d,
  no_double_delim d p = true -> no_double_delim false p = true.
Proof.
  induction p as [|c r IH]; intros d H; [reflexivity|].
  cbn [no_double_delim] in *.
  destruct (is_delim c).
  - apply andb_true_iff in H as [_ H]. now rewrite H.
  - destruct (isspace c); [now apply (IH d) | exact H].
Qed.

Lemma no_double_delim_skip_spaces p : forall d,
  no_double_delim d p = true -> no_double_delim d (skip_spaces p) = true.
Proof.
  induction p as [|c r IH]; intros d H; [reflexivity|].
  cbn [skip_spaces]. destruct (isspace c) eqn:Hs; [|exact H].
  apply IH. cbn [no_double_delim] in H. rewrite Hs in H.
  destruct (is_delim c) eqn:Hd; [|exact H].
  apply andb_true_iff in H as [Hd' H].
  destruct d; [discriminate|]. now apply (no_double_delim_weaken _ true).
Qed.

Lemma no_double_delim_take_field p : forall d,
  no_double_delim d p = true ->
  no_double_delim false (snd (take_field p)) = true.
Proof.
  induction p as [|c r IH]; intros d H; [reflexivity|].
  cbn [take_field]. destruct (is_sep c) eqn:Hc.
  - now apply (no_double_delim_weaken _ d).
  - destruct (not_sep _ Hc) as [Hs Hd].
    cbn [no_double_delim] in H. rewrite Hs, Hd in H.
    specialize (IH false H). destruct (take_field r) as [f q]. exact IH.
Qed.

Lemma ends_in_token_cons c r :
  is_sep c = true -> ends_in_token (String c r) = true -> ends_in_token r = true.
Proof.
  intros Hc H. destruct r as [|c' r']; cbn [ends_in_token] in H.
  - now rewrite Hc in H.
  - exact H.
Qed.

Lemma ends_in_token_skip_spaces p :
  ends_in_token p = true -> ends_in_token (skip_spaces p) = true.
Proof.
  induction p as [|c r IH]; intros H; [discriminate|].
  cbn [skip_spaces]. destruct (isspace c) eqn:Hs; [|exact H].
  apply IH. apply (ends_in_token_cons c); [now apply is_sep_space | exact H].
Qed.

Lemma ends_in_token_take_field p :
  ends_in_token p = true ->
  nonempty (snd (take_field p)) = false \/ ends_in_token (snd (take_field p)) = true.
Proof.
  induction p as [|c r IH]; intros H; [discriminate|].
  cbn [take_field]. destruct (is_sep c) eqn:Hc; [now right|].
  destruct r as [|c' r'].
  - now left.
  - specialize (IH H). destruct (take_field (String c' r')) as [f q]. exact IH.
Qed.

(** On a plainly separated line that is not empty, the two skips of a turn
    stop on the first character of a field. *)
Lemma turn_reaches_field c r :
  no_double_delim false (String c r) = true ->
  ends_in_token (String c r) = true ->
  exists c1 r1 d,
    skip_spaces (skip_one_delim (skip_spaces (String c r))) = String c1 r1
    /\ is_sep c1 = false
    /\ no_double_delim d (String c1 r1) = true
    /\ ends_in_token (String c1 r1) = true.
Proof.
  intros Hdd Hend.
  pose proof (no_double_delim_skip_spaces _ _ Hdd) as Hdd1.
  pose proof (ends_in_token_skip_spaces _ Hend) as Hend1.
  assert (Hsp : forall q, ends_in_token q = true ->
                  exists a t, skip_spaces q = String a t /\ isspace a = false).
  { induction q as [|a t IHq]; intros Hq; [discriminate|].
    cbn [skip_spaces]. destruct (isspace a) eqn:Ha.
    - apply IHq. apply (ends_in_token_cons a); [now apply is_sep_space | exact Hq].
    - now exists a, t. }
  destruct (Hsp _ Hend) as (a & t & Eq & Ha).
  rewrite Eq in *. cbn [skip_one_delim].
  destruct (is_delim a) eqn:Hd.
  - (* a delimiter first: the field follows the spaces after it *)
    cbn [no_double_delim] in Hdd1. rewrite Hd in Hdd1. simpl in Hdd1.
    pose proof (ends_in_token_cons a t (is_sep_delim _ Hd) Hend1) as Hend2.
    destruct (Hsp _ Hend2) as (a2 & t2 & Eq2 & Ha2).
    pose proof (no_double_delim_skip_spaces _ _ Hdd1) as Hdd2.
    pose proof (ends_in_token_skip_spaces _ Hend2) as Hend3.
    rewrite Eq2 in *.
    exists a2, t2, true. repeat split; try assumption.
    unfold is_sep. rewrite Ha2. cbn [no_double_delim] in Hdd2.
    destruct (is_delim a2); [discriminate | reflexivity].
  - exists a, t, false.
    cbn [skip_spaces]. rewrite Ha. repeat split; try assumption.
    unfold is_sep. now rewrite Ha, Hd.
Qed.

Lemma fields_loop_runs n : forall p,
  String.length p < n ->
  plainly_separated p = true ->
  fields_loop n p = maximal_runs p.
Proof.
  induction n as [|n IH]; intros p Hn Hp; [lia|].
  destruct p as [|c r]; [reflexivity|].
  unfold plainly_separated in Hp. apply andb_true_iff in Hp as [Hdd Hend].
  cbn [nonempty negb orb] in Hend.
  destruct (turn_reaches_field c r Hdd Hend) as (c1 & r1 & d & Eq & Hc1 & Hdd1 & Hend1).
  rewrite fields_loop_S.
  pose proof (next_field_shorter c r) as Hlt.
  unfold next_field in *. rewrite Eq in *.
  rewrite <- runs_skip_spaces, <- runs_skip_one_delim, <- runs_skip_spaces, Eq.
  rewrite (runs_take_field r1 c1 Hc1).
  pose proof (no_double_delim_take_field _ _ Hdd1) as Hq1.
  pose proof (ends_in_token_take_field _ Hend1) as Hq2.
  destruct (take_field (String c1 r1)) as [f q]. cbn [fst snd] in *.
  f_equal. apply IH; [simpl in *; lia|].
  unfold plainly_separated. rewrite Hq1.
  destruct Hq2 as [-> | ->]; [reflexivity | apply orb_true_r].
Qed.

(** C7, as it stands, fails: between two commas the tokenizer returns an
    empty token, so the tokens are not all non-empty. *)
Lemma StringFields_empty_token :
  StringFields "a,,b" = ["a"; ""; "b"]
  /\ ~ Forall (fun t => t <> "") (StringFields "a,,b").
Proof.
  split; [reflexivity|].
  intros H. change (StringFields "a,,b") with ["a"; ""; "b"] in H.
  inversion H as [|? ? _ H1]; subst. inversion H1 as [|? ? H2 _]; subst.
  now apply H2.
Qed.

(** C7, amended.  For every line, read up to its first NUL: the tokens, in
    order, hold no white space, comma or semicolon and, put end to end, are
    the line without these separators; a comma or semicolon is taken as one
    separator, so that no token is lost or split.  When no two commas or
    semicolons follow each other with only white space between them and the
    line does not end in a separator, the tokens are exactly the maximal
    runs of characters that are not separators, and none is empty.  The
    empty line has no token. *)
Theorem StringFields_tokens (line : string) :
  Forall (fun t => no_sep t = true) (StringFields line)
  /\ String.concat "" (StringFields line) = strip_seps (c_str line)
  /\ (plainly_separated (c_str line) = true ->
      StringFields line = maximal_runs (c_str line)
      /\ Forall (fun t => nonempty t = true) (StringFields line))
  /\ StringFields "" = [].
Proof.
  pose proof (c_str_length line) as Hlen.
  split; [apply fields_loop_no_sep|].
  split; [apply fields_loop_concat; lia|].
  split; [|reflexivity].
  intros Hp.
  assert (E : StringFields line = maximal_runs (c_str line))
    by (apply fields_loop_runs; [lia | exact Hp]).
  split; [exact E|]. rewrite E. apply runs_nonempty.
Qed.

Lemma StringFields_tokens_witness :
  plainly_separated (c_str "1.0, 2.0;3.0") = true
  /\ StringFields "1.0, 2.0;3.0" = ["1.0"; "2.0"; "3.0"]
  /\ StringFields "  a  b" = ["a"; "b"].
Proof.
  split; [reflexivity|]. split.
  - destruct (StringFields_tokens "1.0, 2.0;3.0") as (_ & _ & H & _).
    destruct (H eq_refl) as [E _]. rewrite E. reflexivity.
  - destruct (StringFields_tokens "  a  b") as (_ & _ & H & _).
    destruct (H eq_refl) as [E _]. rewrite E. reflexivity.
Defined.

End TokenizerProps.

(* ================================================================== *)
(** * Properties of the writer *)

Module WriterProps.
Import Reader Writer.

Lemma Printf_unlimited f fmt args :
  o_quota f = None -> Printf f fmt args = (true, push f fmt args).
Proof. unfold Printf, push. now intros ->. Qed.

Lemma Printf_or_throw_unlimited f fmt args :
  o_quota f = None -> Printf_or_throw f fmt args = Ok (push f fmt args).
Proof. intros H. unfold Printf_or_throw. now rewrite Printf_unlimited. Qed.

Lemma push_unlimited f fmt args : o_quota f = None -> o_quota (push f fmt args) = None.
Proof. intros H. exact H. Qed.

Lemma tally_push_other f fmt args :
  counted fmt = false -> tally (push f fmt args) = tally f.
Proof.
  unfold counted, tally, shapes_in, points_in, index_triples_in, count_fmt, push.
  intros H. apply orb_false_elim in H as [H H3]. apply orb_false_elim in H as [H1 H2].
  cbn [o_calls filter call_fmt]. now rewrite H1, H2, H3.
Qed.

Lemma tally_push_shape f args :
  tally (push f shape_header args) = tally_add (tally f) 1 0 0.
Proof.
  unfold tally, tally_add, shapes_in, points_in, index_triples_in, count_fmt.
  cbn. f_equal; [f_equal|]; lia.
Qed.

Lemma tally_push_point f args :
  tally (push f fmt_point args) = tally_add (tally f) 0 1 0.
Proof.
  unfold tally, tally_add, shapes_in, points_in, index_triples_in, count_fmt.
  cbn. f_equal; [f_equal|]; lia.
Qed.

Lemma tally_push_face_end f args :
  tally (push f fmt_face_end args) = tally_add (tally f) 0 0 1.
Proof.
  unfold tally, tally_add, shapes_in, points_in, index_triples_in, count_fmt.
  cbn. f_equal; [f_equal|]; lia.
Qed.

Lemma tally_add_add t a b c a' b' c' :
  tally_add (tally_add t a b c) a' b' c' = tally_add t (a + a') (b + b') (c + c').
Proof. destruct t as [[x y] z]. cbn. f_equal; [f_equal|]; lia. Qed.

Lemma tally_add_0 t : tally_add t 0 0 0 = t.
Proof. destruct t as [[x y] z]. cbn. now rewrite !Nat.add_0_r. Qed.

(** One step of a sequence of checked writes on a file that takes them. *)
Ltac write_ok H :=
  rewrite (Printf_or_throw_unlimited _ _ _ H); cbn [bind].

Ltac tally_push :=
  repeat first
    [ rewrite tally_push_shape
    | rewrite tally_push_point
    | rewrite tally_push_face_end
    | rewrite tally_push_other by reflexivity ].

(** ** The loops write one line per point and per triangle *)

Lemma coord_list_loop_ok points : forall k size f,
  o_quota f = None ->
  exists f', coord_list_loop points k size f = Ok f'
    /\ o_quota f' = None
    /\ tally f' = tally_add (tally f) 0 (List.length points) 0.
Proof.
  induction points as [|p rest IH]; intros k size f Hq.
  - exists f. cbn [coord_list_loop List.length]. now rewrite tally_add_0.
  - cbn [coord_list_loop]. write_ok Hq.
    write_ok (push_unlimited f "        " [] Hq).
    set (f2 := push (push f "        " []) fmt_point _).
    assert (Hq2 : o_quota f2 = None) by exact Hq.
    assert (T2 : tally f2 = tally_add (tally f) 0 1 0)
      by (unfold f2; now tally_push).
    destruct (Z.of_nat k <? size_pred size)%Z.
    + write_ok Hq2. write_ok (push_unlimited f2 ", " [] Hq2).
      destruct (IH (S k) size (push (push f2 ", " []) CRLF []) Hq2) as (f' & E & Hq' & T').
      exists f'. split; [exact E|]. split; [exact Hq'|].
      rewrite T'. tally_push. rewrite T2, tally_add_add. reflexivity.
    + cbn [bind]. write_ok Hq2.
      destruct (IH (S k) size (push f2 CRLF []) Hq2) as (f' & E & Hq' & T').
      exists f'. split; [exact E|]. split; [exact Hq'|].
      rewrite T'. tally_push. rewrite T2, tally_add_add. reflexivity.
Qed.

Lemma coord_index_loop_ok turns : forall trndx numTriangles f,
  o_quota f = None ->
  exists f', coord_index_loop turns trndx numTriangles f = Ok f'
    /\ o_quota f' = None
    /\ tally f' = tally_add (tally f) 0 0 turns.
Proof.
  induction turns as [|k IH]; intros trndx numTriangles f Hq.
  - exists f. cbn [coord_index_loop]. now rewrite tally_add_0.
  - cbn [coord_index_loop]. write_ok Hq.
    set (f1 := push f "      " []).
    assert (Hq1 : o_quota f1 = None) by exact Hq. write_ok Hq1.
    set (f2 := push f1 fmt_index _).
    assert (Hq2 : o_quota f2 = None) by exact Hq. write_ok Hq2.
    set (f3 := push f2 fmt_index _).
    assert (Hq3 : o_quota f3 = None) by exact Hq. write_ok Hq3.
    set (f4 := push f3 fmt_index _).
    assert (Hq4 : o_quota f4 = None) by exact Hq.
    rewrite (Printf_unlimited f4 fmt_face_end [] Hq4). cbn [snd].
    set (f5 := push f4 fmt_face_end []).
    assert (Hq5 : o_quota f5 = None) by exact Hq.
    assert (T5 : tally f5 = tally_add (tally f) 0 0 1)
      by (unfold f5, f4, f3, f2, f1; now tally_push).
    destruct (Z.of_nat trndx <? size_pred numTriangles)%Z.
    + write_ok Hq5. write_ok (push_unlimited f5 "," [] Hq5).
      destruct (IH (S trndx) numTriangles (push (push f5 "," []) CRLF []) Hq5)
        as (f' & E & Hq' & T').
      exists f'. split; [exact E|]. split; [exact Hq'|].
      rewrite T'. tally_push. rewrite T5, tally_add_add. reflexivity.
    + cbn [bind]. write_ok Hq5.
      destruct (IH (S trndx) numTriangles (push f5 CRLF []) Hq5) as (f' & E & Hq' & T').
      exists f'. split; [exact E|]. split; [exact Hq'|].
      rewrite T'. tally_push. rewrite T5, tally_add_add. reflexivity.
Qed.

Section Flush.

Variable NDEBUG : bool.

(** A flush of [3 * n] points, [n >= 1], on a file that takes the writes:
    one Shape node, one coordinate line per point, one index line per
    triangle. *)
Lemma WriteFacetsToWrl_ok points f :
  o_quota f = None ->
  (List.length points mod 3 = 0)%nat ->
  (3 <= List.length points)%nat ->
  exists f', WriteFacetsToWrl NDEBUG points f = Ok f'
    /\ o_quota f' = None
    /\ tally f' = tally_add (tally f) 1 (List.length points) (List.length points / 3).
Proof.
  intros Hq Hmod Hlen. unfold WriteFacetsToWrl, assert.
  rewrite Hmod. cbn [Nat.eqb]. rewrite orb_true_r. cbn [bind].
  assert (Hn : (1 <= List.length points / 3)%nat)
    by (apply (Nat.div_le_lower_bound _ 3 1); lia).
  destruct (List.length points / 3 <? 1)%nat eqn:E; [apply Nat.ltb_lt in E; lia|].
  write_ok Hq.
  destruct (coord_list_loop_ok points 0 (List.length points)
              (push f shape_header []) Hq) as (f2 & E2 & Hq2 & T2).
  unfold WriteCoordListToWrl. rewrite E2. cbn [bind]. write_ok Hq2.
  destruct (coord_index_loop_ok (List.length points / 3) 0 (List.length points / 3)
              (push f2 shape_middle []) Hq2) as (f4 & E4 & Hq4 & T4).
  unfold WriteCoordIndexesToWrl. rewrite E4. cbn [bind]. write_ok Hq4.
  eexists. split; [reflexivity|]. split; [exact Hq4|].
  tally_push. rewrite T4. tally_push. rewrite T2. tally_push.
  rewrite !tally_add_add. f_equal; lia.
Qed.

(** ** Neither loop can fail an assertion or hang *)

Lemma bind_returns_or_throws {A B : Type} (m : result A) (k : A -> result B) :
  returns_or_throws m -> (forall a, returns_or_throws (k a)) ->
  returns_or_throws (bind m k).
Proof. destruct m; cbn; auto. Qed.

Lemma Printf_or_throw_rt f fmt args : returns_or_throws (Printf_or_throw f fmt args).
Proof.
  unfold Printf_or_throw, Printf.
  destruct (o_quota f) as [[|k]|]; exact I.
Qed.

Ltac rt_step :=
  first [ apply Printf_or_throw_rt
        | apply bind_returns_or_throws; [|intros ?]
        | match goal with |- returns_or_throws (if ?b then _ else _) => destruct b end
        | exact I ].

Lemma coord_list_loop_rt points : forall k size f,
  returns_or_throws (coord_list_loop points k size f).
Proof.
  induction points as [|p rest IH]; intros k size f; [exact I|].
  cbn [coord_list_loop]. repeat rt_step. apply IH.
Qed.

Lemma coord_index_loop_rt turns : forall trndx numTriangles f,
  returns_or_throws (coord_index_loop turns trndx numTriangles f).
Proof.
  induction turns as [|k IH]; intros trndx numTriangles f; [exact I|].
  cbn [coord_index_loop]. repeat rt_step. apply IH.
Qed.

Lemma WriteFacetsToWrl_rt points f :
  (List.length points mod 3 = 0)%nat ->
  returns_or_throws (WriteFacetsToWrl NDEBUG points f).
Proof.
  intros Hmod. unfold WriteFacetsToWrl, assert.
  rewrite Hmod. cbn [Nat.eqb]. rewrite orb_true_r. cbn [bind].
  destruct (List.length points / 3 <? 1)%nat; [exact I|].
  repeat rt_step.
  - apply coord_list_loop_rt.
  - apply coord_index_loop_rt.
Qed.

(** ** Feeding *)

Lemma WriteFacetToWrl_triangle w coords :
  whole_triangles w -> List.length coords = 3%nat ->
  match WriteFacetToWrl NDEBUG w coords with
  | Ok w' => whole_triangles w'
             /\ (o_quota (w_file w) = None -> o_quota (w_file w') = None)
  | Throw _ => o_quota (w_file w) <> None
  | AssertFailed | Hang => False
  end.
Proof.
  unfold whole_triangles, pending, maxPointsPerFaceSet.
  intros [Hmod Hlt] Hc. unfold WriteFacetToWrl, maxPointsPerFaceSet.
  assert (Hlen : List.length (m_triangles w ++ coords) = (List.length (m_triangles w) + 3)%nat)
    by (rewrite length_app, Hc; reflexivity).
  assert (Hm3 : (List.length (m_triangles w ++ coords) mod 3 = 0)%nat).
  { rewrite Hlen. rewrite <- Nat.Div0.add_mod_idemp_l, Hmod. reflexivity. }
  destruct (3000 <=? List.length (m_triangles w ++ coords))%nat eqn:E.
  - apply Nat.leb_le in E.
    destruct (o_quota (w_file w)) eqn:Hq.
    + pose proof (WriteFacetsToWrl_rt (m_triangles w ++ coords) (w_file w) Hm3) as Hrt.
      destruct (WriteFacetsToWrl NDEBUG _ _); cbn [bind] in *; try contradiction.
      * cbn [m_triangles List.length w_file]. repeat split; [lia | discriminate].
      * discriminate.
    + destruct (WriteFacetsToWrl_ok (m_triangles w ++ coords) (w_file w) Hq Hm3)
        as (f' & Ef & Hq' & _); [lia|].
      rewrite Ef. cbn [bind m_triangles List.length w_file].
      repeat split; [lia | auto].
  - apply Nat.leb_gt in E. cbn [m_triangles w_file].
    repeat split; [exact Hm3 | exact E | auto].
Qed.

Lemma feed_all_app w calls1 calls2 :
  feed_all NDEBUG w (calls1 ++ calls2)
  = (w1 <- feed_all NDEBUG w calls1 ;; feed_all NDEBUG w1 calls2).
Proof.
  revert w. induction calls1 as [|c rest IH]; intros w; [reflexivity|].
  cbn [feed_all app]. destruct (WriteFacetToWrl NDEBUG w c); cbn [bind]; auto.
Qed.

(** Below the threshold nothing is written: the points wait in the batch. *)
Lemma feed_below calls : forall w,
  (pending w + List.length (List.concat calls) < maxPointsPerFaceSet)%nat ->
  feed_all NDEBUG w calls
  = Ok (mkWriter (w_file w) (m_triangles w ++ List.concat calls)).
Proof.
  unfold pending.
  induction calls as [|c rest IH]; intros w H.
  - cbn. rewrite app_nil_r. now destruct w.
  - cbn [feed_all List.concat] in *. rewrite length_app in H.
    unfold WriteFacetToWrl.
    destruct (maxPointsPerFaceSet <=? List.length (m_triangles w ++ c))%nat eqn:E.
    + apply Nat.leb_le in E. rewrite length_app in E. lia.
    + cbn [bind]. rewrite IH.
      * cbn [w_file m_triangles]. now rewrite app_assoc.
      * cbn [m_triangles]. rewrite length_app. lia.
Qed.

(** The call that brings the batch to exactly 3000 points flushes them all
    and leaves the batch empty, whatever the calls before it. *)
Lemma feed_to_threshold calls : forall w,
  o_quota (w_file w) = None ->
  (pending w < maxPointsPerFaceSet)%nat ->
  (pending w + List.length (List.concat calls) = maxPointsPerFaceSet)%nat ->
  exists w', feed_all NDEBUG w calls = Ok w'
    /\ m_triangles w' = []
    /\ o_quota (w_file w') = None
    /\ tally (w_file w') = tally_add (tally (w_file w)) 1 3000 1000.
Proof.
  unfold pending, maxPointsPerFaceSet.
  induction calls as [|c rest IH]; intros w Hq Hlt Hsum.
  - cbn in Hsum. lia.
  - cbn [feed_all List.concat] in *. rewrite length_app in Hsum.
    unfold WriteFacetToWrl, maxPointsPerFaceSet.
    destruct (3000 <=? List.length (m_triangles w ++ c))%nat eqn:E.
    + apply Nat.leb_le in E. rewrite length_app in E.
      assert (Hfull : List.length (m_triangles w ++ c) = 3000%nat)
        by (rewrite length_app; lia).
      destruct (WriteFacetsToWrl_ok (m_triangles w ++ c) (w_file w) Hq)
        as (f' & Ef & Hq' & T'); [now rewrite Hfull | lia |].
      rewrite Ef. cbn [bind].
      rewrite feed_below
        by (unfold pending, maxPointsPerFaceSet; cbn [m_triangles List.length]; lia).
      eexists. split; [reflexivity|]. cbn [m_triangles w_file].
      split; [|split; [exact Hq'|]].
      * destruct (List.concat rest) as [|x xs] eqn:Ec; [reflexivity|].
        cbn [List.length] in Hsum. lia.
      * rewrite T', Hfull. reflexivity.
    + apply Nat.leb_gt in E. cbn [bind].
      destruct (IH (mkWriter (w_file w) (m_triangles w ++ c))) as (w' & Ew & H);
        cbn [w_file m_triangles]; [exact Hq | lia | rewrite length_app; lia |].
      exists w'. split; [exact Ew | exact H].
Qed.

(** The threshold flush clears the batch. *)
Lemma WriteFacetToWrl_flush_clears w coords w' :
  (maxPointsPerFaceSet <= List.length (m_triangles w ++ coords))%nat ->
  WriteFacetToWrl NDEBUG w coords = Ok w' ->
  m_triangles w' = [].
Proof.
  intros H%Nat.leb_le. unfold WriteFacetToWrl. rewrite H.
  destruct (WriteFacetsToWrl NDEBUG _ _); cbn [bind]; try discriminate.
  now intros [= <-].
Qed.

End Flush.

Lemma feed_triangles_from calls NDEBUG : forall w,
  whole_triangles w ->
  Forall (fun coords => List.length coords = 3%nat) calls ->
  match feed_all NDEBUG w calls with
  | Ok w' => whole_triangles w'
             /\ (o_quota (w_file w) = None -> o_quota (w_file w') = None)
  | Throw _ => o_quota (w_file w) <> None
  | AssertFailed | Hang => False
  end.
Proof.
  induction calls as [|c rest IH]; intros w Hw Hall.
  - cbn. auto.
  - inversion Hall as [|? ? Hc Hrest]; subst. cbn [feed_all].
    pose proof (WriteFacetToWrl_triangle NDEBUG w c Hw Hc) as Hstep.
    destruct (WriteFacetToWrl NDEBUG w c) as [w1| | |]; cbn [bind]; try exact Hstep.
    destruct Hstep as [Hw1 Hq1].
    specialize (IH w1 Hw1 Hrest).
    destruct (feed_all NDEBUG w1 rest) as [w2| | |]; try exact IH.
    + destruct IH as [Hw2 Hq2]. auto.
    + auto.
Qed.

(** C10.  When every feed call supplies the 3 points of one triangle, the
    size of the pending buffer is a multiple of 3 and below 3000 after each
    feed call that returns (after the first [n] calls, for every [n]); the
    assertion of the flush on that size never fails, and the calls all
    return when the writes to the file succeed. *)
Theorem feed_triangles_invariant (NDEBUG : bool) (f : OutFile)
    (calls : list (list Point)) (n : nat) :
  Forall (fun coords => List.length coords = 3%nat) calls ->
  match feed_all NDEBUG (new_writer f) (firstn n calls) with
  | Ok w' => (pending w' mod 3 = 0)%nat /\ (pending w' < 3000)%nat
  | Throw _ => o_quota f <> None
  | AssertFailed | Hang => False
  end
  /\ (o_quota f = None ->
      exists w', feed_all NDEBUG (new_writer f) (firstn n calls) = Ok w').
Proof.
  intros Hall.
  assert (Hfirst : Forall (fun coords => List.length coords = 3%nat) (firstn n calls)).
  { rewrite <- (firstn_skipn n calls) in Hall.
    apply Forall_app in Hall. exact (proj1 Hall). }
  assert (H0 : whole_triangles (new_writer f))
    by (unfold whole_triangles, pending, maxPointsPerFaceSet; cbn; split; [reflexivity | lia]).
  pose proof (feed_triangles_from (firstn n calls) NDEBUG (new_writer f) H0 Hfirst) as H.
  cbn [new_writer w_file] in H.
  destruct (feed_all NDEBUG (new_writer f) (firstn n calls)) as [w'| | |].
  - destruct H as [Hw _]. split; [exact Hw | eauto].
  - split; [exact H | intros Hq; contradiction].
  - contradiction.
  - contradiction.
Qed.

Lemma feed_triangles_invariant_witness :
  match feed_all false (new_writer (create_file None))
          (firstn 2 [Samples.unit_triangle; Samples.unit_triangle; Samples.unit_triangle]) with
  | Ok w' => pending w' = 6%nat
  | _ => False
  end
  /\ exists w', feed_all false (new_writer (create_file None))
                  (firstn 2 [Samples.unit_triangle; Samples.unit_triangle;
                             Samples.unit_triangle]) = Ok w'
               /\ (pending w' mod 3 = 0)%nat /\ (pending w' < 3000)%nat.
Proof.
  split; [reflexivity|].
  destruct (feed_triangles_invariant false (create_file None)
              [Samples.unit_triangle; Samples.unit_triangle; Samples.unit_triangle] 2)
    as [Hinv Hret].
  - repeat constructor.
  - destruct (Hret eq_refl) as [w' Ew]. rewrite Ew in Hinv. exists w'. tauto.
Defined.

(** Outside the use the writer is written for (its caller feeds one
    triangle per call): 3001 points fed in one call are appended before the
    threshold is tested, so the flush is handed all 3001 points; its
    assertion on the size fails in a build with assertions, and without
    them nothing stays pending. *)
Lemma feed_3001_in_one_call :
  feed_all false (new_writer (create_file None))
           [repeat (mkPoint 0 0 0) 3001] = AssertFailed
  /\ match feed_all true (new_writer (create_file None))
              [repeat (mkPoint 0 0 0) 3001] with
     | Ok w' => pending w' = 0%nat /\ points_in (w_file w') = 3001%nat
                /\ ~ (pending w' = 1%nat /\ points_in (w_file w') = 3000%nat)
     | _ => False
     end.
Proof.
  split; [vm_compute; reflexivity|].
  vm_compute. repeat split. intros [H _]. discriminate H.
Qed.

(** C5.  On a file that takes the writes: feeding exactly 3000 points,
    however they are split into feed calls, triggers exactly one flush, of
    the 3000 points (1000 triangles), and leaves no pending point; feeding
    3001 points, the 3000th being the last point of a feed call (as when
    the points come triangle by triangle and then one more, or one by one),
    triggers one flush of exactly 3000 points and leaves exactly 1 pending
    point.  (The threshold is tested once per call, after the points of the
    call are appended.) *)
Theorem feed_3000_and_3001 (NDEBUG : bool) (f : OutFile) :
  o_quota f = None ->
  (forall calls,
     List.length (List.concat calls) = 3000%nat ->
     exists w', feed_all NDEBUG (new_writer f) calls = Ok w'
       /\ pending w' = 0%nat
       /\ shapes_in (w_file w') = (shapes_in f + 1)%nat
       /\ points_in (w_file w') = (points_in f + 3000)%nat
       /\ index_triples_in (w_file w') = (index_triples_in f + 1000)%nat)
  /\ (forall calls1 calls2,
        List.length (List.concat calls1) = 3000%nat ->
        List.length (List.concat calls2) = 1%nat ->
        exists w', feed_all NDEBUG (new_writer f) (calls1 ++ calls2) = Ok w'
          /\ pending w' = 1%nat
          /\ shapes_in (w_file w') = (shapes_in f + 1)%nat
          /\ points_in (w_file w') = (points_in f + 3000)%nat
          /\ index_triples_in (w_file w') = (index_triples_in f + 1000)%nat).
Proof.
  intros Hq.
  assert (Hflush : forall calls,
            List.length (List.concat calls) = 3000%nat ->
            exists w', feed_all NDEBUG (new_writer f) calls = Ok w'
              /\ m_triangles w' = [] /\ o_quota (w_file w') = None
              /\ tally (w_file w') = tally_add (tally f) 1 3000 1000).
  { intros calls Hlen.
    apply (feed_to_threshold NDEBUG calls (new_writer f)); unfold pending, maxPointsPerFaceSet;
      cbn [new_writer w_file m_triangles List.length]; [exact Hq | lia | lia]. }
  split.
  - intros calls Hlen. destruct (Hflush calls Hlen) as (w' & Ew & Hm & _ & T).
    exists w'. split; [exact Ew|]. unfold pending. rewrite Hm.
    unfold tally, tally_add in T. inversion T. auto.
  - intros calls1 calls2 H1 H2.
    destruct (Hflush calls1 H1) as (w1 & Ew & Hm & Hq1 & T).
    rewrite feed_all_app, Ew. cbn [bind].
    rewrite feed_below by (unfold pending, maxPointsPerFaceSet; rewrite Hm, H2; cbn; lia).
    eexists. split; [reflexivity|].
    unfold pending. cbn [m_triangles w_file]. rewrite Hm. cbn [app].
    unfold tally, tally_add in T. inversion T. auto.
Qed.

Lemma feed_3000_and_3001_witness :
  exists w', feed_all false (new_writer (create_file None))
               (repeat Samples.unit_triangle 1000 ++ [[mkPoint 0 0 0]]) = Ok w'
    /\ pending w' = 1%nat
    /\ shapes_in (w_file w') = 1%nat
    /\ points_in (w_file w') = 3000%nat.
Proof.
  destruct (feed_3000_and_3001 false (create_file None) eq_refl) as [_ H].
  destruct (H (repeat Samples.unit_triangle 1000) [[mkPoint 0 0 0]]) as (w' & Ew & H');
    [vm_compute; reflexivity | reflexivity |].
  exists w'. split; [exact Ew|]. cbn in H'. tauto.
Defined.

(** C4 on the code: after one triangle is fed, the end call flushes it as
    a Shape node and returns with the three points still in the pending
    buffer; only the flush at the threshold clears it
    ([WriteFacetToWrl_flush_clears]). *)
Theorem end_call_keeps_batch (NDEBUG : bool) (emin emax : Point) :
  exists w1 w2,
    WriteFacetToWrl NDEBUG (new_writer (create_file None)) Samples.unit_triangle = Ok w1
    /\ WriteEndOfWrl NDEBUG w1 emin emax = Ok w2
    /\ shapes_in (w_file w1) = 0%nat
    /\ shapes_in (w_file w2) = 1%nat
    /\ m_triangles w2 = Samples.unit_triangle.
Proof.
  eexists. eexists. split; [reflexivity|].
  destruct NDEBUG; (split; [reflexivity|]); repeat split.
Qed.

(** ** Line ends of the output *)

Lemma append_assoc (a b c : string) : ((a ++ b) ++ c = a ++ (b ++ c))%string.
Proof. induction a as [|x a IH]; cbn; [reflexivity | now rewrite IH]. Qed.

(** Every other text the writer prints ends its lines with CR LF. *)
Lemma other_formats_end_lines_with_CRLF :
  Forall (fun fmt => has_lone_LF fmt = false)
    [wrl_header; shape_header; shape_middle; shape_footer; viewpoint_header;
     viewpoint_footer; background_line; navigation_line; CRLF].
Proof. repeat constructor. Qed.

(** C8 on the code: the format of the Viewpoint's position line ends in a
    lone '\n'.  In the file written by a start call and an end call, the
    third number of the position is followed by LF, with no CR before it,
    whatever the numbers are printed as. *)
Theorem position_line_ends_in_lone_LF (NDEBUG : bool)
    (render_G render_15G : float -> string) (emin emax : Point) :
  has_lone_LF fmt_position = true
  /\ exists w1 w2,
      WriteStartOfWrl (new_writer (create_file None)) = Ok w1
      /\ WriteEndOfWrl NDEBUG w1 emin emax = Ok w2
      /\ file_text render_G render_15G (w_file w2)
         = (wrl_header ++ viewpoint_header ++ "  position "
            ++ render_G (px emin + (px emax - px emin) / 2)%float ++ " "
            ++ render_G (py emin + (py emax - py emin) / 2)%float ++ " "
            ++ render_G (pz emin + (pz emax - pz emin) / 2
                         + std_max (px emax - px emin) (py emax - py emin))%float
            ++ String LF (viewpoint_footer ++ background_line ++ navigation_line))%string.
Proof.
  split; [reflexivity|].
  eexists. eexists. split; [reflexivity|]. split; [reflexivity|].
  cbn. repeat (rewrite !append_assoc; cbn [append]). reflexivity.
Qed.

End WriterProps.

(* ================================================================== *)
(** * Properties of the reader *)

Module ReaderProps.
Import SimpleFile Tokenizer Reader.

Local Open Scope Z_scope.

(** ** Binary or ASCII *)

Lemma lor_below a b k :
  0 < k -> 0 <= a < 2 ^ k -> 0 <= b < 2 ^ k -> 0 <= Z.lor a b < 2 ^ k.
Proof.
  intros Hk Ha Hb. split; [apply Z.lor_nonneg; lia|].
  assert (Hlog : forall x, 0 <= x < 2 ^ k -> Z.log2 x < k).
  { intros x Hx. destruct (Z.eq_dec x 0) as [->|Hn]; [cbn; lia|].
    apply Z.log2_lt_pow2; lia. }
  destruct (Z.eq_dec (Z.lor a b) 0) as [->|Hn]; [apply Z.pow_pos_nonneg; lia|].
  assert (0 <= Z.lor a b) by (apply Z.lor_nonneg; lia).
  apply Z.log2_lt_pow2; [lia|].
  rewrite Z.log2_lor by lia. apply Z.max_lub_lt; apply Hlog; assumption.
Qed.

Lemma byte_below b : 0 <= Z.of_N (Byte.to_N b) < 2 ^ 8.
Proof. pose proof (Byte.to_N_bounded b). change (2 ^ 8) with 256. lia. Qed.

Lemma le_uint_below bs : 0 <= le_uint bs < 2 ^ (8 * Z.of_nat (List.length bs)).
Proof.
  induction bs as [|b r IH]; [cbn; lia|].
  cbn [le_uint List.length].
  replace (8 * Z.of_nat (S (List.length r))) with (8 * Z.of_nat (List.length r) + 8) by lia.
  pose proof (byte_below b) as Hb.
  assert (Hpow : 2 ^ 8 <= 2 ^ (8 * Z.of_nat (List.length r) + 8))
    by (apply Z.pow_le_mono_r; lia).
  apply lor_below; [lia | lia |].
  rewrite Z.shiftl_mul_pow2 by lia.
  rewrite Z.pow_add_r by lia. split; [lia|].
  apply Z.mul_lt_mono_pos_r; lia.
Qed.

Lemma header_count_below data : 0 <= header_count data < 2 ^ 32.
Proof.
  unfold header_count.
  pose proof (le_uint_below (firstn 4 (skipn 80 data))) as H.
  assert (Hl : (List.length (firstn 4 (skipn 80 data)) <= 4)%nat)
    by apply firstn_le_length.
  assert (2 ^ (8 * Z.of_nat (List.length (firstn 4 (skipn 80 data)))) <= 2 ^ 32)
    by (apply Z.pow_le_mono_r; lia).
  lia.
Qed.

Lemma le_uint_cons b r :
  le_uint (b :: r) = Z.of_N (Byte.to_N b) + 256 * le_uint r.
Proof.
  cbn [le_uint]. pose proof (byte_below b) as Hb.
  pose proof (le_uint_below r) as [Hr _].
  assert (Hland : Z.land (Z.of_N (Byte.to_N b)) (Z.shiftl (le_uint r) 8) = 0).
  { apply Z.bits_inj'. intros n Hn. rewrite Z.land_spec, Z.bits_0.
    destruct (Z.lt_ge_cases n 8) as [Hlt|Hge].
    - rewrite Z.shiftl_spec_low by exact Hlt. apply andb_false_r.
    - assert (Z.testbit (Z.of_N (Byte.to_N b)) n = false) as ->; [|reflexivity].
      destruct (Z.eq_dec (Z.of_N (Byte.to_N b)) 0) as [->|Hnz]; [apply Z.bits_0|].
      apply Z.bits_above_log2; [lia|].
      assert (Z.log2 (Z.of_N (Byte.to_N b)) < 8) by (apply Z.log2_lt_pow2; lia).
      lia. }
  pose proof (Z.add_lor_land (Z.of_N (Byte.to_N b)) (Z.shiftl (le_uint r) 8)) as Hsum.
  rewrite Hland in Hsum. rewrite Z.shiftl_mul_pow2 in * by lia.
  change (2 ^ 8) with 256 in *. lia.
Qed.

(** The reader takes a file for binary exactly when the 4 bytes of the
    count can be read after the 80 bytes of preamble, the count is at least
    1 and the file has 84 + 52 * count bytes, 52 being
    [sizeof(BinaryStlRecord)]. *)
Lemma IsBinaryStl_iff (f : File) :
  fst (IsBinaryStl f) = true
  <-> (84 <= List.length (f_data f))%nat
      /\ 1 <= header_count (f_data f)
      /\ Z.of_nat (List.length (f_data f)) = 84 + 52 * header_count (f_data f).
Proof.
  pose proof (header_count_below (f_data f)) as Hc.
  unfold IsBinaryStl, ReadHeaderFromBinaryStl, Seek, Read, remaining, Length.
  unfold header_count, sizeof_uint32 in *.
  cbn [negb f_data f_pos fst snd].
  remember (le_uint (firstn 4 (skipn 80 (f_data f)))) as count eqn:Ecount.
  assert (Hlen : List.length (firstn 4 (skipn 80 (f_data f)))
                 = Nat.min 4 (List.length (f_data f) - 80))
    by (rewrite length_firstn, length_skipn; reflexivity).
  destruct (List.length (firstn 4 (skipn 80 (f_data f))) =? 4)%nat eqn:E4; cbn [negb].
  - apply Nat.eqb_eq in E4.
    destruct (count <? 1) eqn:E1.
    + apply Z.ltb_lt in E1. cbn [fst]. split; [discriminate | lia].
    + rewrite E1. apply Z.ltb_ge in E1. cbn [fst f_data].
      unfold sizeof_BinaryStlRecord, size_t_modulus.
      rewrite Z.mod_small by (change (2 ^ 64) with 18446744073709551616;
                              change (2 ^ 32) with 4294967296 in Hc; lia).
      rewrite Z.eqb_eq. lia.
  - apply Nat.eqb_neq in E4. cbn [fst]. split; [discriminate | lia].
Qed.

(** A file below 2 GiB whose byte 83 is not a control character below
    TAB, as in a text, is not taken for binary: the count would call for
    more bytes than the file has. *)
Lemma text_is_not_binary (data : list byte) (b : byte) :
  nth_error data 83 = Some b ->
  (9 <= Byte.to_N b)%N ->
  Z.of_nat (List.length data) < 2 ^ 31 ->
  fst (IsBinaryStl (open_file data)) = false.
Proof.
  intros Hb Hnine Hsize.
  destruct (fst (IsBinaryStl (open_file data))) eqn:E; [|reflexivity].
  apply IsBinaryStl_iff in E. cbn [open_file f_data] in E.
  destruct E as (_ & _ & Hlen). exfalso.
  unfold header_count in Hlen.
  replace 83%nat with (80 + 3)%nat in Hb by reflexivity.
  rewrite <- nth_error_skipn in Hb.
  destruct (skipn 80 data) as [|b0 [|b1 [|b2 [|b3 tl]]]]; try discriminate.
  cbn [nth_error] in Hb. injection Hb as ->.
  cbn [firstn] in Hlen. rewrite !le_uint_cons in Hlen. cbn [le_uint] in Hlen.
  pose proof (byte_below b0). pose proof (byte_below b1). pose proof (byte_below b2).
  change (2 ^ 31) with 2147483648 in Hsize. lia.
Qed.

Local Close Scope Z_scope.

(** The outcomes of the ASCII header check: it returns on a first line
    whose first token is "solid", it throws a format error, or the line
    read never ends. *)
Lemma ReadHeaderFromAsciiStl_outcome (f : File) :
  match ReadHeaderFromAsciiStl f with
  | Ok f' => exists text,
      ReadLine (snd (Seek f 0)) true = Ok (true, text, f')
      /\ hd_error (StringFields text) = Some "solid"
  | Throw e => exists msg, e = FormatError msg
  | Hang => ReadLine (snd (Seek f 0)) true = Hang
  | AssertFailed => False
  end.
Proof.
  unfold ReadHeaderFromAsciiStl, ReadLine. cbn [Seek snd].
  destruct (read_line_loop _ _ _ _ _ _) as [more text consumed newlines|];
    cbn [bind]; [|reflexivity].
  destruct more; cbn [negb]; [|eauto].
  destruct (StringFields text) as [|field0 rest] eqn:E; [eauto|].
  destruct (field0 =? "solid")%string eqn:E0; cbn [negb]; [|eauto].
  apply String.eqb_eq in E0. subst. exists text. now rewrite E.
Qed.

(** A file that is not binary is read as ASCII. *)
Lemma ReadHeaderFromStl_ascii (r : StlReader) :
  fst (IsBinaryStl (snd (Seek (m_file r) 0))) = false ->
  ReadHeaderFromStl r
  = (f2 <- ReadHeaderFromAsciiStl (snd (IsBinaryStl (snd (Seek (m_file r) 0)))) ;;
     Ok (mkReader f2 false 0 0)).
Proof.
  intros H. unfold ReadHeaderFromStl. cbn [Seek snd] in *.
  destruct (IsBinaryStl _) as [isBinary f1]. cbn [fst snd] in *. now subst.
Qed.

(** C1 on the code: the file made of one empty line ended by CR LF is not
    binary, and the ASCII header check neither accepts it nor raises a
    format error: [ReadLine] skips the empty line, reaches the end of the
    file and loops there for ever. *)
Theorem header_of_CRLF_file_hangs :
  fst (IsBinaryStl (open_file (list_byte_of_string CRLF))) = false
  /\ ReadLine (open_file (list_byte_of_string CRLF)) true = Hang
  /\ ReadHeaderFromStl (new_reader (open_file (list_byte_of_string CRLF))) = Hang.
Proof. repeat split. Qed.

(** An empty first line ended by LF alone is taken for the end of the
    file: the header check fails although the next line starts with
    "solid". *)
Lemma header_after_empty_LF_line_fails :
  ReadHeaderFromStl
    (new_reader (Samples.file_of_string (Samples.unix_lines [""; "solid a"])))
  = Throw (FormatError badStl).
Proof. reflexivity. Qed.

(** ** ASCII facets *)

(** The failing read of the line after a "facet" line, in general: the
    facet read returns false. *)
Lemma eof_after_facet_line (atof : string -> float) (f f1 f2 : File) (text text2 : string) :
  ReadLine f true = Ok (true, text, f1) ->
  hd_error (StringFields text) = Some "facet" ->
  ReadLine f1 true = Ok (false, text2, f2) ->
  ReadFacetFromAsciiStl atof f = Ok (false, [], f2).
Proof.
  intros H1 Hfacet H2. unfold ReadFacetFromAsciiStl. rewrite H1. cbn [bind negb].
  destruct (StringFields text) as [|t ts]; [discriminate|].
  injection Hfacet as ->. cbn [field nth List.length].
  change ("facet" =? "endsolid")%string with false.
  change ("facet" =? "end")%string with false.
  rewrite andb_false_r. cbn [orb andb].
  change ("facet" =? "facet")%string with true. cbv iota.
  rewrite H2. reflexivity.
Qed.

(** Once the outer loop line is read, no failure is taken for the end of
    the triangles: the facet read returns true or does not return. *)
Lemma no_clean_end_after_outer_loop (atof : string -> float) (f f1 f2 : File)
    (text text2 : string) :
  ReadLine f true = Ok (true, text, f1) ->
  hd_error (StringFields text) = Some "facet" ->
  ReadLine f1 true = Ok (true, text2, f2) ->
  match ReadFacetFromAsciiStl atof f with
  | Ok (more, _, _) => more = true
  | Throw e => exists msg, e = FormatError msg
  | Hang => True
  | AssertFailed => False
  end.
Proof.
  intros H1 Hfacet H2. unfold ReadFacetFromAsciiStl. rewrite H1. cbn [bind negb].
  destruct (StringFields text) as [|t ts]; [discriminate|].
  injection Hfacet as ->. cbn [field nth List.length].
  change ("facet" =? "endsolid")%string with false.
  change ("facet" =? "end")%string with false.
  rewrite andb_false_r. cbn [orb andb].
  change ("facet" =? "facet")%string with true. cbv iota.
  rewrite H2. cbn [bind negb].
  destruct (negb (starts_with_keyword (StringFields text2) _ _ _)); [eauto|].
  assert (Hv : forall g, match ReadVertexFromAsciiStl atof g with
                         | Throw e => exists msg, e = FormatError msg
                         | AssertFailed => False
                         | _ => True
                         end).
  { intros g. unfold ReadVertexFromAsciiStl, ReadLine.
    destruct (read_line_loop _ _ _ _ _ _); cbn [bind]; [|exact I].
    destruct (negb readAny); [eauto|].
    destruct (_ <? _)%nat; [eauto|].
    destruct (negb _); [eauto|].
    destruct (bad_conversion _ _); [eauto | exact I]. }
  assert (Hvs : forall n g cs, match read_vertices atof n g cs with
                               | Throw e => exists msg, e = FormatError msg
                               | AssertFailed => False
                               | _ => True
                               end).
  { induction n as [|k IH]; intros g cs; [exact I|].
    cbn [read_vertices]. specialize (Hv g).
    destruct (ReadVertexFromAsciiStl atof g) as [[pt g1]| | |]; cbn [bind];
      [apply IH | exact Hv | exact Hv | exact I]. }
  specialize (Hvs 3 f2 []).
  destruct (read_vertices atof 3 f2 []) as [[cs f3]| | |]; cbn [bind];
    [| exact Hvs | exact Hvs | exact I].
  unfold ReadLine at 1.
  destruct (read_line_loop _ _ _ _ _ _); cbn [bind]; [|exact I].
  destruct (negb readAny); [unfold unexpected_eof_in_facet; eauto|].
  destruct (negb (starts_with_keyword _ _ _ _)); [eauto|].
  unfold ReadLine at 1.
  destruct (read_line_loop _ _ _ _ _ _); cbn [bind]; [|exact I].
  destruct (negb readAny0); [unfold unexpected_eof_in_facet; eauto|].
  destruct (negb (starts_with_keyword _ _ _ _)); [eauto | reflexivity].
Qed.

(** C3 on the code: in a file that ends after its "facet" line, the read of
    the outer loop line fails and the facet read returns false, the signal
    of the end of the triangles, with no error.  (One line later the same
    failure is a format error.) *)
Theorem eof_after_facet_line_is_clean_end (atof : string -> float) :
  (exists r r',
     ReadHeaderFromStl
       (new_reader (Samples.file_of_string Samples.ascii_cut_after_facet)) = Ok r
     /\ ReadFacetFromStl atof r = Ok (false, [], r'))
  /\ (exists r,
       ReadHeaderFromStl
         (new_reader (Samples.file_of_string
            (Samples.unix_lines ["solid a"; "facet normal 0 0 1"; "outer loop"]))) = Ok r
       /\ is_format_error (ReadFacetFromStl atof r) = true).
Proof.
  split.
  - eexists. eexists. split; reflexivity.
  - eexists. split; reflexivity.
Qed.

Lemma rejected_is_bad (atof : string -> float) (fields : list string) :
  let point := mkPoint (atof (c_str (field fields 1)))
                       (atof (c_str (field fields 2)))
                       (atof (c_str (field fields 3))) in
  rejected_coordinate (px point) (field fields 1)
  || rejected_coordinate (py point) (field fields 2)
  || rejected_coordinate (pz point) (field fields 3) = true ->
  bad_conversion point fields = true.
Proof.
  cbn zeta. unfold rejected_coordinate, bad_conversion, zero_not_from_0, is_finite.
  cbn [px py pz].
  generalize (atof (c_str (field fields 1))) (atof (c_str (field fields 2)))
             (atof (c_str (field fields 3))).
  intros x y z.
  destruct (PrimFloat.eqb x zero && negb (first_char (field fields 1) =? "0")%char),
           (PrimFloat.eqb y zero && negb (first_char (field fields 2) =? "0")%char),
           (PrimFloat.eqb z zero && negb (first_char (field fields 3) =? "0")%char),
           (is_nan x), (is_nan y), (is_nan z),
           (is_infinity x), (is_infinity y), (is_infinity z);
    cbn; intros H; try reflexivity; discriminate H.
Qed.

(** C6.  Of a vertex line whose tokens are there, a coordinate that [atof]
    turns into 0 while its token does not start with the character 0, or
    into a NaN or an infinity, makes the read of the vertex raise a format
    error.  The line "vertex 1.0 abc 3.0" does so, [atof] returning 0 on
    "abc", where it finds no number. *)
Theorem ReadVertexFromAsciiStl_rejects (atof : string -> float) (f f1 : File) :
  (forall text,
     ReadLine f true = Ok (true, text, f1) ->
     (4 <= List.length (StringFields text))%nat ->
     rejected_coordinate (atof (c_str (field (StringFields text) 1)))
                         (field (StringFields text) 1)
     || rejected_coordinate (atof (c_str (field (StringFields text) 2)))
                            (field (StringFields text) 2)
     || rejected_coordinate (atof (c_str (field (StringFields text) 3)))
                            (field (StringFields text) 3) = true ->
     is_format_error (ReadVertexFromAsciiStl atof f) = true)
  /\ (ReadLine f true = Ok (true, "vertex 1.0 abc 3.0", f1) ->
      PrimFloat.eqb (atof "abc") zero = true ->
      is_format_error (ReadVertexFromAsciiStl atof f) = true).
Proof.
  assert (General : forall text,
     ReadLine f true = Ok (true, text, f1) ->
     (4 <= List.length (StringFields text))%nat ->
     rejected_coordinate (atof (c_str (field (StringFields text) 1)))
                         (field (StringFields text) 1)
     || rejected_coordinate (atof (c_str (field (StringFields text) 2)))
                            (field (StringFields text) 2)
     || rejected_coordinate (atof (c_str (field (StringFields text) 3)))
                            (field (StringFields text) 3) = true ->
     is_format_error (ReadVertexFromAsciiStl atof f) = true).
  { intros text Hline Hlen Hbad. unfold ReadVertexFromAsciiStl.
    rewrite Hline. cbn [bind negb].
    destruct (List.length (StringFields text) <? 4)%nat eqn:E;
      [apply Nat.ltb_lt in E; lia|].
    destruct (negb (field (StringFields text) 0 =? "vertex")%string); [reflexivity|].
    now rewrite (rejected_is_bad atof (StringFields text) Hbad). }
  split; [exact General|].
  intros Hline Habc. apply (General _ Hline).
  - cbn. lia.
  - change (StringFields "vertex 1.0 abc 3.0") with ["vertex"; "1.0"; "abc"; "3.0"].
    cbn [field nth]. change (c_str "abc") with "abc".
    unfold rejected_coordinate at 2. rewrite Habc.
    cbn [first_char]. cbn. now rewrite orb_true_r.
Qed.

Lemma ReadVertexFromAsciiStl_rejects_witness :
  ReadLine (Samples.file_of_string (Samples.unix_lines ["vertex 1.0 abc 3.0"])) true
  = Ok (true, "vertex 1.0 abc 3.0", mkFile (list_byte_of_string
          (Samples.unix_lines ["vertex 1.0 abc 3.0"])) 19 1)
  /\ PrimFloat.eqb (Samples.atof_decimal "abc") zero = true
  /\ is_format_error
       (ReadVertexFromAsciiStl Samples.atof_decimal
          (Samples.file_of_string (Samples.unix_lines ["vertex 1.0 abc 3.0"]))) = true
  /\ is_format_error
       (ReadVertexFromAsciiStl Samples.atof_decimal
          (Samples.file_of_string (Samples.unix_lines ["vertex -0.0 1 2"]))) = true.
Proof.
  split; [reflexivity|]. split; [reflexivity|]. split.
  - apply (proj2 (ReadVertexFromAsciiStl_rejects Samples.atof_decimal
                    (Samples.file_of_string (Samples.unix_lines ["vertex 1.0 abc 3.0"]))
                    (mkFile (list_byte_of_string
                               (Samples.unix_lines ["vertex 1.0 abc 3.0"])) 19 1)));
      reflexivity.
  - apply (proj1 (ReadVertexFromAsciiStl_rejects Samples.atof_decimal
                    (Samples.file_of_string (Samples.unix_lines ["vertex -0.0 1 2"]))
                    (mkFile (list_byte_of_string
                               (Samples.unix_lines ["vertex -0.0 1 2"])) 16 1))
                 "vertex -0.0 1 2");
      [reflexivity | cbn; lia | vm_compute; reflexivity].
Defined.

(** ** Binary facets *)

(** Once all the facets of the header count are read, the reader reports
    the end of the triangles and reads nothing. *)
Lemma ReadFacetFromBinaryStl_exhausted (r : StlReader) :
  (m_numFacets r <= m_curFacet r)%Z ->
  ReadFacetFromBinaryStl r = Ok (false, [], r).
Proof.
  intros H. unfold ReadFacetFromBinaryStl.
  destruct (m_curFacet r >=? m_numFacets r)%Z eqn:E; [reflexivity|].
  rewrite Z.geb_leb in E. apply Z.leb_gt in E. lia.
Qed.

(** The checks of the code on a record.  While facets remain, reading one
    raises a format error exactly when fewer than 52 bytes are left or the
    16-bit field at bytes 48 and 49 of the record is not zero.  Otherwise
    the record is accepted whatever its twelve floats are: the nine floats
    of the vertices come out as three points, unchecked (NaN and infinities
    included, see the example that follows). *)
Lemma ReadFacetFromBinaryStl_checks (r : StlReader) :
  (m_curFacet r < m_numFacets r)%Z ->
  let rec := firstn 52 (remaining (m_file r)) in
  (is_format_error (ReadFacetFromBinaryStl r) = true
   <-> (List.length (remaining (m_file r)) < 52)%nat \/ record_attribute rec <> 0%Z)
  /\ ((52 <= List.length (remaining (m_file r)))%nat ->
      record_attribute rec = 0%Z ->
      exists r',
        ReadFacetFromBinaryStl r
        = Ok (true,
              [ mkPoint (float_at rec 3) (float_at rec 4) (float_at rec 5);
                mkPoint (float_at rec 6) (float_at rec 7) (float_at rec 8);
                mkPoint (float_at rec 9) (float_at rec 10) (float_at rec 11) ],
              r')
        /\ m_curFacet r' = ((m_curFacet r + 1) mod size_t_modulus)%Z
        /\ f_pos (m_file r') = (f_pos (m_file r) + 52)%nat).
Proof.
  intros Hcur rec. unfold ReadFacetFromBinaryStl, Read, sizeof_BinaryStlRecord.
  destruct (m_curFacet r >=? m_numFacets r)%Z eqn:E;
    [apply Z.geb_le in E; lia|].
  fold rec.
  assert (Hlen : List.length rec = Nat.min 52 (List.length (remaining (m_file r))))
    by (unfold rec; apply length_firstn).
  destruct (List.length rec =? 52)%nat eqn:E52; cbn [negb].
  - apply Nat.eqb_eq in E52.
    destruct (record_attribute rec =? 0)%Z eqn:Ea; cbn [negb].
    + apply Z.eqb_eq in Ea. split.
      * cbn [is_format_error]. split; [discriminate|]. intros [H|H]; [lia | contradiction].
      * intros _ _. eexists. split; [reflexivity|].
        cbn [m_curFacet m_file f_pos]. rewrite E52. split; reflexivity.
    + apply Z.eqb_neq in Ea. split.
      * cbn [is_format_error]. split; [now right | reflexivity].
      * intros _ H. contradiction.
  - apply Nat.eqb_neq in E52. split.
    + cbn [is_format_error]. split; [intros _; left; lia | reflexivity].
    + intros H _. lia.
Qed.

Example nan_record_is_accepted :
  exists p1 p2 p3 r',
    ReadFacetFromBinaryStl (mkReader (open_file Samples.nan_record) true 1 0)
    = Ok (true, [p1; p2; p3], r')
    /\ is_nan (px p1) = true
    /\ is_infinity (py p1) = true
    /\ is_infinity (pz p1) = true.
Proof.
  destruct (ReadFacetFromBinaryStl_checks (mkReader (open_file Samples.nan_record) true 1 0))
    as [_ Hacc]; [reflexivity|].
  destruct Hacc as (r' & Er & _); [cbn; lia | reflexivity |].
  do 4 eexists. split; [exact Er|].
  repeat split.
Qed.


End ReaderProps.

(* ================================================================== *)
(** * Properties of the conversion *)

Module DriverProps.
Import SimpleFile Tokenizer Reader Writer Driver.

(** ** The loop of the conversion ends *)

Lemma left_eq f : left f = (List.length (f_data f) - f_pos f)%nat.
Proof. unfold left, remaining. apply length_skipn. Qed.

Lemma read_line_loop_consumed skip rest : forall text readAny consumed newlines
    readAny' text' consumed' newlines',
  read_line_loop skip rest text readAny consumed newlines
  = LineRet readAny' text' consumed' newlines' ->
  (consumed <= consumed' <= consumed + List.length rest)%nat
  /\ (readAny = false -> readAny' = true -> consumed < consumed')%nat.
Proof.
  induction rest as [|b rest' IH]; intros text ra c nl ra' text' c' nl' H.
  - cbn [read_line_loop] in H.
    destruct (skip && is_empty text && ra); [discriminate|].
    injection H as <- _ <- _. cbn. split; [lia|]. intros ->. discriminate.
  - cbn [read_line_loop List.length] in *.
    destruct (ascii_of_byte b =? LF)%char.
    + destruct (skip && is_empty text && ra).
      * apply IH in H. lia.
      * injection H as <- _ <- _. lia.
    + apply IH in H. lia.
Qed.

Lemma ReadLine_left f skip more text f' :
  ReadLine f skip = Ok (more, text, f') ->
  f_data f' = f_data f
  /\ (left f' <= left f)%nat
  /\ (more = true -> left f' < left f)%nat.
Proof.
  unfold ReadLine.
  destruct (read_line_loop skip (remaining f) "" false 0 0)
    as [ra t c nl|] eqn:E; [|discriminate].
  intros [= <- <- <-].
  apply read_line_loop_consumed in E. fold (left f) in E.
  rewrite !left_eq in *. cbn [f_data f_pos].
  split; [reflexivity|]. split; [lia|]. intros ->. lia.
Qed.

Section WithEnvironment.

Variable NDEBUG : bool.
Variable atof : string -> float.

Lemma ReadVertexFromAsciiStl_left f point f1 :
  ReadVertexFromAsciiStl atof f = Ok (point, f1) ->
  f_data f1 = f_data f /\ (left f1 <= left f)%nat.
Proof.
  unfold ReadVertexFromAsciiStl.
  destruct (ReadLine f true) as [[[more text] f']| | |] eqn:E; cbn [bind]; try discriminate.
  apply ReadLine_left in E.
  destruct (negb more); [discriminate|].
  destruct (List.length (StringFields text) <? 4)%nat; [discriminate|].
  destruct (negb _); [discriminate|].
  destruct (bad_conversion _ _); [discriminate|].
  intros [= <- <-]. tauto.
Qed.

Lemma read_vertices_left n : forall f coords coords' f',
  read_vertices atof n f coords = Ok (coords', f') ->
  f_data f' = f_data f /\ (left f' <= left f)%nat.
Proof.
  induction n as [|k IH]; intros f coords coords' f' H.
  - cbn in H. injection H as <- <-. auto.
  - cbn [read_vertices] in H.
    destruct (ReadVertexFromAsciiStl atof f) as [[point f1]| | |] eqn:E;
      cbn [bind] in H; try discriminate.
    apply ReadVertexFromAsciiStl_left in E. apply IH in H.
    destruct E as [E1 E2], H as [H1 H2]. split; [congruence | lia].
Qed.

Lemma ReadFacetFromAsciiStl_left f coords f' :
  ReadFacetFromAsciiStl atof f = Ok (true, coords, f') ->
  f_data f' = f_data f /\ (left f' < left f)%nat.
Proof.
  unfold ReadFacetFromAsciiStl.
  destruct (ReadLine f true) as [[[more text] f1]| | |] eqn:E1; cbn [bind]; try discriminate.
  apply ReadLine_left in E1. destruct E1 as (D1 & L1 & S1).
  destruct more; cbn [negb]; [|discriminate]. specialize (S1 eq_refl).
  destruct (StringFields text) as [|t ts]; [discriminate|].
  destruct (_ || _); [discriminate|].
  destruct (field (t :: ts) 0 =? "facet")%string; [|discriminate].
  destruct (ReadLine f1 true) as [[[more2 text2] f2]| | |] eqn:E2; cbn [bind]; try discriminate.
  apply ReadLine_left in E2. destruct E2 as (D2 & L2 & _).
  destruct (negb more2); [discriminate|].
  destruct (negb (starts_with_keyword (StringFields text2) _ _ _)); [discriminate|].
  destruct (read_vertices atof 3 f2 []) as [[cs f3]| | |] eqn:E3; cbn [bind]; try discriminate.
  apply read_vertices_left in E3. destruct E3 as (D3 & L3).
  destruct (ReadLine f3 true) as [[[more4 text4] f4]| | |] eqn:E4; cbn [bind]; try discriminate.
  apply ReadLine_left in E4. destruct E4 as (D4 & L4 & _).
  destruct (negb more4); [discriminate|].
  destruct (negb (starts_with_keyword (StringFields text4) _ _ _)); [discriminate|].
  destruct (ReadLine f4 true) as [[[more5 text5] f5]| | |] eqn:E5; cbn [bind]; try discriminate.
  apply ReadLine_left in E5. destruct E5 as (D5 & L5 & _).
  destruct (negb more5); [discriminate|].
  destruct (negb (starts_with_keyword (StringFields text5) _ _ _)); [discriminate|].
  intros [= <- <-]. split; [congruence | lia].
Qed.

Lemma ReadFacetFromStl_left r coords r' :
  ReadFacetFromStl atof r = Ok (true, coords, r') ->
  f_data (m_file r') = f_data (m_file r)
  /\ (left (m_file r') < left (m_file r))%nat.
Proof.
  unfold ReadFacetFromStl. destruct (m_isBinaryStl r).
  - unfold ReadFacetFromBinaryStl, Read, sizeof_BinaryStlRecord.
    destruct (m_curFacet r >=? m_numFacets r)%Z; [discriminate|].
    pose proof (length_firstn 52 (remaining (m_file r))) as Hrec.
    fold (left (m_file r)) in Hrec.
    remember (firstn 52 (remaining (m_file r))) as rec eqn:Erec.
    destruct (List.length rec =? 52)%nat eqn:E; cbn [negb]; [|discriminate].
    apply Nat.eqb_eq in E.
    destruct (negb _); [discriminate|].
    intros [= <- <-]. cbn [m_file f_data]. split; [reflexivity|].
    rewrite !left_eq in *. cbn [f_data f_pos]. lia.
  - destruct (ReadFacetFromAsciiStl atof (m_file r)) as [[[more cs] f1]| | |] eqn:E;
      cbn [bind]; try discriminate.
    intros [= -> <- <-]. cbn [m_file]. now apply ReadFacetFromAsciiStl_left in E.
Qed.

(** With more fuel than bytes left to read, the loop ends by itself. *)
Lemma convert_loop_ends fuel : forall c,
  (left (m_file (c_reader c)) < fuel)%nat ->
  convert_loop NDEBUG atof fuel c <> None.
Proof.
  induction fuel as [|k IH]; intros c Hfuel; [lia|].
  cbn [convert_loop].
  destruct (ReadFacetFromStl atof (c_reader c)) as [[[more coords] r1]| | |] eqn:E;
    try discriminate.
  destruct more; cbn [negb]; [|discriminate].
  apply ReadFacetFromStl_left in E. destruct E as [_ E].
  destruct (WriteFacetToWrl NDEBUG (c_writer c) coords); try discriminate.
  destruct (fold_left _ coords _) as [emin1 emax1].
  apply IH. cbn [c_reader]. lia.
Qed.

Lemma ReadHeaderFromStl_data r r' :
  ReadHeaderFromStl r = Ok r' -> f_data (m_file r') = f_data (m_file r).
Proof.
  unfold ReadHeaderFromStl, IsBinaryStl, ReadHeaderFromBinaryStl, ReadHeaderFromAsciiStl,
    Seek, Read.
  cbn [negb f_data f_pos fst snd m_lineCounter].
  set (got := firstn sizeof_uint32 _).
  destruct (negb (List.length got =? sizeof_uint32)%nat).
  - cbn [bind].
    match goal with |- context [ReadLine ?f true] =>
      destruct (ReadLine f true) as [[[more text] f1]| | |] eqn:E end;
      cbn [bind]; try discriminate.
    apply ReadLine_left in E. destruct E as [E _].
    destruct (negb more); [discriminate|].
    destruct (StringFields text); [discriminate|].
    destruct (negb _); [discriminate|].
    intros [= <-]. exact E.
  - destruct (le_uint got <? 1)%Z eqn:E1.
    + cbn [bind].
      match goal with |- context [ReadLine ?f true] =>
        destruct (ReadLine f true) as [[[more text] f1]| | |] eqn:E end;
        cbn [bind]; try discriminate.
      apply ReadLine_left in E. destruct E as [E _].
      destruct (negb more); [discriminate|].
      destruct (StringFields text); [discriminate|].
      destruct (negb _); [discriminate|].
      intros [= <-]. exact E.
    + rewrite E1. cbn [f_data].
      destruct (_ =? _)%Z.
      * cbn [negb f_data f_pos fst snd m_lineCounter bind].
        fold got.
        destruct (negb (List.length got =? sizeof_uint32)%nat); [discriminate|].
        rewrite E1. cbn [bind]. now intros [= <-].
      * cbn [bind].
        match goal with |- context [ReadLine ?f true] =>
          destruct (ReadLine f true) as [[[more text] f1]| | |] eqn:E end;
          cbn [bind]; try discriminate.
        apply ReadLine_left in E. destruct E as [E _].
        destruct (negb more); [discriminate|].
        destruct (StringFields text); [discriminate|].
        destruct (negb _); [discriminate|].
        intros [= <-]. exact E.
Qed.

(** The fuel [ConvertStlToWrl] gives its loop is enough: the [None] of its
    definition does not occur. *)
Lemma ConvertStlToWrl_loop_ends inFile reader writer emin emax n :
  ReadHeaderFromStl (new_reader inFile) = Ok reader ->
  convert_loop NDEBUG atof (S (List.length (f_data inFile)))
               (mkConversion reader writer emin emax n) <> None.
Proof.
  intros H. apply ReadHeaderFromStl_data in H. cbn [new_reader m_file] in H.
  apply convert_loop_ends. cbn [c_reader]. rewrite left_eq, H. lia.
Qed.

End WithEnvironment.

(** C2 on the code: a well-formed ASCII STL of one facet converts to one
    index triple; with an empty line, ended by LF alone, after its "solid"
    line, the same file converts without error to a VRML file with no Shape
    node and no index triple: [ReadLine] takes the empty line for the end
    of the file and the facet is never read. *)
Theorem empty_line_ends_the_facets (NDEBUG : bool) (atof : string -> float) :
  (exists out,
     ConvertStlToWrl NDEBUG Samples.atof_decimal
       (Samples.file_of_string Samples.ascii_one_facet) (create_file None) = Ok (out, 1%nat)
     /\ index_triples_in out = 1%nat)
  /\ (exists out,
       ConvertStlToWrl NDEBUG atof
         (Samples.file_of_string Samples.ascii_blank_line) (create_file None) = Ok (out, 0%nat)
       /\ shapes_in out = 0%nat
       /\ index_triples_in out = 0%nat).
Proof.
  split.
  - destruct NDEBUG; (eexists; split; [vm_compute; reflexivity | reflexivity]).
  - eexists. split; [reflexivity | split; reflexivity].
Qed.

(** ** Binary input: one index triple per facet *)

Lemma tally_triples f g a b c :
  tally g = tally_add (tally f) a b c ->
  index_triples_in g = (index_triples_in f + c)%nat.
Proof. unfold tally, tally_add. now intros [= _ _ ->]. Qed.

Section Binary.

Variable NDEBUG : bool.
Variable atof : string -> float.

Lemma WriteFacetToWrl_counts w coords :
  o_quota (w_file w) = None ->
  whole_triangles w ->
  List.length coords = 3%nat ->
  exists w', WriteFacetToWrl NDEBUG w coords = Ok w'
    /\ o_quota (w_file w') = None
    /\ whole_triangles w'
    /\ triples_done w' = S (triples_done w).
Proof.
  unfold whole_triangles, triples_done, pending, maxPointsPerFaceSet.
  intros Hq [Hmod Hlt] Hc. unfold WriteFacetToWrl, maxPointsPerFaceSet.
  assert (Hlen : List.length (m_triangles w ++ coords)
                 = (List.length (m_triangles w) + 3)%nat)
    by (rewrite length_app, Hc; reflexivity).
  assert (Hm3 : (List.length (m_triangles w ++ coords) mod 3 = 0)%nat)
    by (rewrite Hlen, <- Nat.Div0.add_mod_idemp_l, Hmod; reflexivity).
  assert (Hdiv : (List.length (m_triangles w ++ coords) / 3
                  = S (List.length (m_triangles w) / 3))%nat).
  { rewrite Hlen. change 3%nat with (1 * 3)%nat at 1.
    rewrite Nat.div_add by lia. lia. }
  destruct (3000 <=? List.length (m_triangles w ++ coords))%nat eqn:E.
  - apply Nat.leb_le in E.
    destruct (WriterProps.WriteFacetsToWrl_ok NDEBUG (m_triangles w ++ coords) (w_file w) Hq Hm3)
      as (f' & Ef & Hq' & T); [lia|].
    rewrite Ef. cbn [bind]. eexists. split; [reflexivity|].
    cbn [w_file m_triangles List.length]. split; [exact Hq'|].
    split; [split; [reflexivity | lia]|].
    rewrite (tally_triples _ _ _ _ _ T), Hdiv. cbn. lia.
  - apply Nat.leb_gt in E. eexists. split; [reflexivity|].
    cbn [w_file m_triangles]. split; [exact Hq|]. split; [split; assumption|].
    rewrite Hdiv. lia.
Qed.

Lemma WriteEndOfWrl_counts w emin emax :
  o_quota (w_file w) = None ->
  whole_triangles w ->
  exists w', WriteEndOfWrl NDEBUG w emin emax = Ok w'
    /\ index_triples_in (w_file w') = triples_done w.
Proof.
  unfold whole_triangles, triples_done, pending.
  intros Hq [Hmod Hlt]. unfold WriteEndOfWrl.
  assert (Hflush : exists f1,
            match m_triangles w with
            | [] => Ok (w_file w)
            | _ => WriteFacetsToWrl NDEBUG (m_triangles w) (w_file w)
            end = Ok f1
            /\ o_quota f1 = None
            /\ index_triples_in f1
               = (index_triples_in (w_file w) + List.length (m_triangles w) / 3)%nat).
  { destruct (m_triangles w) as [|p ps] eqn:Em.
    - exists (w_file w). cbn. split; [reflexivity|]. split; [exact Hq | lia].
    - rewrite <- Em in *.
      assert (3 <= List.length (m_triangles w))%nat.
      { rewrite Em in *. cbn [List.length] in *.
        destruct ps as [|p2 [|p3 ps']]; cbn [List.length] in *;
          [discriminate Hmod | discriminate Hmod | lia]. }
      destruct (WriterProps.WriteFacetsToWrl_ok NDEBUG (m_triangles w) (w_file w) Hq Hmod)
        as (f' & Ef & Hq' & T); [assumption|].
      exists f'. split; [exact Ef|]. split; [exact Hq'|].
      exact (tally_triples _ _ _ _ _ T). }
  destruct Hflush as (f1 & -> & Hq1 & T1). cbn [bind].
  rewrite (WriterProps.Printf_or_throw_unlimited _ _ _ Hq1). cbn [bind].
  rewrite (WriterProps.Printf_or_throw_unlimited _ _ _ (WriterProps.push_unlimited _ _ _ Hq1)).
  cbn [bind].
  rewrite WriterProps.Printf_or_throw_unlimited by exact Hq1. cbn [bind].
  rewrite WriterProps.Printf_or_throw_unlimited by exact Hq1. cbn [bind].
  rewrite WriterProps.Printf_or_throw_unlimited by exact Hq1. cbn [bind].
  eexists. split; [reflexivity|]. cbn [w_file]. rewrite <- T1. reflexivity.
Qed.

Lemma ReadHeaderFromStl_binary data N :
  accepted_binary_stl data N ->
  ReadHeaderFromStl (new_reader (open_file data))
  = Ok (mkReader (mkFile data 84 0) true (Z.of_nat N) 0).
Proof.
  intros (Hlen & _ & HN & Hcount & _).
  unfold header_count in Hcount.
  assert (Hgot : List.length (firstn 4 (skipn 80 data)) = 4%nat)
    by (rewrite length_firstn, length_skipn; lia).
  unfold ReadHeaderFromStl, IsBinaryStl, ReadHeaderFromBinaryStl, Seek, Read, remaining,
    Length, new_reader, open_file, sizeof_uint32, sizeof_BinaryStlRecord, size_t_modulus.
  cbn [negb f_data f_pos fst snd m_lineCounter m_file].
  rewrite Hgot, Hcount. cbn [Nat.eqb negb].
  assert (E1 : (Z.of_nat N <? 1)%Z = false) by (apply Z.ltb_ge; lia).
  rewrite E1. cbn [f_data].
  assert (Hbig : (Z.of_nat N < 2 ^ 32)%Z).
  { pose proof (ReaderProps.header_count_below data) as H.
    unfold header_count in H. rewrite Hcount in H. lia. }
  rewrite Z.mod_small by (change (2 ^ 64)%Z with 18446744073709551616%Z;
                          change (2 ^ 32)%Z with 4294967296%Z in Hbig; lia).
  assert (E2 : (Z.of_nat (List.length data) =? 80 + Z.of_nat 4 + Z.of_nat N * Z.of_nat 52)%Z
               = true) by (apply Z.eqb_eq; lia).
  rewrite E2, ?E1. cbn [negb f_data f_pos fst snd m_lineCounter].
  rewrite Hgot, Hcount. cbn [Nat.eqb negb bind]. rewrite E1. reflexivity.
Qed.

Lemma binary_loop data N :
  accepted_binary_stl data N ->
  forall j k fuel w emin emax n,
    (k + j = N)%nat ->
    (52 * j < fuel)%nat ->
    o_quota (w_file w) = None ->
    whole_triangles w ->
    exists c',
      convert_loop NDEBUG atof fuel
        (mkConversion (mkReader (mkFile data (84 + 52 * k) 0) true (Z.of_nat N) (Z.of_nat k))
                      w emin emax n)
      = Some (Ok c')
      /\ numFacetsProcessed c' = (n + j)%nat
      /\ o_quota (w_file (c_writer c')) = None
      /\ whole_triangles (c_writer c')
      /\ triples_done (c_writer c') = (triples_done w + j)%nat.
Proof.
  intros (Hlen & _ & HN & Hcount & Hattr).
  assert (Hbig : (Z.of_nat N < 2 ^ 32)%Z).
  { pose proof (ReaderProps.header_count_below data) as H. rewrite Hcount in H. lia. }
  induction j as [|j IH]; intros k fuel w emin emax n Hk Hfuel Hq Hw.
  - destruct fuel as [|fuel]; [lia|].
    cbn [convert_loop c_reader]. unfold ReadFacetFromStl. cbn [m_isBinaryStl].
    rewrite ReaderProps.ReadFacetFromBinaryStl_exhausted by (cbn [m_numFacets m_curFacet]; lia).
    cbn [negb]. eexists. split; [reflexivity|].
    cbn [numFacetsProcessed c_writer]. repeat split; try assumption; try lia; apply Hw.
  - destruct fuel as [|fuel]; [lia|].
    cbn [convert_loop c_reader]. unfold ReadFacetFromStl. cbn [m_isBinaryStl].
    unfold ReadFacetFromBinaryStl, Read, remaining, sizeof_BinaryStlRecord.
    cbn [m_curFacet m_numFacets m_file f_data f_pos m_lineCounter m_isBinaryStl].
    assert (E : (Z.of_nat k >=? Z.of_nat N)%Z = false)
      by (rewrite Z.geb_leb; apply Z.leb_gt; lia).
    rewrite E. fold (record_at data k).
    assert (Hrec : List.length (record_at data k) = 52%nat)
      by (unfold record_at; rewrite length_firstn, length_skipn; lia).
    rewrite Hrec. cbn [Nat.eqb negb].
    rewrite (Hattr k) by lia. cbn [Z.eqb negb].
    assert (Hpts : List.length (record_points (record_at data k)) = 3%nat) by reflexivity.
    destruct (WriteFacetToWrl_counts w (record_points (record_at data k)) Hq Hw Hpts)
      as (w1 & Ew & Hq1 & Hw1 & T1).
    cbn [c_writer]. rewrite Ew.
    destruct (fold_left _ (record_points (record_at data k)) _) as [emin1 emax1].
    replace ((Z.of_nat k + 1) mod size_t_modulus)%Z with (Z.of_nat (S k)).
    2:{ unfold size_t_modulus. rewrite Z.mod_small; [lia|].
        change (2 ^ 64)%Z with 18446744073709551616%Z.
        change (2 ^ 32)%Z with 4294967296%Z in Hbig. lia. }
    replace (84 + 52 * k + 52)%nat with (84 + 52 * S k)%nat by lia.
    destruct (IH (S k) fuel w1 emin1 emax1 (S n)) as (c' & Ec & Hn & Hq' & Hw' & T');
      [lia | lia | exact Hq1 | exact Hw1 |].
    exists c'. split; [exact Ec|]. repeat split; try assumption; try apply Hw'; lia.
Qed.

End Binary.

(** For every file of [N] records of 52 bytes that the reader takes for
    binary, on an output file that takes the writes, the conversion
    returns, has processed [N] facets, and has written exactly [N] index
    triples, summed over the Shape nodes. *)
Theorem binary_conversion_counts (NDEBUG : bool) (atof : string -> float)
    (data : list byte) (N : nat) (outFile : OutFile) :
  accepted_binary_stl data N ->
  o_quota outFile = None ->
  exists out,
    ConvertStlToWrl NDEBUG atof (open_file data) outFile = Ok (out, N)
    /\ index_triples_in out = (index_triples_in outFile + N)%nat.
Proof.
  intros Hvalid Hq. unfold ConvertStlToWrl.
  rewrite (ReadHeaderFromStl_binary data N Hvalid). cbn [bind].
  unfold WriteStartOfWrl. cbn [new_writer w_file m_triangles].
  rewrite (WriterProps.Printf_or_throw_unlimited _ _ _ Hq). cbn [bind].
  set (w0 := mkWriter (push outFile wrl_header []) []).
  assert (Hq0 : o_quota (w_file w0) = None) by exact Hq.
  assert (Hw0 : whole_triangles w0)
    by (unfold whole_triangles, pending, maxPointsPerFaceSet;
        cbn; split; [reflexivity | lia]).
  pose proof Hvalid as (Hlen & _ & HN & _).
  destruct (binary_loop NDEBUG atof data N Hvalid N 0
              (S (List.length (f_data (open_file data)))) w0
              (mkPoint DBL_MAX DBL_MAX DBL_MAX)
              (mkPoint (- DBL_MAX) (- DBL_MAX) (- DBL_MAX)) 0)
    as (c' & Ec & Hn & Hq' & Hw' & T'); [lia | cbn [open_file f_data]; lia | exact Hq0 | exact Hw0 |].
  change (84 + 52 * 0)%nat with 84%nat in Ec. change (Z.of_nat 0) with 0%Z in Ec.
  rewrite Ec. cbn [bind].
  destruct (WriteEndOfWrl_counts NDEBUG (c_writer c') (c_emin c') (c_emax c') Hq' Hw')
    as (w' & Ew & Tw).
  rewrite Ew. cbn [bind]. exists (w_file w'). split; [now rewrite Hn|].
  rewrite Tw, T'. unfold triples_done, pending, w0. cbn [w_file m_triangles List.length].
  change (index_triples_in (push outFile wrl_header []))
    with (index_triples_in outFile).
  cbn. lia.
Qed.

Example padded_one_facet_converts :
  accepted_binary_stl Samples.padded_one_facet 1
  /\ exists out,
      ConvertStlToWrl false Samples.atof_decimal
        (open_file Samples.padded_one_facet) (create_file None) = Ok (out, 1%nat)
      /\ index_triples_in out = 1%nat.
Proof.
  assert (Hvalid : accepted_binary_stl Samples.padded_one_facet 1).
  { split; [reflexivity|]. split; [reflexivity|]. split; [lia|]. split; [reflexivity|].
    intros k Hk. destruct k as [|k]; [reflexivity | lia]. }
  split; [exact Hvalid|].
  now apply (binary_conversion_counts false Samples.atof_decimal _ 1 (create_file None)).
Qed.

(** ** ASCII input without empty lines: one index triple per facet *)

Lemma list_byte_of_string_cons a l :
  list_byte_of_string (String a l) = byte_of_ascii a :: list_byte_of_string l.
Proof. reflexivity. Qed.

Lemma length_list_byte_of_string l :
  List.length (list_byte_of_string l) = String.length l.
Proof.
  induction l as [|a l IH]; [reflexivity|].
  rewrite list_byte_of_string_cons. cbn [List.length String.length]. now rewrite IH.
Qed.

(** The characters of a line go to [text] one by one. *)
Lemma read_line_loop_chars l : forall tail text readAny consumed newlines,
  no_eol l = true ->
  read_line_loop true (list_byte_of_string l ++ tail) text readAny consumed newlines
  = read_line_loop true tail (text ++ l)%string (readAny || negb (is_empty l))
                   (consumed + String.length l) newlines.
Proof.
  induction l as [|a l IH]; intros tail text ra c nl Hl.
  - cbn [list_byte_of_string list_ascii_of_string map app is_empty negb String.length].
    now rewrite TokenizerProps.append_empty_r, orb_false_r, Nat.add_0_r.
  - cbn [no_eol] in Hl. apply andb_true_iff in Hl as [Ha Hl].
    apply andb_true_iff in Ha as [Hlf Hcr].
    apply negb_true_iff in Hlf. apply negb_true_iff in Hcr.
    rewrite list_byte_of_string_cons. cbn [app read_line_loop].
    rewrite ascii_of_byte_of_ascii, Hlf, Hcr.
    rewrite IH by exact Hl.
    rewrite WriterProps.append_assoc. cbn [append is_empty negb String.length].
    rewrite orb_true_r. cbn [orb]. f_equal. lia.
Qed.

Lemma remaining_after_line f l rest :
  remaining f = line_bytes l ++ rest -> remaining (after_line f l) = rest.
Proof.
  unfold remaining, after_line. cbn [f_data f_pos]. intros H.
  rewrite Nat.add_comm, <- skipn_skipn, H, skipn_app, skipn_all, Nat.sub_diag.
  reflexivity.
Qed.

Lemma ReadLine_clean f l rest :
  clean_line l = true ->
  remaining f = line_bytes l ++ rest ->
  ReadLine f true = Ok (true, fst l, after_line f l).
Proof.
  unfold clean_line. intros Hc Hrem. apply andb_true_iff in Hc as [Hne Heol].
  unfold ReadLine. rewrite Hrem. unfold line_bytes at 1. rewrite <- app_assoc.
  rewrite read_line_loop_chars by exact Heol.
  rewrite Hne. cbn [orb append Nat.add].
  unfold after_line, line_bytes. rewrite length_app, length_list_byte_of_string.
  destruct l as [text crlf]. cbn [fst snd] in *.
  assert (Ht : is_empty text = false) by now apply negb_true_iff.
  destruct crlf; cbn [app read_line_loop].
  - change (ascii_of_byte x0d =? LF)%char with false.
    change (ascii_of_byte x0d =? CR)%char with true.
    change (ascii_of_byte x0a =? LF)%char with true.
    cbv iota. rewrite Ht. cbn [andb List.length].
    repeat f_equal; lia.
  - change (ascii_of_byte x0a =? LF)%char with true.
    cbv iota. rewrite Ht. cbn [andb List.length].
    repeat f_equal; lia.
Qed.

Section Ascii.

Variable NDEBUG : bool.
Variable atof : string -> float.

Lemma ReadVertexFromAsciiStl_line f l rest :
  clean_line l = true ->
  vertex_line atof l = true ->
  remaining f = line_bytes l ++ rest ->
  exists point, ReadVertexFromAsciiStl atof f = Ok (point, after_line f l).
Proof.
  intros Hc Hv Hrem. unfold ReadVertexFromAsciiStl.
  rewrite (ReadLine_clean f l rest Hc Hrem). cbn [bind negb].
  unfold vertex_line in Hv. cbv zeta in Hv.
  apply andb_true_iff in Hv as [Hv Hbad]. apply andb_true_iff in Hv as [Hlen Hword].
  apply Nat.leb_le in Hlen. apply negb_true_iff in Hbad.
  destruct (List.length (StringFields (fst l)) <? 4)%nat eqn:E;
    [apply Nat.ltb_lt in E; lia|].
  rewrite Hword. cbn [negb]. rewrite Hbad. eauto.
Qed.

Lemma keyword_line_accepts l one w1 w2 :
  keyword_line one w1 w2 l = true ->
  negb (starts_with_keyword (StringFields (fst l)) one w1 w2) = false.
Proof. unfold keyword_line. now intros ->. Qed.

(** The seven lines of a facet are read as one triangle. *)
Lemma ReadFacetFromAsciiStl_block f l1 l2 l3 l4 l5 l6 l7 rest :
  forallb clean_line [l1; l2; l3; l4; l5; l6; l7] = true ->
  first_token_is "facet" l1 = true ->
  keyword_line "outerloop" "outer" "loop" l2 = true ->
  vertex_line atof l3 = true -> vertex_line atof l4 = true -> vertex_line atof l5 = true ->
  keyword_line "endloop" "end" "loop" l6 = true ->
  keyword_line "endfacet" "end" "facet" l7 = true ->
  remaining f = file_bytes (l1 :: l2 :: l3 :: l4 :: l5 :: l6 :: l7 :: rest) ->
  exists coords f',
    ReadFacetFromAsciiStl atof f = Ok (true, coords, f')
    /\ List.length coords = 3%nat
    /\ remaining f' = file_bytes rest.
Proof.
  intros Hclean H1 H2 H3 H4 H5 H6 H7 Hrem.
  cbn [forallb] in Hclean.
  repeat match type of Hclean with
         | (_ && _ = true) => let H := fresh "C" in apply andb_true_iff in Hclean as [H Hclean]
         end.
  unfold file_bytes in Hrem. cbn [map List.concat] in Hrem. fold (file_bytes rest) in Hrem.
  unfold ReadFacetFromAsciiStl.
  rewrite (ReadLine_clean f l1 _ C Hrem). cbn [bind negb].
  apply remaining_after_line in Hrem.
  unfold first_token_is in H1.
  destruct (StringFields (fst l1)) as [|t ts]; [discriminate|].
  apply String.eqb_eq in H1. subst t. cbn [field nth List.length].
  change ("facet" =? "endsolid")%string with false.
  change ("facet" =? "end")%string with false.
  rewrite andb_false_r. cbn [orb andb].
  change ("facet" =? "facet")%string with true. cbv iota.
  rewrite (ReadLine_clean _ l2 _ C0 Hrem). cbn [bind negb].
  apply remaining_after_line in Hrem.
  rewrite (keyword_line_accepts _ _ _ _ H2).
  cbn [read_vertices].
  destruct (ReadVertexFromAsciiStl_line _ l3 _ C1 H3 Hrem) as [p1 ->]. cbn [bind].
  apply remaining_after_line in Hrem.
  destruct (ReadVertexFromAsciiStl_line _ l4 _ C2 H4 Hrem) as [p2 ->]. cbn [bind].
  apply remaining_after_line in Hrem.
  destruct (ReadVertexFromAsciiStl_line _ l5 _ C3 H5 Hrem) as [p3 ->]. cbn [bind].
  apply remaining_after_line in Hrem.
  rewrite (ReadLine_clean _ l6 _ C4 Hrem). cbn [bind negb].
  apply remaining_after_line in Hrem.
  rewrite (keyword_line_accepts _ _ _ _ H6).
  rewrite (ReadLine_clean _ l7 _ C5 Hrem). cbn [bind negb].
  apply remaining_after_line in Hrem.
  rewrite (keyword_line_accepts _ _ _ _ H7).
  eexists. eexists. split; [reflexivity|]. split; [reflexivity | exact Hrem].
Qed.

(** The line that ends the solid ends the triangles. *)
Lemma ReadFacetFromAsciiStl_endsolid f l rest :
  clean_line l = true ->
  keyword_line "endsolid" "end" "solid" l = true ->
  remaining f = file_bytes (l :: rest) ->
  ReadFacetFromAsciiStl atof f = Ok (false, [], after_line f l).
Proof.
  intros Hc Hk Hrem.
  unfold file_bytes in Hrem. cbn [map List.concat] in Hrem.
  unfold ReadFacetFromAsciiStl.
  rewrite (ReadLine_clean f l _ Hc Hrem). cbn [bind negb].
  unfold keyword_line, starts_with_keyword in Hk.
  destruct (StringFields (fst l)) as [|t ts]; [reflexivity|].
  cbn [List.length] in *. change (0 <? S (List.length ts))%nat with true in Hk.
  cbn [andb] in Hk. rewrite Hk. reflexivity.
Qed.

Lemma ascii_loop : forall j ls fuel r w emin emax n,
  m_isBinaryStl r = false ->
  remaining (m_file r) = file_bytes ls ->
  facet_blocks atof j ls = true ->
  (left (m_file r) < fuel)%nat ->
  o_quota (w_file w) = None ->
  whole_triangles w ->
  exists c',
    convert_loop NDEBUG atof fuel (mkConversion r w emin emax n) = Some (Ok c')
    /\ numFacetsProcessed c' = (n + j)%nat
    /\ o_quota (w_file (c_writer c')) = None
    /\ whole_triangles (c_writer c')
    /\ triples_done (c_writer c') = (triples_done w + j)%nat.
Proof.
  induction j as [|j IH]; intros ls fuel r w emin emax n Hascii Hrem Hblocks Hfuel Hq Hw.
  - destruct fuel as [|fuel]; [lia|].
    destruct ls as [|l rest]; [discriminate|].
    cbn [facet_blocks] in Hblocks. apply andb_true_iff in Hblocks as [Hc Hk].
    cbn [convert_loop c_reader]. unfold ReadFacetFromStl. rewrite Hascii.
    rewrite (ReadFacetFromAsciiStl_endsolid _ l rest Hc Hk Hrem). cbn [bind negb].
    eexists. split; [reflexivity|].
    cbn [numFacetsProcessed c_writer]. repeat split; try assumption; try lia; apply Hw.
  - destruct fuel as [|fuel]; [lia|].
    destruct ls as [|l1 [|l2 [|l3 [|l4 [|l5 [|l6 [|l7 rest]]]]]]]; try discriminate.
    cbn [facet_blocks] in Hblocks.
    repeat match type of Hblocks with
           | (_ && _ = true) => let H := fresh "B" in apply andb_true_iff in Hblocks as [Hblocks H]
           end.
    destruct (ReadFacetFromAsciiStl_block (m_file r) l1 l2 l3 l4 l5 l6 l7 rest)
      as (coords & f' & Er & Hlen & Hrem'); try assumption.
    cbn [convert_loop c_reader]. unfold ReadFacetFromStl. rewrite Hascii, Er.
    cbn [bind negb c_writer].
    pose proof (ReadFacetFromAsciiStl_left atof _ _ _ Er) as [_ Hleft].
    destruct (WriteFacetToWrl_counts NDEBUG w coords Hq Hw Hlen)
      as (w1 & Ew & Hq1 & Hw1 & T1).
    rewrite Ew.
    destruct (fold_left _ coords _) as [emin1 emax1].
    destruct (IH rest fuel (mkReader f' false (m_numFacets r) (m_curFacet r))
                 w1 emin1 emax1 (S n))
      as (c' & Ec & Hn & Hq' & Hw' & T'); cbn [m_isBinaryStl m_file];
      [reflexivity | exact Hrem' | assumption | lia | exact Hq1 | exact Hw1 |].
    exists c'. split; [exact Ec|]. repeat split; try assumption; try apply Hw'; lia.
Qed.

End Ascii.

Lemma IsBinaryStl_file f :
  snd (IsBinaryStl f)
  = mkFile (f_data f) (80 + List.length (firstn 4 (skipn 80 (f_data f)))) (m_lineCounter f).
Proof.
  unfold IsBinaryStl, ReadHeaderFromBinaryStl, Seek, Read, remaining, sizeof_uint32.
  cbn [negb f_data f_pos fst snd m_lineCounter].
  destruct (negb _); [reflexivity|].
  destruct (le_uint _ <? 1)%Z eqn:E; [reflexivity|]. rewrite E. reflexivity.
Qed.

(** For every ASCII STL of [N] facets with no empty line (each line ended
    by LF or by CR LF) that the reader does not take for a binary file, on
    an output file that takes the writes, the conversion returns, has
    processed [N] facets, and has written exactly [N] index triples. *)
Theorem ascii_conversion_counts (NDEBUG : bool) (atof : string -> float)
    (ls : list text_line) (N : nat) (outFile : OutFile) :
  valid_ascii_stl atof ls N = true ->
  fst (IsBinaryStl (open_file (file_bytes ls))) = false ->
  o_quota outFile = None ->
  exists out,
    ConvertStlToWrl NDEBUG atof (open_file (file_bytes ls)) outFile = Ok (out, N)
    /\ index_triples_in out = (index_triples_in outFile + N)%nat.
Proof.
  intros Hvalid Hnot Hq. unfold ConvertStlToWrl.
  destruct ls as [|header rest]; [discriminate|].
  cbn [valid_ascii_stl] in Hvalid.
  apply andb_true_iff in Hvalid as [Hvalid Hblocks].
  apply andb_true_iff in Hvalid as [Hclean Hsolid].
  rewrite ReaderProps.ReadHeaderFromStl_ascii by exact Hnot.
  cbn [new_reader m_file Seek snd]. rewrite IsBinaryStl_file.
  cbn [open_file f_data m_lineCounter].
  unfold ReadHeaderFromAsciiStl. cbn [Seek snd f_data m_lineCounter].
  assert (Hrem : remaining (mkFile (file_bytes (header :: rest)) 0 0)
                 = line_bytes header ++ file_bytes rest) by reflexivity.
  rewrite (ReadLine_clean _ header _ Hclean Hrem). cbn [bind negb].
  apply remaining_after_line in Hrem.
  unfold first_token_is in Hsolid.
  destruct (StringFields (fst header)) as [|t ts]; [discriminate|].
  rewrite Hsolid. cbn [negb bind].
  unfold WriteStartOfWrl. cbn [new_writer w_file m_triangles].
  rewrite (WriterProps.Printf_or_throw_unlimited _ _ _ Hq). cbn [bind].
  set (w0 := mkWriter (push outFile wrl_header []) []).
  assert (Hq0 : o_quota (w_file w0) = None) by exact Hq.
  assert (Hw0 : whole_triangles w0)
    by (unfold whole_triangles, pending, maxPointsPerFaceSet;
        cbn; split; [reflexivity | lia]).
  set (r0 := mkReader _ false 0%Z 0%Z).
  destruct (ascii_loop NDEBUG atof N rest
              (S (List.length (file_bytes (header :: rest)))) r0 w0
              (mkPoint DBL_MAX DBL_MAX DBL_MAX)
              (mkPoint (- DBL_MAX) (- DBL_MAX) (- DBL_MAX)) 0)
    as (c' & Ec & Hn & Hq' & Hw' & T');
    [reflexivity | exact Hrem | exact Hblocks | | exact Hq0 | exact Hw0 |].
  { unfold r0. cbn [m_file]. rewrite left_eq. unfold after_line. cbn [f_data f_pos]. lia. }
  rewrite Ec. cbn [bind].
  destruct (WriteEndOfWrl_counts NDEBUG (c_writer c') (c_emin c') (c_emax c') Hq' Hw')
    as (w' & Ew & Tw).
  rewrite Ew. cbn [bind]. exists (w_file w'). split; [now rewrite Hn|].
  rewrite Tw, T'. unfold triples_done, pending, w0. cbn [w_file m_triangles List.length].
  change (index_triples_in (push outFile wrl_header []))
    with (index_triples_in outFile).
  cbn. lia.
Qed.

Example dos_one_facet_converts :
  valid_ascii_stl Samples.atof_decimal Samples.dos_one_facet 1 = true
  /\ exists out,
      ConvertStlToWrl false Samples.atof_decimal
        (open_file (file_bytes Samples.dos_one_facet)) (create_file None) = Ok (out, 1%nat)
      /\ index_triples_in out = 1%nat.
Proof.
  split; [vm_compute; reflexivity|].
  apply (ascii_conversion_counts false Samples.atof_decimal Samples.dos_one_facet 1
           (create_file None)); vm_compute; reflexivity.
Qed.

End DriverProps.

(* ================================================================== *)
(** * More on [File::ReadLine] *)

Module FileProps.
Import SimpleFile Driver.

Lemma is_LF_byte b : (ascii_of_byte b =? LF)%char = true <-> b = x0a.
Proof.
  split.
  - intros H. apply Ascii.eqb_eq in H. apply (f_equal byte_of_ascii) in H.
    now rewrite byte_of_ascii_of_byte in H.
  - now intros ->.
Qed.

Lemma is_CR_byte b : (ascii_of_byte b =? CR)%char = true <-> b = x0d.
Proof.
  split.
  - intros H. apply Ascii.eqb_eq in H. apply (f_equal byte_of_ascii) in H.
    now rewrite byte_of_ascii_of_byte in H.
  - now intros ->.
Qed.

Lemma is_empty_append text c : is_empty (text ++ String c "")%string = false.
Proof. destruct text; reflexivity. Qed.

(** With characters in [text] the loop ends at the next '\n' or at the end
    of the file. *)
Lemma loop_with_text_returns rest : forall skip text readAny consumed newlines,
  is_empty text = false ->
  read_line_loop skip rest text readAny consumed newlines <> LineHang.
Proof.
  induction rest as [|b rest IH]; intros skip text ra c nl Ht.
  - cbn [read_line_loop]. rewrite Ht, andb_false_r. discriminate.
  - cbn [read_line_loop]. destruct (ascii_of_byte b =? LF)%char.
    + rewrite Ht, andb_false_r. discriminate.
    + apply IH. destruct (ascii_of_byte b =? CR)%char; [exact Ht | apply is_empty_append].
Qed.

Lemma loop_without_skip_returns rest : forall text readAny consumed newlines,
  read_line_loop false rest text readAny consumed newlines <> LineHang.
Proof.
  induction rest as [|b rest IH]; intros text ra c nl; cbn [read_line_loop andb].
  - discriminate.
  - destruct (ascii_of_byte b =? LF)%char; [discriminate | apply IH].
Qed.

(** Once a character has been read and the line is blank so far, the loop
    never exits exactly when only CR and LF are left. *)
Lemma loop_on_blank_hangs_iff rest : forall consumed newlines,
  read_line_loop true rest "" true consumed newlines = LineHang
  <-> Forall (fun b => b = x0d \/ b = x0a) rest.
Proof.
  induction rest as [|b rest IH]; intros c nl; cbn [read_line_loop andb is_empty].
  - split; [constructor | reflexivity].
  - destruct (ascii_of_byte b =? LF)%char eqn:Elf.
    + apply is_LF_byte in Elf. subst b. rewrite IH.
      split; [intros H; constructor; auto | intros H; now inversion H].
    + destruct (ascii_of_byte b =? CR)%char eqn:Ecr.
      * apply is_CR_byte in Ecr. subst b. rewrite IH.
        split; [intros H; constructor; auto | intros H; now inversion H].
      * split.
        -- intros H. exfalso. revert H. apply loop_with_text_returns. reflexivity.
        -- intros H. inversion H as [|? ? [Hb|Hb] _]; subst.
           ++ discriminate Ecr.
           ++ discriminate Elf.
Qed.

(** X1.  [ReadLine] asked to skip blank lines never returns exactly when
    the stream stands on a CR followed by nothing but CR and LF up to the
    end of the file; asked not to skip them, it always returns. *)
Theorem ReadLine_hangs_iff (f : File) :
  (ReadLine f true = Hang
   <-> exists tail, remaining f = x0d :: tail
                    /\ Forall (fun b => b = x0d \/ b = x0a) tail)
  /\ ReadLine f false <> Hang.
Proof.
  split.
  - unfold ReadLine. destruct (remaining f) as [|b rest].
    + cbn. split; [discriminate | intros (tail & H & _); discriminate].
    + cbn [read_line_loop andb is_empty].
      destruct (ascii_of_byte b =? LF)%char eqn:Elf.
      * apply is_LF_byte in Elf. subst b.
        split; [discriminate | intros (tail & H & _); discriminate].
      * destruct (ascii_of_byte b =? CR)%char eqn:Ecr.
        -- apply is_CR_byte in Ecr. subst b.
           pose proof (loop_on_blank_hangs_iff rest 1 0) as Hb.
           destruct (read_line_loop true rest "" true 1 0) eqn:E.
           ++ split; [discriminate|]. intros (tail & [= <-] & Hall).
              apply Hb in Hall. discriminate.
           ++ split; [|reflexivity]. intros _. exists rest. split; [reflexivity|].
              now apply Hb.
        -- pose proof (loop_with_text_returns rest true
                         (String (ascii_of_byte b) "") true 1 0 eq_refl) as Hn.
           cbn [append].
           destruct (read_line_loop true rest _ true 1 0) eqn:E; [|contradiction].
           split; [discriminate|]. intros (tail & [= -> _] & _). discriminate Ecr.
  - unfold ReadLine.
    pose proof (loop_without_skip_returns (remaining f) "" false 0 0) as H.
    destruct (read_line_loop false (remaining f) "" false 0 0); [discriminate | contradiction].
Qed.

Lemma loop_keeps_readAny rest : forall skip text consumed newlines
    readAny' text' consumed' newlines',
  read_line_loop skip rest text true consumed newlines
  = LineRet readAny' text' consumed' newlines' ->
  readAny' = true.
Proof.
  induction rest as [|b rest IH]; intros skip text c nl ra' text' c' nl' H;
    cbn [read_line_loop] in H.
  - destruct (skip && is_empty text && true); [discriminate|]. now injection H as <- _ _ _.
  - destruct (ascii_of_byte b =? LF)%char.
    + destruct (skip && is_empty text && true); [now apply IH in H|].
      now injection H as <- _ _ _.
    + now apply IH in H.
Qed.

(** X2.  [ReadLine] returns false, its sign that no line is left, exactly
    when the stream is at the end of the file or stands on an LF: an empty
    line ended by LF alone is reported as the end of the file, whatever
    follows it and whether blank lines are to be skipped or not.  The text
    is then empty and at most that one byte is consumed. *)
Theorem ReadLine_false_iff (f : File) (skipBlankLines : bool) :
  ((exists text f', ReadLine f skipBlankLines = Ok (false, text, f'))
   <-> remaining f = [] \/ exists rest, remaining f = x0a :: rest)
  /\ (forall text f',
        ReadLine f skipBlankLines = Ok (false, text, f') ->
        text = ""
        /\ f_data f' = f_data f
        /\ f_pos f' = (f_pos f + Nat.min 1 (List.length (remaining f)))%nat).
Proof.
  unfold ReadLine. destruct (remaining f) as [|b rest].
  - cbn [read_line_loop andb List.length Nat.min]. rewrite andb_false_r. split.
    + split; [auto | intros _; eauto].
    + intros text f' [= <- <-]. cbn [f_data f_pos]. auto.
  - cbn [read_line_loop List.length Nat.min].
    destruct (ascii_of_byte b =? LF)%char eqn:Elf.
    + apply is_LF_byte in Elf. subst b. rewrite andb_false_r. split.
      * split; [intros _; right; eauto | intros _; eauto].
      * intros text f' [= <- <-]. cbn [f_data f_pos]. auto.
    + match goal with |- context [read_line_loop ?s rest ?t true 1 0] =>
        pose proof (loop_keeps_readAny rest s t 1 0) as Hra;
        destruct (read_line_loop s rest t true 1 0) as [ra t' c' nl'|]
      end.
      * specialize (Hra _ _ _ _ eq_refl). subst ra. split.
        -- split; [intros (text & f' & H); discriminate H|].
           intros [H|(r & H)]; [discriminate H|].
           injection H as -> _. discriminate Elf.
        -- intros text f' H. discriminate H.
      * split.
        -- split; [intros (text & f' & H); discriminate H|].
           intros [H|(r & H)]; [discriminate H|].
           injection H as -> _. discriminate Elf.
        -- intros text f' H. discriminate H.
Qed.

(** X3.  Standing at the start of a line that is not empty and holds no CR
    or LF, [ReadLine] returns true with the characters of the line, without
    the LF or CR LF that ends it, leaves the stream just after the line and
    counts one line more; a last line with no line end is returned in the
    same way, the stream is then at the end of the file and the line is not
    counted. *)
Theorem ReadLine_next_line (f : File) :
  (forall (l : text_line) (rest : list byte),
     clean_line l = true ->
     remaining f = line_bytes l ++ rest ->
     exists f', ReadLine f true = Ok (true, fst l, f')
       /\ remaining f' = rest
       /\ f_data f' = f_data f
       /\ m_lineCounter f' = (m_lineCounter f + 1)%nat)
  /\ (forall (s : string),
        is_empty s = false -> no_eol s = true ->
        remaining f = list_byte_of_string s ->
        exists f', ReadLine f true = Ok (true, s, f')
          /\ remaining f' = []
          /\ f_data f' = f_data f
          /\ m_lineCounter f' = m_lineCounter f).
Proof.
  split.
  - intros l rest Hc Hrem. exists (after_line f l).
    split; [exact (DriverProps.ReadLine_clean f l rest Hc Hrem)|].
    split; [exact (DriverProps.remaining_after_line f l rest Hrem)|].
    split; reflexivity.
  - intros s Hne Heol Hrem. unfold ReadLine. rewrite Hrem.
    rewrite <- (app_nil_r (list_byte_of_string s)).
    rewrite DriverProps.read_line_loop_chars by exact Heol.
    cbn [read_line_loop append orb Nat.add]. rewrite Hne. cbn [negb andb].
    eexists. split; [reflexivity|]. split; [|split; [reflexivity | apply Nat.add_0_r]].
    unfold remaining in *. cbn [f_data f_pos].
    rewrite Nat.add_comm, <- skipn_skipn, Hrem.
    rewrite <- DriverProps.length_list_byte_of_string. apply skipn_all.
Qed.

Lemma ReadLine_next_line_witness :
  exists f',
    ReadLine (Samples.file_of_string ("solid a" ++ CRLF ++ "facet")) true
    = Ok (true, "solid a", f')
    /\ remaining f' = list_byte_of_string "facet"
    /\ exists f'', ReadLine f' true = Ok (true, "facet", f'') /\ remaining f'' = [].
Proof.
  destruct (ReadLine_next_line (Samples.file_of_string ("solid a" ++ CRLF ++ "facet")))
    as [Hline _].
  destruct (Hline ("solid a", true) (list_byte_of_string "facet")) as (f' & E & Hrem & Hd & _);
    [reflexivity | reflexivity |].
  exists f'. split; [exact E|]. split; [exact Hrem|].
  destruct (ReadLine_next_line f') as [_ Hlast].
  destruct (Hlast "facet" eq_refl eq_refl Hrem) as (f'' & E' & Hrem' & _).
  exists f''. split; [exact E' | exact Hrem'].
Defined.

End FileProps.

(* ================================================================== *)
(** * More on the headers and on the facets of the reader *)

Module FacetProps.
Import SimpleFile Tokenizer Reader Driver.

(** The answer of [IsBinaryStl] depends on the bytes of the file only. *)
Lemma IsBinaryStl_same (f : File) :
  fst (IsBinaryStl f) = fst (IsBinaryStl (open_file (f_data f))).
Proof.
  destruct (fst (IsBinaryStl f)) eqn:E1, (fst (IsBinaryStl (open_file (f_data f)))) eqn:E2;
    try reflexivity.
  - apply ReaderProps.IsBinaryStl_iff in E1.
    apply (proj2 (ReaderProps.IsBinaryStl_iff (open_file (f_data f)))) in E1. congruence.
  - apply ReaderProps.IsBinaryStl_iff in E2.
    apply (proj2 (ReaderProps.IsBinaryStl_iff f)) in E2. congruence.
Qed.

(** X4.  For a file below 2 GiB, [IsBinaryStl] answers true exactly when
    the file has the 4 bytes of the count after 80 bytes of preamble, the
    count (little-endian) is at least 1 and the file is 84 + 52 * count
    bytes long, 52 being [sizeof(BinaryStlRecord)], whose pack pragmas
    stand inside the struct.  So a binary STL in the layout of the format,
    84 + 50 * count bytes with a count of at least 1, is never taken for
    binary.  The answer depends on the bytes of the file only, wherever the
    stream stood before, and the call only moves the stream. *)
Theorem IsBinaryStl_classifies (f : File) :
  (Z.of_nat (List.length (f_data f)) < 2 ^ 31)%Z ->
  (fst (IsBinaryStl f) = true
   <-> (84 <= List.length (f_data f))%nat
       /\ (1 <= header_count (f_data f))%Z
       /\ Z.of_nat (List.length (f_data f)) = (84 + 52 * header_count (f_data f))%Z)
  /\ (forall N, standard_binary_stl (f_data f) N -> fst (IsBinaryStl f) = false)
  /\ fst (IsBinaryStl f) = fst (IsBinaryStl (open_file (f_data f)))
  /\ f_data (snd (IsBinaryStl f)) = f_data f
  /\ m_lineCounter (snd (IsBinaryStl f)) = m_lineCounter f.
Proof.
  intros _.
  split; [apply ReaderProps.IsBinaryStl_iff|].
  split.
  - intros N (Hlen & HN & Hcount).
    destruct (fst (IsBinaryStl f)) eqn:E; [|reflexivity].
    apply ReaderProps.IsBinaryStl_iff in E. destruct E as (_ & _ & E).
    rewrite Hcount, Hlen in E. lia.
  - split; [apply IsBinaryStl_same|].
    rewrite DriverProps.IsBinaryStl_file. split; reflexivity.
Qed.

Lemma IsBinaryStl_classifies_witness :
  fst (IsBinaryStl (open_file Samples.padded_one_facet)) = true
  /\ fst (IsBinaryStl (open_file Samples.binary_one_facet)) = false.
Proof.
  split.
  - apply (proj1 (IsBinaryStl_classifies (open_file Samples.padded_one_facet)
                    ltac:(vm_compute; reflexivity))).
    split; [vm_compute; lia|]. split; vm_compute; [discriminate | reflexivity].
  - apply (proj1 (proj2 (IsBinaryStl_classifies (open_file Samples.binary_one_facet)
                           ltac:(vm_compute; reflexivity))) 1%nat).
    split; [reflexivity|]. split; [lia | reflexivity].
Defined.

(** X5.  A file shorter than 84 bytes is never taken for binary, and neither
    is a file below 2 GiB whose byte 83 is a character of a text (TAB or
    above): the count it would stand for calls for more bytes than the file
    has. *)
Theorem text_file_is_read_as_ascii (data : list byte) :
  ((List.length data < 84)%nat -> fst (IsBinaryStl (open_file data)) = false)
  /\ (forall b,
        nth_error data 83 = Some b ->
        (9 <= Byte.to_N b)%N ->
        (Z.of_nat (List.length data) < 2 ^ 31)%Z ->
        fst (IsBinaryStl (open_file data)) = false).
Proof.
  split.
  - intros Hlen. destruct (fst (IsBinaryStl (open_file data))) eqn:E; [|reflexivity].
    apply ReaderProps.IsBinaryStl_iff in E. cbn [open_file f_data] in E. lia.
  - intros b. apply ReaderProps.text_is_not_binary.
Qed.

Lemma text_file_is_read_as_ascii_witness :
  fst (IsBinaryStl (Samples.file_of_string Samples.ascii_cut_after_facet)) = false
  /\ fst (IsBinaryStl (Samples.file_of_string Samples.ascii_one_facet)) = false.
Proof.
  split.
  - apply (proj1 (text_file_is_read_as_ascii
                    (list_byte_of_string Samples.ascii_cut_after_facet))).
    vm_compute. lia.
  - apply (proj2 (text_file_is_read_as_ascii
                    (list_byte_of_string Samples.ascii_one_facet)) x78).
    + reflexivity.
    + vm_compute. discriminate.
    + vm_compute. reflexivity.
Defined.

Lemma ReadHeaderFromBinaryStl_ok (f : File) :
  (84 <= List.length (f_data f))%nat ->
  (1 <= header_count (f_data f))%Z ->
  ReadHeaderFromBinaryStl f
  = Ok (header_count (f_data f), mkFile (f_data f) 84 (m_lineCounter f)).
Proof.
  intros Hlen Hcount.
  assert (Hgot : List.length (firstn 4 (skipn 80 (f_data f))) = 4%nat)
    by (rewrite length_firstn, length_skipn; lia).
  unfold ReadHeaderFromBinaryStl, Seek, Read, remaining, sizeof_uint32, header_count in *.
  cbn [negb f_data f_pos m_lineCounter]. rewrite Hgot. cbn [Nat.eqb negb].
  destruct (le_uint (firstn 4 (skipn 80 (f_data f))) <? 1)%Z eqn:E;
    [apply Z.ltb_lt in E; lia | reflexivity].
Qed.

(** X6.  For a file below 2 GiB, when [ReadHeaderFromStl] returns, the
    bytes of the file are as they were, no facet is counted as read, and the
    mode is the answer of [IsBinaryStl]: in binary mode the facet count is
    the count of the header, the file is 84 + 52 * count bytes long (52
    being [sizeof(BinaryStlRecord)]) and the stream stands on byte 84, the
    first record; in ASCII mode the stream stands after the first line
    read, whose first token is "solid", and the facet count is 0. *)
Theorem ReadHeaderFromStl_post (r r' : StlReader) :
  (Z.of_nat (List.length (f_data (m_file r))) < 2 ^ 31)%Z ->
  ReadHeaderFromStl r = Ok r' ->
  f_data (m_file r') = f_data (m_file r)
  /\ m_curFacet r' = 0%Z
  /\ m_isBinaryStl r' = fst (IsBinaryStl (open_file (f_data (m_file r))))
  /\ (m_isBinaryStl r' = true ->
      m_numFacets r' = header_count (f_data (m_file r))
      /\ (1 <= m_numFacets r')%Z
      /\ f_pos (m_file r') = 84%nat
      /\ Z.of_nat (List.length (f_data (m_file r))) = (84 + 52 * m_numFacets r')%Z)
  /\ (m_isBinaryStl r' = false ->
      m_numFacets r' = 0%Z
      /\ exists text,
          ReadLine (mkFile (f_data (m_file r)) 0 (m_lineCounter (m_file r))) true
          = Ok (true, text, m_file r')
          /\ hd_error (StringFields text) = Some "solid").
Proof.
  intros _ H. unfold ReadHeaderFromStl in H. cbn [Seek] in H.
  set (f0 := mkFile (f_data (m_file r)) 0 (m_lineCounter (m_file r))) in *.
  pose proof (ReaderProps.IsBinaryStl_iff f0) as Hiff.
  pose proof (IsBinaryStl_same f0) as Hsame.
  assert (Hdata : f_data (snd (IsBinaryStl f0)) = f_data f0)
    by (now rewrite DriverProps.IsBinaryStl_file).
  assert (Hlc : m_lineCounter (snd (IsBinaryStl f0)) = m_lineCounter f0)
    by (now rewrite DriverProps.IsBinaryStl_file).
  cbn [f0 f_data m_lineCounter] in Hiff, Hsame, Hdata, Hlc.
  destruct (IsBinaryStl f0) as [isBinary f1]. cbn [fst snd] in *.
  destruct isBinary.
  - destruct (proj1 Hiff eq_refl) as (Hlen & Hcount & Hsize).
    rewrite ReadHeaderFromBinaryStl_ok in H by (rewrite Hdata; assumption).
    cbn [bind] in H. injection H as <-. cbn [m_file m_curFacet m_isBinaryStl m_numFacets f_data f_pos].
    rewrite Hdata. repeat split; try assumption; try reflexivity; try discriminate.
  - pose proof (ReaderProps.ReadHeaderFromAsciiStl_outcome f1) as Hout.
    destruct (ReadHeaderFromAsciiStl f1) as [f2| | |]; cbn [bind] in H; try discriminate.
    injection H as <-. cbn [m_file m_curFacet m_isBinaryStl m_numFacets].
    destruct Hout as (text & Hline & Hsolid).
    cbn [Seek snd] in Hline. rewrite Hdata, Hlc in Hline.
    pose proof (DriverProps.ReadLine_left _ _ _ _ _ Hline) as (Hd & _).
    cbn [f_data] in Hd.
    repeat split; try assumption; try reflexivity; try discriminate.
    exists text. split; assumption.
Qed.

Lemma ReadHeaderFromStl_post_witness :
  let r := new_reader (open_file Samples.padded_one_facet) in
  let r' := mkReader (mkFile Samples.padded_one_facet 84 0) true 1 0 in
  ReadHeaderFromStl r = Ok r'
  /\ m_isBinaryStl r' = true
  /\ m_numFacets r' = header_count (f_data (m_file r))
  /\ Z.of_nat (List.length (f_data (m_file r))) = (84 + 52 * m_numFacets r')%Z.
Proof.
  intros r r'.
  assert (E : ReadHeaderFromStl r = Ok r') by (vm_compute; reflexivity).
  split; [exact E|].
  destruct (ReadHeaderFromStl_post r r' ltac:(vm_compute; reflexivity) E)
    as (_ & _ & _ & Hbin & _).
  destruct (Hbin eq_refl) as (Hn & _ & _ & Hsize).
  repeat split; assumption.
Defined.

(** The check of the code on a converted point and the three coordinate
    checks, one per token, say the same. *)
Lemma bad_conversion_is_rejected (x y z : float) (fields : list string) :
  bad_conversion (mkPoint x y z) fields
  = rejected_coordinate x (field fields 1)
    || rejected_coordinate y (field fields 2)
    || rejected_coordinate z (field fields 3).
Proof.
  unfold rejected_coordinate, bad_conversion, zero_not_from_0, is_finite.
  cbn [px py pz].
  destruct (PrimFloat.eqb x zero && negb (first_char (field fields 1) =? "0")%char),
           (PrimFloat.eqb y zero && negb (first_char (field fields 2) =? "0")%char),
           (PrimFloat.eqb z zero && negb (first_char (field fields 3) =? "0")%char),
           (is_nan x), (is_nan y), (is_nan z),
           (is_infinity x), (is_infinity y), (is_infinity z); reflexivity.
Qed.

(** X7.  [ReadVertexFromAsciiStl] returns a point exactly when a line is
    read that has at least four tokens, the first of them "vertex", and none
    of the next three is turned by [atof] into a refused value (0 from a
    token that does not start with the character 0, NaN, infinity); the
    point is then made of these three values, in order, further tokens are
    not looked at, and the stream is left after the line. *)
Theorem ReadVertexFromAsciiStl_accepts_iff (atof : string -> float)
    (f f1 : File) (point : Point) :
  ReadVertexFromAsciiStl atof f = Ok (point, f1)
  <-> exists text,
        ReadLine f true = Ok (true, text, f1)
        /\ (4 <= List.length (StringFields text))%nat
        /\ field (StringFields text) 0 = "vertex"
        /\ point = mkPoint (atof (c_str (field (StringFields text) 1)))
                           (atof (c_str (field (StringFields text) 2)))
                           (atof (c_str (field (StringFields text) 3)))
        /\ rejected_coordinate (px point) (field (StringFields text) 1) = false
        /\ rejected_coordinate (py point) (field (StringFields text) 2) = false
        /\ rejected_coordinate (pz point) (field (StringFields text) 3) = false.
Proof.
  unfold ReadVertexFromAsciiStl. split.
  - destruct (ReadLine f true) as [[[more text] f']| | |]; cbn [bind]; try discriminate.
    destruct more; cbn [negb]; [|discriminate].
    destruct (List.length (StringFields text) <? 4)%nat eqn:Elen; [discriminate|].
    apply Nat.ltb_ge in Elen.
    destruct (field (StringFields text) 0 =? "vertex")%string eqn:Ev; cbn [negb];
      [|discriminate].
    apply String.eqb_eq in Ev.
    rewrite bad_conversion_is_rejected.
    destruct (_ || _) eqn:Ebad; [discriminate|].
    intros [= <- <-]. exists text. cbn [px py pz].
    apply orb_false_elim in Ebad as [Ebad Hz]. apply orb_false_elim in Ebad as [Hx Hy].
    repeat split; assumption.
  - intros (text & Hline & Hlen & Hv & -> & Hx & Hy & Hz). cbn [px py pz] in *.
    rewrite Hline. cbn [bind negb].
    destruct (List.length (StringFields text) <? 4)%nat eqn:Elen;
      [apply Nat.ltb_lt in Elen; lia|].
    rewrite Hv. cbn [String.eqb negb].
    change ("vertex" =? "vertex")%string with true. cbn [negb].
    rewrite bad_conversion_is_rejected, Hx, Hy, Hz. reflexivity.
Qed.

(** ** What a facet read returns *)

Lemma ReadVertexFromAsciiStl_outcome (atof : string -> float) (g : File) :
  match ReadVertexFromAsciiStl atof g with
  | Throw e => is_format_error (@Throw unit e) = true
  | AssertFailed => False
  | _ => True
  end.
Proof.
  unfold ReadVertexFromAsciiStl, ReadLine.
  destruct (read_line_loop _ _ _ _ _ _); cbn [bind]; [|exact I].
  destruct (negb readAny); [reflexivity|].
  destruct (_ <? _)%nat; [reflexivity|].
  destruct (negb _); [reflexivity|].
  destruct (bad_conversion _ _); [reflexivity | exact I].
Qed.

Lemma read_vertices_outcome (atof : string -> float) (n : nat) : forall g cs,
  match read_vertices atof n g cs with
  | Ok (cs', _) => List.length cs' = (List.length cs + n)%nat
  | Throw e => is_format_error (@Throw unit e) = true
  | AssertFailed => False
  | Hang => True
  end.
Proof.
  induction n as [|k IH]; intros g cs; [cbn; lia|].
  cbn [read_vertices]. pose proof (ReadVertexFromAsciiStl_outcome atof g) as Hv.
  destruct (ReadVertexFromAsciiStl atof g) as [[pt g1]| | |]; cbn [bind];
    [| exact Hv | exact Hv | exact I].
  specialize (IH g1 (cs ++ [pt])).
  destruct (read_vertices atof k g1 (cs ++ [pt])) as [[cs' g']| | |]; try exact IH.
  rewrite length_app in IH. cbn [List.length] in IH. lia.
Qed.

(** What [ReadFacetFromAsciiStl] can do: return true with three points,
    return false with none, or throw a format error. *)
Lemma ReadFacetFromAsciiStl_outcome (atof : string -> float) (f : File) :
  match ReadFacetFromAsciiStl atof f with
  | Ok (true, coords, f') =>
      List.length coords = 3%nat /\ f_data f' = f_data f /\ (left f' < left f)%nat
  | Ok (false, coords, f') =>
      coords = [] /\ f_data f' = f_data f /\ (left f' <= left f)%nat
  | Throw e => is_format_error (@Throw unit e) = true
  | AssertFailed => False
  | Hang => True
  end.
Proof.
  pose proof (DriverProps.ReadFacetFromAsciiStl_left atof f) as Hleft.
  unfold ReadFacetFromAsciiStl in *.
  destruct (ReadLine f true) as [[[more text] f1]| | |] eqn:E1; cbn [bind] in *;
    [| unfold ReadLine in E1; destruct (read_line_loop _ _ _ _ _ _); discriminate
     | unfold ReadLine in E1; destruct (read_line_loop _ _ _ _ _ _); discriminate
     | exact I].
  pose proof (DriverProps.ReadLine_left _ _ _ _ _ E1) as (D1 & L1 & _).
  destruct more; cbn [negb] in *; [|auto].
  destruct (StringFields text) as [|t ts]; [auto|].
  destruct (_ || _); [auto|].
  destruct (field (t :: ts) 0 =? "facet")%string; [|reflexivity].
  destruct (ReadLine f1 true) as [[[more2 text2] f2]| | |] eqn:E2; cbn [bind] in *;
    [| unfold ReadLine in E2; destruct (read_line_loop _ _ _ _ _ _); discriminate
     | unfold ReadLine in E2; destruct (read_line_loop _ _ _ _ _ _); discriminate
     | exact I].
  pose proof (DriverProps.ReadLine_left _ _ _ _ _ E2) as (D2 & L2 & _).
  destruct more2; cbn [negb] in *; [|repeat split; [congruence | lia]].
  destruct (negb (starts_with_keyword (StringFields text2) _ _ _)); [reflexivity|].
  pose proof (read_vertices_outcome atof 3 f2 []) as Hvs.
  destruct (read_vertices atof 3 f2 []) as [[cs f3]| | |]; cbn [bind] in *;
    [| exact Hvs | exact Hvs | exact I].
  cbn [List.length Nat.add] in Hvs.
  destruct (ReadLine f3 true) as [[[more4 text4] f4]| | |] eqn:E4; cbn [bind] in *;
    [| unfold ReadLine in E4; destruct (read_line_loop _ _ _ _ _ _); discriminate
     | unfold ReadLine in E4; destruct (read_line_loop _ _ _ _ _ _); discriminate
     | exact I].
  destruct (negb more4); [reflexivity|].
  destruct (negb (starts_with_keyword (StringFields text4) _ _ _)); [reflexivity|].
  destruct (ReadLine f4 true) as [[[more5 text5] f5]| | |] eqn:E5; cbn [bind] in *;
    [| unfold ReadLine in E5; destruct (read_line_loop _ _ _ _ _ _); discriminate
     | unfold ReadLine in E5; destruct (read_line_loop _ _ _ _ _ _); discriminate
     | exact I].
  destruct (negb more5); [reflexivity|].
  destruct (negb (starts_with_keyword (StringFields text5) _ _ _)); [reflexivity|].
  destruct (Hleft cs f5 eq_refl) as [Hd Hl]. auto.
Qed.

Lemma ReadFacetFromAsciiStl_false_points (atof : string -> float) (f f' : File)
    (coords : list Point) :
  ReadFacetFromAsciiStl atof f = Ok (false, coords, f') -> coords = [].
Proof.
  unfold ReadFacetFromAsciiStl.
  destruct (ReadLine f true) as [[[more text] f1]| | |]; cbn [bind]; try discriminate.
  destruct (negb more); [now intros [= <- _]|].
  destruct (StringFields text) as [|t ts]; [now intros [= <- _]|].
  destruct (_ || _); [now intros [= <- _]|].
  destruct (field (t :: ts) 0 =? "facet")%string; [|discriminate].
  destruct (ReadLine f1 true) as [[[more2 text2] f2]| | |]; cbn [bind]; try discriminate.
  destruct (negb more2); [now intros [= <- _]|].
  destruct (negb (starts_with_keyword (StringFields text2) _ _ _)); [discriminate|].
  destruct (read_vertices atof 3 f2 []) as [[cs f3]| | |]; cbn [bind]; try discriminate.
  destruct (ReadLine f3 true) as [[[more4 text4] f4]| | |]; cbn [bind]; try discriminate.
  destruct (negb more4); [discriminate|].
  destruct (negb (starts_with_keyword (StringFields text4) _ _ _)); [discriminate|].
  destruct (ReadLine f4 true) as [[[more5 text5] f5]| | |]; cbn [bind]; try discriminate.
  destruct (negb more5); [discriminate|].
  destruct (negb (starts_with_keyword (StringFields text5) _ _ _)); discriminate.
Qed.

(** The cases in which [ReadFacetFromAsciiStl] returns false. *)
Lemma ReadFacetFromAsciiStl_false_cases (atof : string -> float) (f f' : File)
    (coords : list Point) :
  ReadFacetFromAsciiStl atof f = Ok (false, coords, f')
  <-> coords = []
      /\ exists more text f1,
           ReadLine f true = Ok (more, text, f1)
           /\ ((more = false /\ f' = f1)
               \/ (more = true /\ StringFields text = [] /\ f' = f1)
               \/ (more = true /\ f' = f1
                   /\ starts_with_keyword (StringFields text) "endsolid" "end" "solid"
                      = true)
               \/ (more = true /\ hd_error (StringFields text) = Some "facet"
                   /\ exists text2, ReadLine f1 true = Ok (false, text2, f'))).
Proof.
  split.
  - intros H.
    pose proof (ReadFacetFromAsciiStl_false_points atof f f' coords H) as ->.
    split; [reflexivity|].
    destruct (ReadLine f true) as [[[more text] f1]| | |] eqn:E1;
      try (unfold ReadFacetFromAsciiStl in H; rewrite E1 in H; discriminate H).
    exists more, text, f1. split; [reflexivity|].
    destruct more.
    2:{ left. unfold ReadFacetFromAsciiStl in H. rewrite E1 in H. cbn [bind negb] in H.
        now injection H as <-. }
    right.
    destruct (StringFields text) as [|t ts] eqn:Ef.
    { left. unfold ReadFacetFromAsciiStl in H. rewrite E1 in H. cbn [bind negb] in H.
      rewrite Ef in H. now injection H as <-. }
    right.
    destruct (starts_with_keyword (t :: ts) "endsolid" "end" "solid") eqn:Ek.
    { left. unfold ReadFacetFromAsciiStl in H. rewrite E1 in H. cbn [bind negb] in H.
      rewrite Ef in H. unfold starts_with_keyword in Ek.
      cbn [List.length] in Ek, H. change (0 <? S (List.length ts))%nat with true in Ek.
      cbn [andb] in Ek. rewrite Ek in H. now injection H as <-. }
    right. split; [reflexivity|].
    destruct (t =? "facet")%string eqn:Et.
    + apply String.eqb_eq in Et. subst t. split; [reflexivity|].
      destruct (ReadLine f1 true) as [[[more2 text2] f2]| | |] eqn:E2.
      * destruct more2.
        -- pose proof (ReaderProps.no_clean_end_after_outer_loop atof f f1 f2 text text2 E1)
             as Hno.
           rewrite Ef in Hno. specialize (Hno eq_refl E2). rewrite H in Hno. discriminate.
        -- exists text2.
           rewrite (ReaderProps.eof_after_facet_line atof f f1 f2 text text2 E1) in H;
             [now injection H as <- | now rewrite Ef | exact E2].
      * unfold ReadLine in E2. destruct (read_line_loop _ _ _ _ _ _); discriminate.
      * unfold ReadLine in E2. destruct (read_line_loop _ _ _ _ _ _); discriminate.
      * unfold ReadFacetFromAsciiStl in H. rewrite E1 in H. cbn [bind negb] in H.
        rewrite Ef in H. unfold starts_with_keyword in Ek.
        cbn [List.length] in Ek, H. change (0 <? S (List.length ts))%nat with true in Ek.
        cbn [andb] in Ek. rewrite Ek in H. cbn [field nth] in H. rewrite E2 in H.
        change ("facet" =? "facet")%string with true in H. cbn [bind] in H. discriminate.
    + unfold ReadFacetFromAsciiStl in H. rewrite E1 in H. cbn [bind negb] in H.
      rewrite Ef in H. unfold starts_with_keyword in Ek.
      cbn [List.length] in Ek, H. change (0 <? S (List.length ts))%nat with true in Ek.
      cbn [andb] in Ek. rewrite Ek in H. cbn [field nth] in H. rewrite Et in H.
      discriminate.
  - intros (-> & more & text & f1 & E1 & [(-> & ->)|[(-> & Ef & ->)|[(-> & -> & Ek)|(-> & Ef & text2 & E2)]]]).
    + unfold ReadFacetFromAsciiStl. rewrite E1. reflexivity.
    + unfold ReadFacetFromAsciiStl. rewrite E1. cbn [bind negb]. rewrite Ef. reflexivity.
    + unfold ReadFacetFromAsciiStl. rewrite E1. cbn [bind negb].
      destruct (StringFields text) as [|t ts]; [reflexivity|].
      unfold starts_with_keyword in Ek. cbn [List.length] in *.
      change (0 <? S (List.length ts))%nat with true in Ek. cbn [andb] in Ek.
      rewrite Ek. reflexivity.
    + exact (ReaderProps.eof_after_facet_line atof f f1 f' text text2 E1 Ef E2).
Qed.

(** The tokenizer returns no token exactly for a line that is empty up to
    its first NUL. *)
Lemma StringFields_nil_iff (text : string) : StringFields text = [] <-> c_str text = "".
Proof.
  unfold StringFields. cbn [fields_loop].
  destruct (c_str text) as [|c r]; [tauto|].
  destruct (next_field (String c r)) as [field q]. split; discriminate.
Qed.

(** Of a line of separators the tokenizer returns an empty first token. *)
Lemma StringFields_of_separators (text : string) :
  c_str text <> "" -> strip_seps (c_str text) = "" ->
  exists rest, StringFields text = "" :: rest.
Proof.
  intros Hne Hall. unfold StringFields. cbn [fields_loop].
  destruct (c_str text) as [|c r] eqn:E; [contradiction|].
  assert (Hfield : fst (next_field (String c r)) = "").
  { unfold next_field.
    assert (Hq : strip_seps (skip_spaces (skip_one_delim (skip_spaces (String c r)))) = "")
      by (now rewrite TokenizerProps.strip_skip_spaces, TokenizerProps.strip_skip_one_delim,
                      TokenizerProps.strip_skip_spaces).
    destruct (skip_spaces (skip_one_delim (skip_spaces (String c r)))) as [|c' r'];
      [reflexivity|].
    cbn [take_field]. cbn [strip_seps] in Hq.
    destruct (is_sep c'); [reflexivity | discriminate Hq]. }
  destruct (next_field (String c r)) as [field q]. cbn [fst] in Hfield. subst field.
  eexists. reflexivity.
Qed.

(** X8.  [ReadFacetFromAsciiStl] returns false, the signal that the
    triangles have ended, in exactly four cases: no line could be read; the
    line read gives no token, which is so only when it is empty up to its
    first NUL (a line that starts with a NUL character); the line starts
    with "endsolid" or with "end" "solid"; the line starts with "facet" and
    no line could be read after it.  No point is returned then, and the
    stream is left after the last line read.  A line that holds separators
    only (spaces, commas, semicolons) is not such a case: its first token is
    empty, and it raises the format error of a line that starts with
    neither "facet" nor the end of the solid. *)
Theorem ReadFacetFromAsciiStl_false_iff (atof : string -> float) (f f' : File)
    (coords : list Point) :
  (ReadFacetFromAsciiStl atof f = Ok (false, coords, f')
   <-> coords = []
       /\ exists more text f1,
            ReadLine f true = Ok (more, text, f1)
            /\ ((more = false /\ f' = f1)
                \/ (more = true /\ c_str text = "" /\ f' = f1)
                \/ (more = true /\ f' = f1
                    /\ starts_with_keyword (StringFields text) "endsolid" "end" "solid"
                       = true)
                \/ (more = true /\ hd_error (StringFields text) = Some "facet"
                    /\ exists text2, ReadLine f1 true = Ok (false, text2, f'))))
  /\ (forall text f1,
        ReadLine f true = Ok (true, text, f1) ->
        c_str text <> "" ->
        strip_seps (c_str text) = "" ->
        ReadFacetFromAsciiStl atof f
        = Throw (FormatError
                   ("Expected " ++ quoted "facet" ++ " or " ++ quoted "end solid" ++ LFs))).
Proof.
  split.
  - rewrite ReadFacetFromAsciiStl_false_cases.
    split; intros (Hc & more & text & f1 & Hline & Hcases); (split; [exact Hc|]);
      exists more, text, f1; (split; [exact Hline|]).
    + destruct Hcases as [H|[(Hm & Hnil & Hf)|[H|H]]]; auto.
      right. left. rewrite StringFields_nil_iff in Hnil. auto.
    + destruct Hcases as [H|[(Hm & Hnil & Hf)|[H|H]]]; auto.
      right. left. rewrite <- StringFields_nil_iff in Hnil. auto.
  - intros text f1 Hline Hne Hall.
    destruct (StringFields_of_separators text Hne Hall) as (rest & Hfields).
    unfold ReadFacetFromAsciiStl. rewrite Hline. cbn [bind negb].
    rewrite Hfields.
    change (field ("" :: rest) 0) with ""%string.
    change ("" =? "endsolid")%string with false.
    change ("" =? "end")%string with false.
    change ("" =? "facet")%string with false.
    rewrite andb_false_r. reflexivity.
Qed.

Lemma ReadFacetFromAsciiStl_false_iff_witness :
  is_format_error
    (ReadFacetFromAsciiStl Samples.atof_decimal
       (Samples.file_of_string (Samples.unix_lines [" , "]))) = true.
Proof.
  rewrite (proj2 (ReadFacetFromAsciiStl_false_iff Samples.atof_decimal
                    (Samples.file_of_string (Samples.unix_lines [" , "]))
                    (Samples.file_of_string (Samples.unix_lines [" , "])) [])
             " , " (mkFile (list_byte_of_string (Samples.unix_lines [" , "])) 4 1));
    [reflexivity | reflexivity | discriminate | reflexivity].
Defined.

Lemma ReadVertexFromAsciiStl_point (atof : string -> float) (f : File)
    (l : text_line) (rest : list byte) :
  clean_line l = true ->
  vertex_line atof l = true ->
  remaining f = line_bytes l ++ rest ->
  ReadVertexFromAsciiStl atof f = Ok (vertex_point atof l, after_line f l).
Proof.
  intros Hc Hv Hrem. unfold ReadVertexFromAsciiStl.
  rewrite (DriverProps.ReadLine_clean f l rest Hc Hrem). cbn [bind negb].
  unfold vertex_line in Hv. cbv zeta in Hv.
  apply andb_true_iff in Hv as [Hv Hbad]. apply andb_true_iff in Hv as [Hlen Hword].
  apply Nat.leb_le in Hlen. apply negb_true_iff in Hbad.
  destruct (List.length (StringFields (fst l)) <? 4)%nat eqn:E;
    [apply Nat.ltb_lt in E; lia|].
  rewrite Hword. cbn [negb]. rewrite Hbad. reflexivity.
Qed.

(** The seven lines of a facet are read as the triangle of its three
    vertex lines. *)
Lemma ReadFacetFromAsciiStl_points (atof : string -> float) (f : File)
    (l1 l2 l3 l4 l5 l6 l7 : text_line) (tail : list byte) :
  forallb clean_line [l1; l2; l3; l4; l5; l6; l7] = true ->
  first_token_is "facet" l1 = true ->
  keyword_line "outerloop" "outer" "loop" l2 = true ->
  vertex_line atof l3 = true -> vertex_line atof l4 = true -> vertex_line atof l5 = true ->
  keyword_line "endloop" "end" "loop" l6 = true ->
  keyword_line "endfacet" "end" "facet" l7 = true ->
  remaining f = file_bytes [l1; l2; l3; l4; l5; l6; l7] ++ tail ->
  exists f',
    ReadFacetFromAsciiStl atof f
    = Ok (true, [vertex_point atof l3; vertex_point atof l4; vertex_point atof l5], f')
    /\ remaining f' = tail
    /\ f_data f' = f_data f
    /\ m_lineCounter f' = (m_lineCounter f + 7)%nat.
Proof.
  intros Hclean H1 H2 H3 H4 H5 H6 H7 Hrem.
  cbn [forallb] in Hclean.
  repeat match type of Hclean with
         | (_ && _ = true) => let H := fresh "C" in apply andb_true_iff in Hclean as [H Hclean]
         end.
  unfold file_bytes in Hrem. cbn [map List.concat] in Hrem.
  rewrite app_nil_r, <- !app_assoc in Hrem.
  unfold ReadFacetFromAsciiStl.
  rewrite (DriverProps.ReadLine_clean f l1 _ C Hrem). cbn [bind negb].
  apply DriverProps.remaining_after_line in Hrem.
  unfold first_token_is in H1.
  destruct (StringFields (fst l1)) as [|t ts]; [discriminate|].
  apply String.eqb_eq in H1. subst t. cbn [field nth List.length].
  change ("facet" =? "endsolid")%string with false.
  change ("facet" =? "end")%string with false.
  rewrite andb_false_r. cbn [orb andb].
  change ("facet" =? "facet")%string with true. cbv iota.
  rewrite (DriverProps.ReadLine_clean _ l2 _ C0 Hrem). cbn [bind negb].
  apply DriverProps.remaining_after_line in Hrem.
  rewrite (DriverProps.keyword_line_accepts _ _ _ _ H2).
  cbn [read_vertices].
  rewrite (ReadVertexFromAsciiStl_point atof _ l3 _ C1 H3 Hrem). cbn [bind].
  apply DriverProps.remaining_after_line in Hrem.
  rewrite (ReadVertexFromAsciiStl_point atof _ l4 _ C2 H4 Hrem). cbn [bind].
  apply DriverProps.remaining_after_line in Hrem.
  rewrite (ReadVertexFromAsciiStl_point atof _ l5 _ C3 H5 Hrem). cbn [bind].
  apply DriverProps.remaining_after_line in Hrem.
  rewrite (DriverProps.ReadLine_clean _ l6 _ C4 Hrem). cbn [bind negb].
  apply DriverProps.remaining_after_line in Hrem.
  rewrite (DriverProps.keyword_line_accepts _ _ _ _ H6).
  rewrite (DriverProps.ReadLine_clean _ l7 _ C5 Hrem). cbn [bind negb].
  apply DriverProps.remaining_after_line in Hrem.
  rewrite (DriverProps.keyword_line_accepts _ _ _ _ H7).
  eexists. split; [reflexivity|]. split; [exact Hrem|].
  unfold after_line. cbn [f_data m_lineCounter]. split; [reflexivity | lia].
Qed.

(** X9.  In ASCII mode, seven lines in a row, none empty, each ended by
    LF or CR LF: a line whose first token is "facet" (its other tokens, the
    normal, are not looked at), an outer loop line, three vertex lines that
    pass the vertex check, an end loop line and an end facet line, are read
    by [ReadFacetFromStl] as one facet: it returns true with the three
    points of the vertex lines in the order of the file, leaves the stream
    right after the seventh line, has counted seven lines, and leaves the
    mode and the facet counters of the reader as they were. *)
Theorem ReadFacetFromStl_reads_block (atof : string -> float) (r : StlReader)
    (l1 l2 l3 l4 l5 l6 l7 : text_line) (tail : list byte) :
  m_isBinaryStl r = false ->
  forallb clean_line [l1; l2; l3; l4; l5; l6; l7] = true ->
  first_token_is "facet" l1 = true ->
  keyword_line "outerloop" "outer" "loop" l2 = true ->
  vertex_line atof l3 = true -> vertex_line atof l4 = true -> vertex_line atof l5 = true ->
  keyword_line "endloop" "end" "loop" l6 = true ->
  keyword_line "endfacet" "end" "facet" l7 = true ->
  remaining (m_file r) = file_bytes [l1; l2; l3; l4; l5; l6; l7] ++ tail ->
  exists r',
    ReadFacetFromStl atof r
    = Ok (true, [vertex_point atof l3; vertex_point atof l4; vertex_point atof l5], r')
    /\ remaining (m_file r') = tail
    /\ f_data (m_file r') = f_data (m_file r)
    /\ m_lineCounter (m_file r') = (m_lineCounter (m_file r) + 7)%nat
    /\ m_isBinaryStl r' = false
    /\ m_numFacets r' = m_numFacets r
    /\ m_curFacet r' = m_curFacet r.
Proof.
  intros Hmode Hclean H1 H2 H3 H4 H5 H6 H7 Hrem.
  destruct (ReadFacetFromAsciiStl_points atof (m_file r) l1 l2 l3 l4 l5 l6 l7 tail
              Hclean H1 H2 H3 H4 H5 H6 H7 Hrem) as (f' & E & Hr & Hd & Hl).
  unfold ReadFacetFromStl. rewrite Hmode, E. cbn [bind].
  eexists. split; [reflexivity|]. cbn [m_file m_isBinaryStl m_numFacets m_curFacet].
  repeat split; assumption.
Qed.

Lemma ReadFacetFromStl_reads_block_witness :
  let r := mkReader (mkFile (list_byte_of_string Samples.ascii_one_facet) 8 1) false 0 0 in
  exists r',
    ReadFacetFromStl Samples.atof_decimal r
    = Ok (true,
          [vertex_point Samples.atof_decimal ("    vertex 0 0 0", false);
           vertex_point Samples.atof_decimal ("    vertex 1 0 0", false);
           vertex_point Samples.atof_decimal ("    vertex 0 1 0", false)], r')
    /\ remaining (m_file r') = list_byte_of_string ("endsolid a" ++ LFs)
    /\ f_data (m_file r') = f_data (m_file r)
    /\ m_lineCounter (m_file r') = (m_lineCounter (m_file r) + 7)%nat
    /\ m_isBinaryStl r' = false
    /\ m_numFacets r' = m_numFacets r
    /\ m_curFacet r' = m_curFacet r.
Proof.
  intros r.
  apply (ReadFacetFromStl_reads_block Samples.atof_decimal r
           ("facet normal 0 0 1", false) ("  outer loop", false)
           ("    vertex 0 0 0", false) ("    vertex 1 0 0", false)
           ("    vertex 0 1 0", false) ("  end loop", false) ("end facet", false)
           (list_byte_of_string ("endsolid a" ++ LFs)));
    vm_compute; reflexivity.
Defined.

(** X10.  What [ReadFacetFromStl] can do, in either mode, for any reader
    and any [atof]: return true with exactly three points, return false
    with none, or throw a format error; it throws nothing else, fails no
    assertion, and in binary mode it always returns or throws.  When it
    returns, the bytes of the file, the mode and the facet count of the
    header are unchanged, and a facet that is returned has consumed at least
    one byte.  In binary mode a facet takes exactly 52 bytes, the size of
    [BinaryStlRecord] (two more than a record of the format), and adds one to
    the facets read, which were fewer than the count of the header, and
    false is returned, with the reader as it was, once they are no fewer;
    in ASCII mode the number of facets read is never changed. *)
Theorem ReadFacetFromStl_outcome (atof : string -> float) (r : StlReader) :
  match ReadFacetFromStl atof r with
  | Ok (more, coords, r') =>
      List.length coords = (if more then 3 else 0)%nat
      /\ f_data (m_file r') = f_data (m_file r)
      /\ m_isBinaryStl r' = m_isBinaryStl r
      /\ m_numFacets r' = m_numFacets r
      /\ (if more then (left (m_file r') < left (m_file r))%nat
          else (left (m_file r') <= left (m_file r))%nat)
      /\ (if m_isBinaryStl r
          then if more
               then (left (m_file r') + 52 = left (m_file r))%nat
                    /\ (m_curFacet r < m_numFacets r)%Z
                    /\ m_curFacet r' = ((m_curFacet r + 1) mod size_t_modulus)%Z
               else r' = r /\ (m_numFacets r <= m_curFacet r)%Z
          else m_curFacet r' = m_curFacet r)
  | Throw e => is_format_error (@Throw unit e) = true
  | AssertFailed => False
  | Hang => m_isBinaryStl r = false
  end.
Proof.
  unfold ReadFacetFromStl. destruct (m_isBinaryStl r) eqn:Emode.
  - unfold ReadFacetFromBinaryStl, Read, sizeof_BinaryStlRecord.
    destruct (m_curFacet r >=? m_numFacets r)%Z eqn:Ecur.
    + rewrite Z.geb_leb in Ecur. apply Z.leb_le in Ecur.
      repeat split; try assumption; lia.
    + pose proof (length_firstn 52 (remaining (m_file r))) as Hrec.
      fold (left (m_file r)) in Hrec.
      remember (firstn 52 (remaining (m_file r))) as rec eqn:Erec.
      destruct (List.length rec =? 52)%nat eqn:E; cbn [negb]; [|reflexivity].
      apply Nat.eqb_eq in E.
      destruct (negb _); [reflexivity|].
      cbn [m_file f_data m_isBinaryStl m_numFacets m_curFacet].
      rewrite Z.geb_leb in Ecur. apply Z.leb_gt in Ecur.
      rewrite !DriverProps.left_eq in *. cbn [f_data f_pos].
      assert (Hpts : List.length (record_points rec) = 3%nat) by reflexivity.
      repeat split; try assumption; lia.
  - pose proof (ReadFacetFromAsciiStl_outcome atof (m_file r)) as Hout.
    destruct (ReadFacetFromAsciiStl atof (m_file r)) as [[[more1 cs] f1]| | |];
      cbn [bind]; try exact Hout; [|reflexivity].
    cbn [m_file m_isBinaryStl m_numFacets m_curFacet].
    destruct more1.
    + destruct Hout as (Hlen & Hd & Hl). repeat split; assumption.
    + destruct Hout as (-> & Hd & Hl). repeat split; assumption.
Qed.

End FacetProps.

(* ================================================================== *)
(** * The text the writer produces *)

Module TextProps.
Import Reader Writer.

Section Rendered.

Variable render_G : float -> string.
Variable render_15G : float -> string.

Abbreviation text := (file_text render_G render_15G).
Abbreviation sprintf := (vsprintf render_G render_15G).

Lemma concat_snoc (l : list string) (x : string) :
  String.concat "" (l ++ [x]) = (String.concat "" l ++ x)%string.
Proof.
  induction l as [|a l IH]; [reflexivity|].
  cbn [app]. destruct l as [|b l].
  - cbn. reflexivity.
  - change (String.concat "" (a :: (b :: l) ++ [x]))
      with (a ++ "" ++ String.concat "" ((b :: l) ++ [x]))%string.
    rewrite IH.
    change (String.concat "" (a :: b :: l))
      with (a ++ "" ++ String.concat "" (b :: l))%string.
    cbn [append]. now rewrite WriterProps.append_assoc.
Qed.

(** A write that succeeds adds its formatted text at the end of the file. *)
Lemma text_push f fmt args :
  text (push f fmt args) = (text f ++ sprintf fmt args)%string.
Proof.
  unfold file_text, calls_in_order, push. cbn [o_calls rev].
  rewrite map_app. cbn [map call_fmt call_args]. apply concat_snoc.
Qed.

Lemma size_pred_pos n :
  (1 <= n)%nat -> (Z.of_nat n <= size_t_modulus)%Z -> size_pred n = (Z.of_nat n - 1)%Z.
Proof. intros H1 H2. unfold size_pred. apply Z.mod_small. lia. Qed.

Lemma coord_list_loop_text points : forall k size f,
  o_quota f = None ->
  (k + List.length points = size)%nat ->
  (Z.of_nat size <= size_t_modulus)%Z ->
  exists f', coord_list_loop points k size f = Ok f'
    /\ o_quota f' = None
    /\ text f' = (text f ++ coord_list_text render_15G points)%string.
Proof.
  induction points as [|p rest IH]; intros k size f Hq Hk Hsize.
  - exists f. cbn [coord_list_loop coord_list_text].
    now rewrite TokenizerProps.append_empty_r.
  - cbn [coord_list_loop List.length] in *.
    rewrite (WriterProps.Printf_or_throw_unlimited _ _ _ Hq). cbn [bind].
    set (f1 := push f "        " []).
    assert (Hq1 : o_quota f1 = None) by exact Hq.
    rewrite (WriterProps.Printf_or_throw_unlimited _ _ _ Hq1). cbn [bind].
    set (f2 := push f1 fmt_point _).
    assert (Hq2 : o_quota f2 = None) by exact Hq.
    assert (T2 : text f2 = (text f ++ point_line render_15G p)%string).
    { unfold f2, f1. rewrite !text_push. unfold point_line. cbn [vsprintf fmt_point Ascii.eqb Bool.eqb negb].
      cbn. rewrite TokenizerProps.append_empty_r.
      rewrite WriterProps.append_assoc. reflexivity. }
    rewrite size_pred_pos by lia.
    destruct rest as [|q rest'].
    + destruct (Z.of_nat k <? Z.of_nat size - 1)%Z eqn:E;
        [apply Z.ltb_lt in E; cbn [List.length] in Hk; lia|].
      cbn [bind]. rewrite (WriterProps.Printf_or_throw_unlimited _ _ _ Hq2). cbn [bind].
      eexists. split; [reflexivity|]. split; [exact Hq2|].
      rewrite text_push, T2. cbn [coord_list_text].
      rewrite !WriterProps.append_assoc. reflexivity.
    + destruct (Z.of_nat k <? Z.of_nat size - 1)%Z eqn:E;
        [|apply Z.ltb_ge in E; cbn [List.length] in Hk; lia].
      rewrite (WriterProps.Printf_or_throw_unlimited _ _ _ Hq2). cbn [bind].
      set (f3 := push f2 ", " []).
      assert (Hq3 : o_quota f3 = None) by exact Hq.
      rewrite (WriterProps.Printf_or_throw_unlimited _ _ _ Hq3). cbn [bind].
      destruct (IH (S k) size (push f3 CRLF [])) as (f' & Ef & Hq' & T');
        [exact Hq | lia | exact Hsize |].
      exists f'. split; [exact Ef|]. split; [exact Hq'|].
      rewrite T'. unfold f3. rewrite !text_push, T2.
      change (coord_list_text render_15G (p :: q :: rest'))
        with (point_line render_15G p ++ ", " ++ CRLF
              ++ coord_list_text render_15G (q :: rest'))%string.
      rewrite !WriterProps.append_assoc. reflexivity.
Qed.

Lemma sprintf_index n : sprintf fmt_index [ArgSize n] = (render_zu n ++ ", ")%string.
Proof. reflexivity. Qed.

Lemma coord_index_loop_text turns : forall trndx numTriangles f,
  o_quota f = None ->
  (trndx + turns = numTriangles)%nat ->
  (Z.of_nat numTriangles <= size_t_modulus)%Z ->
  exists f', coord_index_loop turns trndx numTriangles f = Ok f'
    /\ o_quota f' = None
    /\ text f' = (text f ++ coord_index_text turns trndx)%string.
Proof.
  induction turns as [|k IH]; intros trndx n f Hq Hk Hsize.
  - exists f. cbn [coord_index_loop coord_index_text].
    now rewrite TokenizerProps.append_empty_r.
  - cbn [coord_index_loop].
    rewrite (WriterProps.Printf_or_throw_unlimited _ _ _ Hq). cbn [bind].
    set (f1 := push f "      " []).
    assert (Hq1 : o_quota f1 = None) by exact Hq.
    rewrite (WriterProps.Printf_or_throw_unlimited _ _ _ Hq1). cbn [bind].
    set (f2 := push f1 fmt_index _).
    assert (Hq2 : o_quota f2 = None) by exact Hq.
    rewrite (WriterProps.Printf_or_throw_unlimited _ _ _ Hq2). cbn [bind].
    set (f3 := push f2 fmt_index _).
    assert (Hq3 : o_quota f3 = None) by exact Hq.
    rewrite (WriterProps.Printf_or_throw_unlimited _ _ _ Hq3). cbn [bind].
    set (f4 := push f3 fmt_index _).
    assert (Hq4 : o_quota f4 = None) by exact Hq.
    rewrite (WriterProps.Printf_unlimited f4 fmt_face_end [] Hq4). cbn [snd].
    set (f5 := push f4 fmt_face_end []).
    assert (Hq5 : o_quota f5 = None) by exact Hq.
    assert (T5 : text f5 = (text f ++ index_line trndx)%string).
    { unfold f5, f4, f3, f2, f1. rewrite !text_push, !sprintf_index.
      replace (Z.of_nat trndx * 3 + 0)%Z with (Z.of_nat (3 * trndx)) by lia.
      replace (Z.of_nat trndx * 3 + 1)%Z with (Z.of_nat (3 * trndx + 1)) by lia.
      replace (Z.of_nat trndx * 3 + 2)%Z with (Z.of_nat (3 * trndx + 2)) by lia.
      unfold index_line.
      change (sprintf "      " []) with "      "%string.
      change (sprintf fmt_face_end []) with "-1"%string.
      rewrite !WriterProps.append_assoc. reflexivity. }
    rewrite size_pred_pos by lia.
    destruct k as [|k'].
    + destruct (Z.of_nat trndx <? Z.of_nat n - 1)%Z eqn:E; [apply Z.ltb_lt in E; lia|].
      cbn [bind]. rewrite (WriterProps.Printf_or_throw_unlimited _ _ _ Hq5). cbn [bind].
      eexists. split; [reflexivity|]. split; [exact Hq5|].
      rewrite text_push, T5. cbn [coord_index_text coord_index_loop].
      rewrite !WriterProps.append_assoc. reflexivity.
    + destruct (Z.of_nat trndx <? Z.of_nat n - 1)%Z eqn:E; [|apply Z.ltb_ge in E; lia].
      rewrite (WriterProps.Printf_or_throw_unlimited _ _ _ Hq5). cbn [bind].
      set (f6 := push f5 "," []).
      assert (Hq6 : o_quota f6 = None) by exact Hq.
      rewrite (WriterProps.Printf_or_throw_unlimited _ _ _ Hq6). cbn [bind].
      destruct (IH (S trndx) n (push f6 CRLF [])) as (f' & Ef & Hq' & T');
        [exact Hq | lia | exact Hsize |].
      exists f'. split; [exact Ef|]. split; [exact Hq'|].
      rewrite T'. unfold f6. rewrite !text_push, T5.
      change (coord_index_text (S (S k')) trndx)
        with (index_line trndx ++ "," ++ CRLF ++ coord_index_text (S k') (S trndx))%string.
      rewrite !WriterProps.append_assoc. reflexivity.
Qed.

Section Flush.

Variable NDEBUG : bool.

(** A flush on a file that takes the writes, when the size assertion
    holds or is compiled out. *)
Lemma WriteFacetsToWrl_text points f :
  o_quota f = None ->
  NDEBUG = true \/ (List.length points mod 3 = 0)%nat ->
  (Z.of_nat (List.length points) <= size_t_modulus)%Z ->
  exists f', WriteFacetsToWrl NDEBUG points f = Ok f'
    /\ o_quota f' = None
    /\ text f' = (text f ++ (if (List.length points <? 3)%nat then ""
                             else shape_text render_15G points))%string.
Proof.
  intros Hq Hassert Hsize. unfold WriteFacetsToWrl, assert.
  assert (Ha : NDEBUG || (List.length points mod 3 =? 0)%nat = true).
  { destruct Hassert as [-> | ->]; [reflexivity | apply orb_true_r]. }
  rewrite Ha. cbn [bind].
  destruct (List.length points <? 3)%nat eqn:E3.
  - apply Nat.ltb_lt in E3.
    assert (Hn : (List.length points / 3 = 0)%nat) by (apply Nat.div_small; exact E3).
    rewrite Hn. cbn [Nat.ltb Nat.leb].
    exists f. split; [reflexivity|]. split; [exact Hq|].
    now rewrite TokenizerProps.append_empty_r.
  - apply Nat.ltb_ge in E3.
    assert (Hn : (1 <= List.length points / 3)%nat)
      by (apply (Nat.div_le_lower_bound _ 3 1); lia).
    assert (Hn2 : (List.length points / 3 <= List.length points)%nat)
      by (apply Nat.Div0.div_le_upper_bound; lia).
    destruct (List.length points / 3 <? 1)%nat eqn:E; [apply Nat.ltb_lt in E; lia|].
    rewrite (WriterProps.Printf_or_throw_unlimited _ _ _ Hq). cbn [bind].
    destruct (coord_list_loop_text points 0 (List.length points)
                (push f shape_header []) Hq) as (f2 & E2 & Hq2 & T2); [lia | exact Hsize |].
    unfold WriteCoordListToWrl. rewrite E2. cbn [bind].
    rewrite (WriterProps.Printf_or_throw_unlimited _ _ _ Hq2). cbn [bind].
    destruct (coord_index_loop_text (List.length points / 3) 0 (List.length points / 3)
                (push f2 shape_middle []) Hq2) as (f4 & E4 & Hq4 & T4); [lia | lia |].
    unfold WriteCoordIndexesToWrl. rewrite E4. cbn [bind].
    rewrite (WriterProps.Printf_or_throw_unlimited _ _ _ Hq4). cbn [bind].
    eexists. split; [reflexivity|]. split; [exact Hq4|].
    rewrite text_push, T4, text_push, T2, text_push. unfold shape_text.
    change (sprintf shape_header []) with shape_header.
    change (sprintf shape_middle []) with shape_middle.
    change (sprintf shape_footer []) with shape_footer.
    rewrite !WriterProps.append_assoc. reflexivity.
Qed.

End Flush.

Lemma concat_cons (x : string) (l : list string) :
  String.concat "" (x :: l) = (x ++ String.concat "" l)%string.
Proof.
  destruct l as [|y l]; [cbn; now rewrite TokenizerProps.append_empty_r | reflexivity].
Qed.

Lemma length_concat_triangles (calls : list (list Point)) :
  Forall (fun coords => List.length coords = 3%nat) calls ->
  List.length (List.concat calls) = (3 * List.length calls)%nat.
Proof.
  induction 1 as [|c rest Hc _ IH]; [reflexivity|].
  cbn [List.concat List.length]. rewrite length_app, Hc, IH. lia.
Qed.

Lemma batches_from_nil fuel n : batches_from fuel n [] = [].
Proof. now destruct fuel. Qed.

Lemma batches_from_fuel n : (1 <= n)%nat -> forall fuel1 fuel2 points,
  (List.length points <= fuel1)%nat -> (List.length points <= fuel2)%nat ->
  batches_from fuel1 n points = batches_from fuel2 n points.
Proof.
  intros Hn. induction fuel1 as [|k1 IH]; intros fuel2 points H1 H2.
  - destruct points; [now rewrite !batches_from_nil | cbn in H1; lia].
  - destruct points as [|x r]; [now rewrite !batches_from_nil|].
    destruct fuel2 as [|k2]; [cbn in H2; lia|].
    cbn [batches_from]. f_equal.
    assert (Hs : (List.length (skipn n (x :: r)) <= List.length r)%nat)
      by (rewrite length_skipn; cbn [List.length]; lia).
    cbn [List.length] in H1, H2. apply IH; lia.
Qed.

Lemma batches_short n points :
  points <> [] -> (List.length points <= n)%nat -> batches n points = [points].
Proof.
  intros Hne Hlen. unfold batches. destruct points as [|x r]; [contradiction|].
  cbn [List.length batches_from].
  rewrite firstn_all2 by exact Hlen. rewrite skipn_all2 by exact Hlen.
  now rewrite batches_from_nil.
Qed.

Lemma batches_app n (a b : list Point) :
  (1 <= n)%nat -> List.length a = n -> batches n (a ++ b) = a :: batches n b.
Proof.
  intros Hn Ha. unfold batches.
  destruct a as [|x a']; [cbn in Ha; lia|].
  cbn [app List.length batches_from].
  change (x :: a' ++ b) with ((x :: a') ++ b).
  rewrite firstn_app, skipn_app, Ha, Nat.sub_diag.
  rewrite firstn_all2 by lia. rewrite skipn_all2 by lia.
  cbn [firstn skipn app]. rewrite app_nil_r. f_equal.
  apply batches_from_fuel; [exact Hn | rewrite length_app; lia | lia].
Qed.

Section Feeding.

Variable NDEBUG : bool.

(** The call that brings the batch to exactly 3000 points writes them as
    one Shape node. *)
Lemma feed_to_threshold_text calls : forall w,
  o_quota (w_file w) = None ->
  (pending w < maxPointsPerFaceSet)%nat ->
  (pending w + List.length (List.concat calls) = maxPointsPerFaceSet)%nat ->
  exists w', feed_all NDEBUG w calls = Ok w'
    /\ m_triangles w' = []
    /\ o_quota (w_file w') = None
    /\ text (w_file w')
       = (text (w_file w) ++ shape_text render_15G (m_triangles w ++ List.concat calls))%string.
Proof.
  unfold pending, maxPointsPerFaceSet.
  induction calls as [|c rest IH]; intros w Hq Hlt Hsum.
  - cbn in Hsum. lia.
  - cbn [feed_all List.concat] in *. rewrite length_app in Hsum.
    unfold WriteFacetToWrl, maxPointsPerFaceSet.
    destruct (3000 <=? List.length (m_triangles w ++ c))%nat eqn:E.
    + apply Nat.leb_le in E. rewrite length_app in E.
      assert (Hfull : List.length (m_triangles w ++ c) = 3000%nat)
        by (rewrite length_app; lia).
      assert (Hrest : List.concat rest = []).
      { destruct (List.concat rest) as [|x xs]; [reflexivity|].
        cbn [List.length] in Hsum. lia. }
      destruct (WriteFacetsToWrl_text NDEBUG (m_triangles w ++ c) (w_file w) Hq)
        as (f' & Ef & Hq' & T');
        [right; now rewrite Hfull | rewrite Hfull; unfold size_t_modulus; lia |].
      rewrite Ef. cbn [bind].
      rewrite WriterProps.feed_below
        by (unfold pending, maxPointsPerFaceSet; cbn [m_triangles List.length];
            rewrite Hrest; cbn [List.length]; lia).
      eexists. split; [reflexivity|]. cbn [m_triangles w_file].
      split; [now rewrite Hrest|]. split; [exact Hq'|].
      rewrite T', Hfull, Hrest, app_nil_r. reflexivity.
    + apply Nat.leb_gt in E. cbn [bind].
      destruct (IH (mkWriter (w_file w) (m_triangles w ++ c))) as (w' & Ew & H);
        cbn [w_file m_triangles]; [exact Hq | lia | rewrite length_app; lia |].
      exists w'. split; [exact Ew|]. cbn [w_file m_triangles] in H.
      rewrite <- app_assoc in H. exact H.
Qed.

Lemma WriteEndOfWrl_text w emin emax :
  o_quota (w_file w) = None ->
  NDEBUG = true \/ (pending w mod 3 = 0)%nat ->
  (Z.of_nat (pending w) <= size_t_modulus)%Z ->
  exists w', WriteEndOfWrl NDEBUG w emin emax = Ok w'
    /\ m_triangles w' = m_triangles w
    /\ o_quota (w_file w') = None
    /\ text (w_file w')
       = (text (w_file w)
          ++ (if (pending w <? 3)%nat then "" else shape_text render_15G (m_triangles w))
          ++ end_text render_G emin emax)%string.
Proof.
  unfold pending. intros Hq Hassert Hsize. unfold WriteEndOfWrl.
  assert (Hflush : exists f1,
            match m_triangles w with
            | [] => Ok (w_file w)
            | _ :: _ => WriteFacetsToWrl NDEBUG (m_triangles w) (w_file w)
            end = Ok f1
            /\ o_quota f1 = None
            /\ text f1
               = (text (w_file w)
                  ++ (if (List.length (m_triangles w) <? 3)%nat then ""
                      else shape_text render_15G (m_triangles w)))%string).
  { destruct (m_triangles w) as [|x r] eqn:Em.
    - exists (w_file w). split; [reflexivity|]. split; [exact Hq|].
      cbn. now rewrite TokenizerProps.append_empty_r.
    - apply WriteFacetsToWrl_text; assumption. }
  destruct Hflush as (f1 & -> & Hq1 & T1). cbn [bind].
  rewrite (WriterProps.Printf_or_throw_unlimited _ _ _ Hq1). cbn [bind].
  set (f2 := push f1 viewpoint_header []).
  assert (Hq2 : o_quota f2 = None) by exact Hq1.
  rewrite (WriterProps.Printf_or_throw_unlimited _ _ _ Hq2). cbn [bind].
  set (f3 := push f2 fmt_position _).
  assert (Hq3 : o_quota f3 = None) by exact Hq1.
  rewrite (WriterProps.Printf_or_throw_unlimited _ _ _ Hq3). cbn [bind].
  set (f4 := push f3 viewpoint_footer []).
  assert (Hq4 : o_quota f4 = None) by exact Hq1.
  rewrite (WriterProps.Printf_or_throw_unlimited _ _ _ Hq4). cbn [bind].
  set (f5 := push f4 background_line []).
  assert (Hq5 : o_quota f5 = None) by exact Hq1.
  rewrite (WriterProps.Printf_or_throw_unlimited _ _ _ Hq5). cbn [bind].
  eexists. split; [reflexivity|]. cbn [m_triangles w_file].
  split; [reflexivity|]. split; [exact Hq1|].
  unfold f5, f4, f3, f2. rewrite !text_push, T1. unfold end_text.
  change (sprintf viewpoint_header []) with viewpoint_header.
  change (sprintf viewpoint_footer []) with viewpoint_footer.
  change (sprintf background_line []) with background_line.
  change (sprintf navigation_line []) with navigation_line.
  assert (Hpos : forall a b c,
            sprintf fmt_position [ArgDouble a; ArgDouble b; ArgDouble c]
            = ("  position " ++ render_G a ++ " " ++ render_G b ++ " " ++ render_G c
               ++ LFs)%string).
  { intros a b c. cbn. rewrite ?WriterProps.append_assoc. reflexivity. }
  rewrite Hpos. rewrite !WriterProps.append_assoc. reflexivity.
Qed.

(** Triangles fed one per call from an empty batch, then the end call. *)
Lemma feed_then_end_text (emin emax : Point) (n : nat) : forall calls w,
  (List.length calls <= n)%nat ->
  Forall (fun coords => List.length coords = 3%nat) calls ->
  m_triangles w = [] ->
  o_quota (w_file w) = None ->
  exists w' w'',
    feed_all NDEBUG w calls = Ok w'
    /\ WriteEndOfWrl NDEBUG w' emin emax = Ok w''
    /\ text (w_file w'')
       = (text (w_file w)
          ++ String.concat ""
               (map (shape_text render_15G)
                    (batches maxPointsPerFaceSet (List.concat calls)))
          ++ end_text render_G emin emax)%string.
Proof.
  induction n as [|n IH]; intros calls w Hn Hall Hm Hq.
  - destruct calls; [|cbn in Hn; lia].
    destruct (WriteEndOfWrl_text w emin emax Hq) as (w'' & Ee & _ & _ & T);
      [right; unfold pending; now rewrite Hm | unfold pending; rewrite Hm; now cbn |].
    exists w, w''. split; [reflexivity|]. split; [exact Ee|].
    rewrite T. unfold pending. rewrite Hm. reflexivity.
  - pose proof (length_concat_triangles calls Hall) as Hlen.
    destruct (List.length calls <? 1000)%nat eqn:E.
    + apply Nat.ltb_lt in E.
      rewrite WriterProps.feed_below
        by (unfold pending, maxPointsPerFaceSet; rewrite Hm, Hlen; cbn [List.length]; lia).
      rewrite Hm. cbn [app].
      set (w' := mkWriter (w_file w) (List.concat calls)).
      destruct (WriteEndOfWrl_text w' emin emax Hq) as (w'' & Ee & _ & _ & T).
      { right. unfold pending, w'. cbn [m_triangles]. rewrite Hlen.
        rewrite Nat.mul_comm. apply Nat.Div0.mod_mul. }
      { unfold pending, w'. cbn [m_triangles]. rewrite Hlen. unfold size_t_modulus. lia. }
      exists w', w''. split; [reflexivity|]. split; [exact Ee|].
      rewrite T. unfold pending, w'. cbn [m_triangles w_file]. f_equal. f_equal.
      destruct calls as [|c rest].
      * reflexivity.
      * assert (Hne : List.concat (c :: rest) <> []).
        { intros H0. rewrite H0 in Hlen. cbn [List.length] in Hlen. lia. }
        rewrite batches_short by (unfold maxPointsPerFaceSet; lia || exact Hne).
        destruct (List.length (List.concat (c :: rest)) <? 3)%nat eqn:E3;
          [apply Nat.ltb_lt in E3; cbn [List.length] in Hlen; lia|].
        cbn [map]. rewrite concat_cons. cbn [String.concat].
        now rewrite TokenizerProps.append_empty_r.
    + apply Nat.ltb_ge in E.
      remember (firstn 1000 calls) as c1 eqn:Ec1.
      remember (skipn 1000 calls) as c2 eqn:Ec2.
      assert (Hsplit : calls = c1 ++ c2) by (subst c1 c2; symmetry; apply firstn_skipn).
      assert (Hl1 : List.length c1 = 1000%nat) by (subst c1; rewrite length_firstn; lia).
      assert (Hl2 : (List.length c2 <= n)%nat) by (subst c2; rewrite length_skipn; lia).
      clear Ec1 Ec2 Hlen. subst calls.
      apply Forall_app in Hall as [Hall1 Hall2].
      pose proof (length_concat_triangles _ Hall1) as Hlen1. rewrite Hl1 in Hlen1.
      rewrite WriterProps.feed_all_app, concat_app.
      destruct (feed_to_threshold_text c1 w Hq) as (w1 & E1 & Hm1 & Hq1 & T1);
        [unfold pending, maxPointsPerFaceSet; rewrite Hm; cbn [List.length]; lia
        |unfold pending, maxPointsPerFaceSet; rewrite Hm, Hlen1; cbn [List.length]; lia |].
      rewrite E1. cbn [bind].
      destruct (IH c2 w1) as (w' & w'' & Ef & Ee & T);
        [exact Hl2 | exact Hall2 | exact Hm1 | exact Hq1 |].
      exists w', w''. split; [exact Ef|]. split; [exact Ee|].
      rewrite T, T1, Hm. cbn [app].
      rewrite batches_app by (unfold maxPointsPerFaceSet; lia).
      cbn [map]. rewrite concat_cons.
      rewrite !WriterProps.append_assoc. reflexivity.
Qed.

End Feeding.

End Rendered.

(** X11.  On a file that takes the writes, [WriteCoordListToWrl] returns
    and adds to the file one line per point, in the order of the points:
    eight spaces, the three coordinates with one space between them, then a
    comma and a space on every line but the last, then CR LF.  No comma
    follows the last point, and nothing is written for no point. *)
Theorem WriteCoordListToWrl_writes (render_G render_15G : float -> string)
    (points : list Point) (f : OutFile) :
  o_quota f = None ->
  (Z.of_nat (List.length points) <= size_t_modulus)%Z ->
  exists f',
    WriteCoordListToWrl points f = Ok f'
    /\ o_quota f' = None
    /\ file_text render_G render_15G f'
       = (file_text render_G render_15G f ++ coord_list_text render_15G points)%string
    /\ points_in f' = (points_in f + List.length points)%nat.
Proof.
  intros Hq Hsize. unfold WriteCoordListToWrl.
  destruct (coord_list_loop_text render_G render_15G points 0 (List.length points) f Hq)
    as (f' & E & Hq' & T); [reflexivity | exact Hsize |].
  destruct (WriterProps.coord_list_loop_ok points 0 (List.length points) f Hq)
    as (f'' & E' & _ & Tally).
  rewrite E in E'. injection E' as <-.
  exists f'. repeat split; try assumption.
  unfold tally, tally_add in Tally. now injection Tally as _ -> _.
Qed.

Lemma WriteCoordListToWrl_writes_witness :
  exists f',
    WriteCoordListToWrl Samples.unit_triangle (create_file None) = Ok f'
    /\ file_text Samples.render_small Samples.render_small f'
       = coord_list_text Samples.render_small Samples.unit_triangle
    /\ points_in f' = 3%nat.
Proof.
  destruct (WriteCoordListToWrl_writes Samples.render_small Samples.render_small
              Samples.unit_triangle (create_file None) eq_refl)
    as (f' & E & _ & T & Hn); [unfold size_t_modulus; cbn; lia|].
  exists f'. split; [exact E|]. split; [exact T | exact Hn].
Defined.

(** X12.  On a file that takes the writes, [WriteCoordIndexesToWrl]
    returns and adds to the file one line per triangle: six spaces, the
    indexes 3t, 3t+1 and 3t+2 of the points of triangle t, each followed by
    a comma and a space, then -1, then a comma on every line but the last,
    then CR LF.  The indexes run from 0 to 3n-1 in order, each once. *)
Theorem WriteCoordIndexesToWrl_writes (render_G render_15G : float -> string)
    (numTriangles : nat) (f : OutFile) :
  o_quota f = None ->
  (Z.of_nat numTriangles <= size_t_modulus)%Z ->
  exists f',
    WriteCoordIndexesToWrl numTriangles f = Ok f'
    /\ o_quota f' = None
    /\ file_text render_G render_15G f'
       = (file_text render_G render_15G f ++ coord_index_text numTriangles 0)%string
    /\ index_triples_in f' = (index_triples_in f + numTriangles)%nat.
Proof.
  intros Hq Hsize. unfold WriteCoordIndexesToWrl.
  destruct (coord_index_loop_text render_G render_15G numTriangles 0 numTriangles f Hq)
    as (f' & E & Hq' & T); [reflexivity | exact Hsize |].
  destruct (WriterProps.coord_index_loop_ok numTriangles 0 numTriangles f Hq)
    as (f'' & E' & _ & Tally).
  rewrite E in E'. injection E' as <-.
  exists f'. repeat split; try assumption.
  unfold tally, tally_add in Tally. now injection Tally as _ _ ->.
Qed.

Lemma WriteCoordIndexesToWrl_writes_witness :
  exists f',
    WriteCoordIndexesToWrl 2 (create_file None) = Ok f'
    /\ file_text Samples.render_small Samples.render_small f'
       = ("      0, 1, 2, -1," ++ CRLF ++ "      3, 4, 5, -1" ++ CRLF)%string
    /\ index_triples_in f' = 2%nat.
Proof.
  destruct (WriteCoordIndexesToWrl_writes Samples.render_small Samples.render_small
              2 (create_file None) eq_refl)
    as (f' & E & _ & T & Hn); [unfold size_t_modulus; cbn; lia|].
  exists f'. split; [exact E|]. split; [exact T | exact Hn].
Defined.

(** X13.  [WriteFacetsToWrl]: in a build with assertions a number of
    points that is not a multiple of 3 fails the assertion, before anything
    is written.  Otherwise, on a file that takes the writes, the call
    returns; with fewer than 3 points it writes nothing, and with 3 or more
    it adds exactly one Shape node: the header of the node, the coordinate
    list of all the points, the index list of size / 3 triangles, and
    the footer (so with assertions compiled out, points beyond the last
    whole triangle are listed but not indexed). *)
Theorem WriteFacetsToWrl_writes (NDEBUG : bool) (render_G render_15G : float -> string)
    (points : list Point) (f : OutFile) :
  (NDEBUG = false -> (List.length points mod 3 <> 0)%nat ->
   WriteFacetsToWrl NDEBUG points f = AssertFailed)
  /\ (o_quota f = None ->
      NDEBUG = true \/ (List.length points mod 3 = 0)%nat ->
      (Z.of_nat (List.length points) <= size_t_modulus)%Z ->
      exists f',
        WriteFacetsToWrl NDEBUG points f = Ok f'
        /\ o_quota f' = None
        /\ file_text render_G render_15G f'
           = (file_text render_G render_15G f
              ++ (if (List.length points <? 3)%nat then ""
                  else shape_text render_15G points))%string).
Proof.
  split.
  - intros -> Hmod. unfold WriteFacetsToWrl, assert.
    apply Nat.eqb_neq in Hmod. rewrite Hmod. reflexivity.
  - apply WriteFacetsToWrl_text.
Qed.

Lemma WriteFacetsToWrl_writes_witness :
  WriteFacetsToWrl false [mkPoint 0 0 0] (create_file None) = AssertFailed
  /\ exists f',
       WriteFacetsToWrl false Samples.unit_triangle (create_file None) = Ok f'
       /\ file_text Samples.render_small Samples.render_small f'
          = shape_text Samples.render_small Samples.unit_triangle.
Proof.
  destruct (WriteFacetsToWrl_writes false Samples.render_small Samples.render_small
              [mkPoint 0 0 0] (create_file None)) as [Hfail _].
  split; [apply Hfail; [reflexivity | discriminate]|].
  destruct (WriteFacetsToWrl_writes false Samples.render_small Samples.render_small
              Samples.unit_triangle (create_file None)) as [_ Hok].
  destruct (Hok eq_refl (or_intror eq_refl)) as (f' & E & _ & T);
    [unfold size_t_modulus; cbn; lia|].
  exists f'. split; [exact E | exact T].
Defined.

(** X14.  The whole output of the writer.  On a file that takes the
    writes, a start call, any number of feed calls of one triangle (three
    points) each, and the end call all return, and the text they add to the
    file is: the VRML header; then the points of the triangles, in the
    order in which they were fed, cut into consecutive batches of 3000
    points (1000 triangles), one Shape node per batch, the last batch
    holding what is left when that is not empty; then the Viewpoint,
    Background and NavigationInfo text.  No point is lost, repeated or
    reordered, and with no triangle there is no Shape node. *)
Theorem writer_output_text (NDEBUG : bool) (render_G render_15G : float -> string)
    (f : OutFile) (triangles : list (list Point)) (emin emax : Point) :
  o_quota f = None ->
  Forall (fun coords => List.length coords = 3%nat) triangles ->
  exists w1 w2 w3,
    WriteStartOfWrl (new_writer f) = Ok w1
    /\ feed_all NDEBUG w1 triangles = Ok w2
    /\ WriteEndOfWrl NDEBUG w2 emin emax = Ok w3
    /\ file_text render_G render_15G (w_file w3)
       = (file_text render_G render_15G f
          ++ wrl_header
          ++ String.concat ""
               (map (shape_text render_15G)
                    (batches maxPointsPerFaceSet (List.concat triangles)))
          ++ end_text render_G emin emax)%string.
Proof.
  intros Hq Hall. unfold WriteStartOfWrl. cbn [new_writer w_file m_triangles].
  rewrite (WriterProps.Printf_or_throw_unlimited _ _ _ Hq). cbn [bind].
  set (w1 := mkWriter (push f wrl_header []) []).
  destruct (feed_then_end_text render_G render_15G NDEBUG emin emax
              (List.length triangles) triangles w1 (le_n _) Hall eq_refl Hq)
    as (w2 & w3 & Ef & Ee & T).
  exists w1, w2, w3. split; [reflexivity|]. split; [exact Ef|]. split; [exact Ee|].
  rewrite T. unfold w1. cbn [w_file]. rewrite text_push.
  change (vsprintf render_G render_15G wrl_header []) with wrl_header.
  rewrite !WriterProps.append_assoc. reflexivity.
Qed.

Lemma writer_output_text_witness :
  exists w1 w2 w3,
    WriteStartOfWrl (new_writer (create_file None)) = Ok w1
    /\ feed_all false w1 [Samples.unit_triangle; Samples.unit_triangle] = Ok w2
    /\ WriteEndOfWrl false w2 (mkPoint 0 0 0) (mkPoint 1 1 0) = Ok w3
    /\ file_text Samples.render_small Samples.render_small (w_file w3)
       = (wrl_header
          ++ shape_text Samples.render_small (Samples.unit_triangle ++ Samples.unit_triangle)
          ++ end_text Samples.render_small (mkPoint 0 0 0) (mkPoint 1 1 0))%string.
Proof.
  destruct (writer_output_text false Samples.render_small Samples.render_small
              (create_file None) [Samples.unit_triangle; Samples.unit_triangle]
              (mkPoint 0 0 0) (mkPoint 1 1 0) eq_refl)
    as (w1 & w2 & w3 & E1 & E2 & E3 & T); [repeat constructor|].
  exists w1, w2, w3. split; [exact E1|]. split; [exact E2|]. split; [exact E3|].
  exact T.
Defined.

End TextProps.

(* ================================================================== *)
(** * The text of a converted model *)

Module ConversionProps.
Import SimpleFile Tokenizer Reader Writer Driver.

Section Loop.

Variable NDEBUG : bool.
Variable atof : string -> float.

Lemma ReadFacetFromStl_three r coords r' :
  ReadFacetFromStl atof r = Ok (true, coords, r') -> List.length coords = 3%nat.
Proof.
  unfold ReadFacetFromStl. destruct (m_isBinaryStl r).
  - unfold ReadFacetFromBinaryStl, Read.
    destruct (m_curFacet r >=? m_numFacets r)%Z; [discriminate|].
    destruct (negb (_ =? _)%nat); [discriminate|].
    destruct (negb (_ =? _)%Z); [discriminate|].
    now intros [= <- _].
  - pose proof (FacetProps.ReadFacetFromAsciiStl_outcome atof (m_file r)) as Hout.
    destruct (ReadFacetFromAsciiStl atof (m_file r)) as [[[more cs] f1]| | |];
      cbn [bind]; try discriminate.
    intros [= -> <- _]. apply Hout.
Qed.

Lemma reads_facets_triangles r facets r' :
  reads_facets atof r facets r' ->
  Forall (fun coords => List.length coords = 3%nat) facets.
Proof.
  induction 1 as [|r coords r1 rest r' Hread _ IH]; constructor; [|exact IH].
  exact (ReadFacetFromStl_three _ _ _ Hread).
Qed.

(** The loop of the conversion feeds the writer the facets the reader
    returns, and gives [UpdateMinMax] their points. *)
Lemma convert_loop_feeds r facets r_end :
  reads_facets atof r facets r_end ->
  forall fuel w w' emin emax n,
    (left (m_file r) < fuel)%nat ->
    feed_all NDEBUG w facets = Ok w' ->
    convert_loop NDEBUG atof fuel (mkConversion r w emin emax n)
    = Some (Ok (mkConversion r_end w'
                  (fst (bounds_from (emin, emax) (List.concat facets)))
                  (snd (bounds_from (emin, emax) (List.concat facets)))
                  (n + List.length facets))).
Proof.
  induction 1 as [r r' Hread|r coords r1 rest r' Hread _ IH];
    intros fuel w w' emin emax n Hfuel Hfeed.
  - destruct fuel as [|k]; [lia|].
    cbn [convert_loop c_reader]. rewrite Hread. cbn [negb].
    cbn [feed_all] in Hfeed. injection Hfeed as <-.
    cbn [c_writer c_emin c_emax numFacetsProcessed List.concat List.length bounds_from
         fold_left fst snd].
    now rewrite Nat.add_0_r.
  - destruct fuel as [|k]; [lia|].
    cbn [convert_loop c_reader]. rewrite Hread. cbn [negb c_writer c_emin c_emax].
    cbn [feed_all] in Hfeed.
    destruct (WriteFacetToWrl NDEBUG w coords) as [w1| | |]; cbn [bind] in Hfeed;
      try discriminate.
    pose proof (DriverProps.ReadFacetFromStl_left atof _ _ _ Hread) as [_ Hleft].
    destruct (fold_left _ coords (emin, emax)) as [e1 e2] eqn:Ef.
    cbn [numFacetsProcessed].
    rewrite (IH k w1 w' e1 e2 (S n)) by (lia || exact Hfeed).
    cbn [List.concat List.length]. unfold bounds_from. rewrite fold_left_app, Ef.
    replace (n + S (List.length rest))%nat with (S n + List.length rest)%nat by lia.
    reflexivity.
Qed.

Section Text.

Variable render_G : float -> string.
Variable render_15G : float -> string.

(** A conversion whose header read and facet reads succeed, on an output
    file that takes the writes. *)
Lemma ConvertStlToWrl_text inFile outFile r facets r_end :
  ReadHeaderFromStl (new_reader inFile) = Ok r ->
  reads_facets atof r facets r_end ->
  o_quota outFile = None ->
  exists out,
    ConvertStlToWrl NDEBUG atof inFile outFile = Ok (out, List.length facets)
    /\ file_text render_G render_15G out
       = (file_text render_G render_15G outFile
          ++ conversion_text render_G render_15G facets)%string.
Proof.
  intros Hheader Hreads Hq. unfold ConvertStlToWrl. rewrite Hheader. cbn [bind].
  unfold WriteStartOfWrl. cbn [new_writer w_file m_triangles].
  rewrite (WriterProps.Printf_or_throw_unlimited _ _ _ Hq). cbn [bind].
  set (w1 := mkWriter (push outFile wrl_header []) []).
  destruct (TextProps.feed_then_end_text render_G render_15G NDEBUG
              (fst (bounds (List.concat facets))) (snd (bounds (List.concat facets)))
              (List.length facets) facets w1 (le_n _)
              (reads_facets_triangles _ _ _ Hreads) eq_refl Hq)
    as (w2 & w3 & Ef & Ee & T).
  rewrite (convert_loop_feeds r facets r_end Hreads _ w1 w2 _ _ 0).
  - cbn [bind c_writer c_emin c_emax numFacetsProcessed Nat.add].
    change (bounds_from _ (List.concat facets)) with (bounds (List.concat facets)).
    rewrite Ee. cbn [bind]. exists (w_file w3). split; [reflexivity|].
    rewrite T. unfold w1, conversion_text. cbn [w_file]. rewrite TextProps.text_push.
    change (vsprintf render_G render_15G wrl_header []) with wrl_header.
    rewrite !WriterProps.append_assoc. reflexivity.
  - apply DriverProps.ReadHeaderFromStl_data in Hheader. cbn [new_reader m_file] in Hheader.
    rewrite DriverProps.left_eq, Hheader. lia.
  - exact Ef.
Qed.

End Text.

(** The records of a file taken for binary are read one after the other. *)
Lemma binary_reads data N :
  accepted_binary_stl data N ->
  forall j k,
    (k + j = N)%nat ->
    exists r_end,
      reads_facets atof
        (mkReader (mkFile data (84 + 52 * k) 0) true (Z.of_nat N) (Z.of_nat k))
        (map (fun i => record_points (record_at data i)) (seq k j)) r_end.
Proof.
  intros (Hlen & _ & HN & Hcount & Hattr).
  assert (Hbig : (Z.of_nat N < 2 ^ 32)%Z).
  { pose proof (ReaderProps.header_count_below data) as H. rewrite Hcount in H. lia. }
  induction j as [|j IH]; intros k Hk.
  - eexists. apply reads_end. unfold ReadFacetFromStl. cbn [m_isBinaryStl].
    apply ReaderProps.ReadFacetFromBinaryStl_exhausted. cbn [m_numFacets m_curFacet]. lia.
  - destruct (IH (S k)) as (r_end & Hrest); [lia|].
    exists r_end. cbn [seq map]. eapply reads_facet; [|exact Hrest].
    unfold ReadFacetFromStl. cbn [m_isBinaryStl].
    unfold ReadFacetFromBinaryStl, Read, remaining, sizeof_BinaryStlRecord.
    cbn [m_curFacet m_numFacets m_file f_data f_pos m_lineCounter m_isBinaryStl].
    assert (E : (Z.of_nat k >=? Z.of_nat N)%Z = false)
      by (rewrite Z.geb_leb; apply Z.leb_gt; lia).
    rewrite E. fold (record_at data k).
    assert (Hrec : List.length (record_at data k) = 52%nat)
      by (unfold record_at; rewrite length_firstn, length_skipn; lia).
    rewrite Hrec. cbn [Nat.eqb negb].
    rewrite (Hattr k) by lia. cbn [Z.eqb negb].
    replace ((Z.of_nat k + 1) mod size_t_modulus)%Z with (Z.of_nat (S k)).
    2:{ unfold size_t_modulus. rewrite Z.mod_small; [lia|].
        change (2 ^ 64)%Z with 18446744073709551616%Z.
        change (2 ^ 32)%Z with 4294967296%Z in Hbig. lia. }
    replace (84 + 52 * k + 52)%nat with (84 + 52 * S k)%nat by lia.
    reflexivity.
Qed.

Lemma file_bytes_app (a b : list text_line) :
  file_bytes (a ++ b) = file_bytes a ++ file_bytes b.
Proof. unfold file_bytes. now rewrite map_app, concat_app. Qed.

(** The facet blocks of an ASCII STL are read one after the other. *)
Lemma ascii_reads : forall j ls r,
  m_isBinaryStl r = false ->
  remaining (m_file r) = file_bytes ls ->
  facet_blocks atof j ls = true ->
  exists r_end,
    reads_facets atof r (ascii_facets atof j ls) r_end
    /\ List.length (ascii_facets atof j ls) = j.
Proof.
  induction j as [|j IH]; intros ls r Hascii Hrem Hblocks.
  - destruct ls as [|l rest]; [discriminate|].
    cbn [facet_blocks] in Hblocks. apply andb_true_iff in Hblocks as [Hc Hk].
    eexists. split; [|reflexivity]. apply reads_end.
    unfold ReadFacetFromStl. rewrite Hascii.
    rewrite (DriverProps.ReadFacetFromAsciiStl_endsolid atof _ l rest Hc Hk Hrem).
    reflexivity.
  - destruct ls as [|l1 [|l2 [|l3 [|l4 [|l5 [|l6 [|l7 rest]]]]]]]; try discriminate.
    cbn [facet_blocks] in Hblocks.
    repeat match type of Hblocks with
           | (_ && _ = true) => let H := fresh "B" in apply andb_true_iff in Hblocks as [Hblocks H]
           end.
    change (l1 :: l2 :: l3 :: l4 :: l5 :: l6 :: l7 :: rest)
      with ([l1; l2; l3; l4; l5; l6; l7] ++ rest) in Hrem.
    rewrite file_bytes_app in Hrem.
    destruct (FacetProps.ReadFacetFromAsciiStl_points atof (m_file r) l1 l2 l3 l4 l5 l6 l7
                (file_bytes rest)) as (f' & Er & Hrem' & _); try assumption.
    destruct (IH rest (mkReader f' false (m_numFacets r) (m_curFacet r)))
      as (r_end & Hrest & Hlen); [reflexivity | exact Hrem' | exact B |].
    exists r_end. cbn [ascii_facets List.length]. split; [|now rewrite Hlen].
    eapply reads_facet; [|exact Hrest].
    unfold ReadFacetFromStl. rewrite Hascii, Er. reflexivity.
Qed.

(** The header of an ASCII STL that is not taken for a binary file. *)
Lemma ReadHeaderFromStl_ascii_file (header : text_line) (rest : list text_line) :
  clean_line header = true ->
  first_token_is "solid" header = true ->
  fst (IsBinaryStl (open_file (file_bytes (header :: rest)))) = false ->
  ReadHeaderFromStl (new_reader (open_file (file_bytes (header :: rest))))
  = Ok (mkReader (after_line (mkFile (file_bytes (header :: rest)) 0 0) header) false 0 0).
Proof.
  intros Hclean Hsolid Hnot.
  rewrite ReaderProps.ReadHeaderFromStl_ascii by exact Hnot.
  cbn [new_reader m_file Seek snd]. rewrite DriverProps.IsBinaryStl_file.
  cbn [open_file f_data m_lineCounter].
  unfold ReadHeaderFromAsciiStl. cbn [Seek snd f_data m_lineCounter].
  assert (Hrem : remaining (mkFile (file_bytes (header :: rest)) 0 0)
                 = line_bytes header ++ file_bytes rest) by reflexivity.
  rewrite (DriverProps.ReadLine_clean _ header _ Hclean Hrem). cbn [bind negb].
  unfold first_token_is in Hsolid.
  destruct (StringFields (fst header)) as [|t ts]; [discriminate|].
  rewrite Hsolid. reflexivity.
Qed.

End Loop.

(** X15.  The output of the conversion of a file taken for binary.  For
    every file below 2 GiB made of 80 bytes of preamble, a count [N >= 1]
    and [N] records of 52 bytes (the size of [BinaryStlRecord]: the 50
    bytes of a record of the format, then two more) whose attribute fields
    are zero, on an output file that takes the writes, [ConvertStlToWrl]
    returns, has processed [N] facets, and has added to the file exactly
    the VRML text of the triangles of the [N] records, in the order of the
    file: the header, one Shape node per 1000 triangles, and the Viewpoint
    computed from the bounds that [UpdateMinMax] gives for these points.
    The normals of the records and the two bytes after each attribute field
    are not used. *)
Theorem binary_conversion_text (NDEBUG : bool) (atof : string -> float)
    (render_G render_15G : float -> string)
    (data : list byte) (N : nat) (outFile : OutFile) :
  accepted_binary_stl data N ->
  o_quota outFile = None ->
  exists out,
    ConvertStlToWrl NDEBUG atof (open_file data) outFile = Ok (out, N)
    /\ file_text render_G render_15G out
       = (file_text render_G render_15G outFile
          ++ conversion_text render_G render_15G (binary_facets data N))%string.
Proof.
  intros Hvalid Hq.
  destruct (binary_reads atof data N Hvalid N 0 eq_refl) as (r_end & Hreads).
  destruct (ConvertStlToWrl_text NDEBUG atof render_G render_15G (open_file data) outFile
              _ _ r_end (DriverProps.ReadHeaderFromStl_binary data N Hvalid) Hreads Hq)
    as (out & E & T).
  exists out. split; [|exact T].
  rewrite E. unfold binary_facets. now rewrite length_map, length_seq.
Qed.

Lemma binary_conversion_text_witness :
  exists out,
    ConvertStlToWrl false Samples.atof_decimal (open_file Samples.padded_one_facet)
                    (create_file None) = Ok (out, 1%nat)
    /\ file_text Samples.render_small Samples.render_small out
       = conversion_text Samples.render_small Samples.render_small
           [Samples.unit_triangle].
Proof.
  assert (Hvalid : accepted_binary_stl Samples.padded_one_facet 1).
  { split; [reflexivity|]. split; [reflexivity|]. split; [lia|]. split; [reflexivity|].
    intros k Hk. destruct k as [|k]; [reflexivity | lia]. }
  destruct (binary_conversion_text false Samples.atof_decimal Samples.render_small
              Samples.render_small Samples.padded_one_facet 1 (create_file None)
              Hvalid eq_refl) as (out & E & T).
  exists out. split; [exact E|]. rewrite T.
  assert (Hf : binary_facets Samples.padded_one_facet 1 = [Samples.unit_triangle])
    by (vm_compute; reflexivity).
  rewrite Hf. reflexivity.
Defined.

(** X16.  The output of the conversion of an ASCII STL.  For every ASCII
    STL of [N] facets with no empty line (a solid line, [N] blocks of seven
    lines, a line that ends the solid; each line ended by LF or CR LF) that
    the reader does not take for a binary file, on an output file that
    takes the writes, [ConvertStlToWrl] returns, has processed [N] facets,
    and has added to the file exactly the VRML text of the triangles made
    of the vertex lines, in the order of the file, each coordinate being
    [atof] of its token.  What follows the line that ends the solid is not
    read. *)
Theorem ascii_conversion_text (NDEBUG : bool) (atof : string -> float)
    (render_G render_15G : float -> string)
    (ls : list text_line) (N : nat) (outFile : OutFile) :
  valid_ascii_stl atof ls N = true ->
  fst (IsBinaryStl (open_file (file_bytes ls))) = false ->
  o_quota outFile = None ->
  exists out,
    ConvertStlToWrl NDEBUG atof (open_file (file_bytes ls)) outFile = Ok (out, N)
    /\ file_text render_G render_15G out
       = (file_text render_G render_15G outFile
          ++ conversion_text render_G render_15G (ascii_facets atof N (tl ls)))%string.
Proof.
  intros Hvalid Hnot Hq.
  destruct ls as [|header rest]; [discriminate|].
  cbn [valid_ascii_stl] in Hvalid.
  apply andb_true_iff in Hvalid as [Hvalid Hblocks].
  apply andb_true_iff in Hvalid as [Hclean Hsolid].
  pose proof (ReadHeaderFromStl_ascii_file header rest Hclean Hsolid Hnot) as Hheader.
  assert (Hrem : remaining (mkFile (file_bytes (header :: rest)) 0 0)
                 = line_bytes header ++ file_bytes rest) by reflexivity.
  apply DriverProps.remaining_after_line in Hrem.
  destruct (ascii_reads atof N rest
              (mkReader (after_line (mkFile (file_bytes (header :: rest)) 0 0) header)
                        false 0 0) eq_refl Hrem Hblocks)
    as (r_end & Hreads & Hlen).
  destruct (ConvertStlToWrl_text NDEBUG atof render_G render_15G
              (open_file (file_bytes (header :: rest))) outFile
              _ _ r_end Hheader Hreads Hq) as (out & E & T).
  exists out. split; [now rewrite E, Hlen | exact T].
Qed.

Lemma ascii_conversion_text_witness :
  exists out,
    ConvertStlToWrl false Samples.atof_decimal
      (open_file (file_bytes Samples.dos_one_facet)) (create_file None) = Ok (out, 1%nat)
    /\ file_text Samples.render_small Samples.render_small out
       = conversion_text Samples.render_small Samples.render_small
           [Samples.unit_triangle].
Proof.
  destruct (ascii_conversion_text false Samples.atof_decimal Samples.render_small
              Samples.render_small Samples.dos_one_facet 1 (create_file None))
    as (out & E & T); [vm_compute; reflexivity | vm_compute; reflexivity | reflexivity |].
  exists out. split; [exact E|]. rewrite T.
  assert (Hf : ascii_facets Samples.atof_decimal 1 (tl Samples.dos_one_facet)
               = [Samples.unit_triangle]) by (vm_compute; reflexivity).
  rewrite Hf. reflexivity.
Defined.

(** X17.  The conversion of an ASCII STL with no facet (a solid line
    followed by the line that ends the solid), on an output file that takes
    the writes: it returns with 0 facets processed and writes the header
    and the end nodes with no Shape node between them; the bounds are still
    (DBL_MAX, -DBL_MAX), and the three coordinates of the Viewpoint
    position computed from them are all minus infinity. *)
Theorem empty_solid_conversion (NDEBUG : bool) (atof : string -> float)
    (render_G render_15G : float -> string)
    (ls : list text_line) (outFile : OutFile) :
  valid_ascii_stl atof ls 0 = true ->
  fst (IsBinaryStl (open_file (file_bytes ls))) = false ->
  o_quota outFile = None ->
  exists out,
    ConvertStlToWrl NDEBUG atof (open_file (file_bytes ls)) outFile = Ok (out, 0%nat)
    /\ file_text render_G render_15G out
       = (file_text render_G render_15G outFile
          ++ wrl_header ++ viewpoint_header ++ "  position "
          ++ render_G neg_infinity ++ " " ++ render_G neg_infinity ++ " "
          ++ render_G neg_infinity ++ LFs
          ++ viewpoint_footer ++ background_line ++ navigation_line)%string.
Proof.
  intros Hvalid Hnot Hq.
  destruct ls as [|header rest]; [discriminate|].
  cbn [valid_ascii_stl] in Hvalid.
  apply andb_true_iff in Hvalid as [Hvalid Hblocks].
  apply andb_true_iff in Hvalid as [Hclean Hsolid].
  pose proof (ReadHeaderFromStl_ascii_file header rest Hclean Hsolid Hnot) as Hheader.
  assert (Hrem : remaining (mkFile (file_bytes (header :: rest)) 0 0)
                 = line_bytes header ++ file_bytes rest) by reflexivity.
  apply DriverProps.remaining_after_line in Hrem.
  destruct (ascii_reads atof 0 rest
              (mkReader (after_line (mkFile (file_bytes (header :: rest)) 0 0) header)
                        false 0 0) eq_refl Hrem Hblocks)
    as (r_end & Hreads & _).
  destruct (ConvertStlToWrl_text NDEBUG atof render_G render_15G
              (open_file (file_bytes (header :: rest))) outFile
              _ _ r_end Hheader Hreads Hq) as (out & E & T).
  exists out. split; [exact E|]. rewrite T. reflexivity.
Qed.

Lemma empty_solid_conversion_witness :
  exists out,
    ConvertStlToWrl false Samples.atof_decimal
      (open_file (file_bytes [("solid a", false); ("endsolid a", false)]))
      (create_file None) = Ok (out, 0%nat)
    /\ file_text Samples.render_small Samples.render_small out
       = (wrl_header ++ viewpoint_header ++ "  position ? ? ?" ++ LFs
          ++ viewpoint_footer ++ background_line ++ navigation_line)%string.
Proof.
  destruct (empty_solid_conversion false Samples.atof_decimal Samples.render_small
              Samples.render_small [("solid a", false); ("endsolid a", false)]
              (create_file None)) as (out & E & T);
    [vm_compute; reflexivity | vm_compute; reflexivity | reflexivity |].
  exists out. split; [exact E|]. rewrite T. reflexivity.
Defined.

End ConversionProps.

(* ================================================================== *)
(** * The bounds of the model *)

Module BoundsProps.
Import Reader Driver.

(** ** The order [<] of doubles *)

Lemma SFltb_trans a b c : SFltb a b = true -> SFltb b c = true -> SFltb a c = true.
Proof.
  unfold SFltb, SFcompare.
  destruct a as [sa|sa| |sa ma ea], b as [sb|sb| |sb mb eb], c as [sc|sc| |sc mc ec];
    try destruct sa; try destruct sb; try destruct sc; cbn;
    try reflexivity; try discriminate;
    repeat match goal with
    | |- context [Z.compare ?x ?y] => destruct (Z.compare_spec x y)
    | |- context [PosDef.Pos.compare_cont Eq ?x ?y] =>
        change (PosDef.Pos.compare_cont Eq x y) with (Pos.compare x y);
        destruct (Pos.compare_spec x y)
    end; cbn; try reflexivity; try discriminate; try lia.
Qed.

Lemma SFcompare_refl a : SFeqb a a = false -> forall b, SFltb a b = false /\ SFltb b a = false.
Proof.
  unfold SFltb, SFeqb, SFcompare. destruct a as [s|s| |s m e]; try destruct s; cbn;
    try discriminate;
    try (rewrite Z.compare_refl;
         change (PosDef.Pos.compare_cont Eq m m) with (Pos.compare m m);
         rewrite Pos.compare_refl; discriminate).
  intros _ b. destruct b; split; reflexivity.
Qed.

Lemma SFltb_irrefl a : SFltb a a = false.
Proof.
  unfold SFltb, SFcompare. destruct a as [s|s| |s m e]; try destruct s; cbn;
    try reflexivity;
    rewrite Z.compare_refl; change (PosDef.Pos.compare_cont Eq m m) with (Pos.compare m m);
    rewrite Pos.compare_refl; reflexivity.
Qed.

Lemma ltb_trans (x y z : float) : ltb x y = true -> ltb y z = true -> ltb x z = true.
Proof. rewrite !FloatAxioms.ltb_spec. apply SFltb_trans. Qed.

Lemma ltb_irrefl (x : float) : ltb x x = false.
Proof. rewrite FloatAxioms.ltb_spec. apply SFltb_irrefl. Qed.

(** A NaN is neither less nor greater than anything. *)
Lemma ltb_not_nan (x y : float) :
  ltb x y = true -> is_nan x = false /\ is_nan y = false.
Proof.
  intros H. unfold is_nan. rewrite !FloatAxioms.eqb_spec. rewrite FloatAxioms.ltb_spec in H.
  split; apply negb_false_iff.
  - destruct (SFeqb (Prim2SF x) (Prim2SF x)) eqn:E; [reflexivity|].
    destruct (SFcompare_refl _ E (Prim2SF y)) as [H1 _]. congruence.
  - destruct (SFeqb (Prim2SF y) (Prim2SF y)) eqn:E; [reflexivity|].
    destruct (SFcompare_refl _ E (Prim2SF x)) as [_ H1]. congruence.
Qed.

(** ** The running minimum and maximum *)

Section Coordinate.

Variable g : Point -> float.

Lemma running_min_below points : forall start x,
  ltb x start = false -> ltb x (running_min g points start) = false.
Proof.
  induction points as [|p rest IH]; intros start x H; [exact H|].
  cbn [running_min fold_left]. apply IH.
  destruct (ltb (g p) start) eqn:E; [|exact H].
  destruct (ltb x (g p)) eqn:E1; [|reflexivity].
  rewrite (ltb_trans _ _ _ E1 E) in H. discriminate.
Qed.

Lemma running_min_in points : forall start p,
  In p points -> ltb (g p) (running_min g points start) = false.
Proof.
  induction points as [|q rest IH]; intros start p Hin; [contradiction|].
  cbn [running_min fold_left]. destruct Hin as [-> | Hin].
  - apply running_min_below.
    destruct (ltb (g p) start) eqn:E; [apply ltb_irrefl | exact E].
  - apply IH. exact Hin.
Qed.

Lemma running_min_value points : forall start,
  is_nan start = false ->
  is_nan (running_min g points start) = false
  /\ (running_min g points start = start
      \/ exists p, In p points /\ running_min g points start = g p).
Proof.
  induction points as [|q rest IH]; intros start Hnan; [split; [exact Hnan | now left]|].
  cbn [running_min fold_left].
  destruct (ltb (g q) start) eqn:E.
  - destruct (IH (g q) (proj1 (ltb_not_nan _ _ E))) as [Hn [Hv | (p & Hp & Hv)]].
    + split; [exact Hn|]. right. exists q. split; [now left | exact Hv].
    + split; [exact Hn|]. right. exists p. split; [now right | exact Hv].
  - destruct (IH start Hnan) as [Hn [Hv | (p & Hp & Hv)]].
    + split; [exact Hn | now left].
    + split; [exact Hn|]. right. exists p. split; [now right | exact Hv].
Qed.

Lemma running_max_above points : forall start x,
  ltb start x = false -> ltb (running_max g points start) x = false.
Proof.
  induction points as [|p rest IH]; intros start x H; [exact H|].
  cbn [running_max fold_left]. apply IH.
  destruct (ltb start (g p)) eqn:E; [|exact H].
  destruct (ltb (g p) x) eqn:E1; [|reflexivity].
  rewrite (ltb_trans _ _ _ E E1) in H. discriminate.
Qed.

Lemma running_max_in points : forall start p,
  In p points -> ltb (running_max g points start) (g p) = false.
Proof.
  induction points as [|q rest IH]; intros start p Hin; [contradiction|].
  cbn [running_max fold_left]. destruct Hin as [-> | Hin].
  - apply running_max_above.
    destruct (ltb start (g p)) eqn:E; [apply ltb_irrefl | exact E].
  - apply IH. exact Hin.
Qed.

Lemma running_max_value points : forall start,
  is_nan start = false ->
  is_nan (running_max g points start) = false
  /\ (running_max g points start = start
      \/ exists p, In p points /\ running_max g points start = g p).
Proof.
  induction points as [|q rest IH]; intros start Hnan; [split; [exact Hnan | now left]|].
  cbn [running_max fold_left].
  destruct (ltb start (g q)) eqn:E.
  - destruct (IH (g q) (proj2 (ltb_not_nan _ _ E))) as [Hn [Hv | (p & Hp & Hv)]].
    + split; [exact Hn|]. right. exists q. split; [now left | exact Hv].
    + split; [exact Hn|]. right. exists p. split; [now right | exact Hv].
  - destruct (IH start Hnan) as [Hn [Hv | (p & Hp & Hv)]].
    + split; [exact Hn | now left].
    + split; [exact Hn|]. right. exists p. split; [now right | exact Hv].
Qed.

End Coordinate.

(** [UpdateMinMax], point after point, works on each coordinate by itself. *)
Lemma bounds_from_coordinates points : forall mm,
  bounds_from mm points
  = (mkPoint (running_min px points (px (fst mm)))
             (running_min py points (py (fst mm)))
             (running_min pz points (pz (fst mm))),
     mkPoint (running_max px points (px (snd mm)))
             (running_max py points (py (snd mm)))
             (running_max pz points (pz (snd mm)))).
Proof.
  induction points as [|p rest IH]; intros [[a b c] [d e f]]; [reflexivity|].
  change (bounds_from (mkPoint a b c, mkPoint d e f) (p :: rest))
    with (bounds_from (UpdateMinMax p (mkPoint a b c) (mkPoint d e f)) rest).
  rewrite IH. reflexivity.
Qed.

(** X18.  The bounds that the conversion accumulates with [UpdateMinMax],
    from (DBL_MAX, -DBL_MAX) on: no point of the model has a coordinate
    less than that of the minimum or greater than that of the maximum (by
    the [<] of doubles, so a NaN coordinate is within any bounds); each
    coordinate of the minimum is DBL_MAX or that coordinate of some point
    of the model, each coordinate of the maximum is -DBL_MAX or that
    coordinate of some point; and no coordinate of the bounds is a NaN,
    whatever the points are. *)
Theorem bounds_enclose (points : list Point) :
  (forall p, In p points -> inside p (bounds points) = true)
  /\ (forall proj, In proj [px; py; pz] ->
      is_nan (proj (fst (bounds points))) = false
      /\ is_nan (proj (snd (bounds points))) = false
      /\ (proj (fst (bounds points)) = DBL_MAX
          \/ exists p, In p points /\ proj (fst (bounds points)) = proj p)
      /\ (proj (snd (bounds points)) = (- DBL_MAX)%float
          \/ exists p, In p points /\ proj (snd (bounds points)) = proj p)).
Proof.
  unfold bounds. rewrite bounds_from_coordinates. cbn [initial_bounds fst snd px py pz].
  split.
  - intros p Hin. unfold inside. cbn [fst snd px py pz].
    rewrite !running_min_in, !running_max_in by exact Hin. reflexivity.
  - intros proj [<- | [<- | [<- | []]]]; cbn [px py pz];
      (split; [apply running_min_value; reflexivity|]);
      (split; [apply running_max_value; reflexivity|]);
      (split; [apply running_min_value | apply running_max_value]); reflexivity.
Qed.

Lemma bounds_enclose_witness :
  inside (mkPoint 1 0 0) (bounds Samples.unit_triangle) = true
  /\ is_nan (px (fst (bounds Samples.unit_triangle))) = false.
Proof.
  destruct (bounds_enclose Samples.unit_triangle) as [Hin Hval].
  split.
  - apply Hin. right. left. reflexivity.
  - apply (Hval px). left. reflexivity.
Defined.

End BoundsProps.

(* ================================================================== *)
(** * What a conversion can do, whatever the input and the device *)

Module SafetyProps.
Import SimpleFile Tokenizer Reader Writer Driver.

(** ** The writer throws its write error only *)

Lemma bind_write_outcome {A B : Type} (m : result A) (k : A -> result B) :
  write_outcome m -> (forall a, write_outcome (k a)) -> write_outcome (bind m k).
Proof. destruct m; cbn; auto. Qed.

Lemma Printf_or_throw_outcome f fmt args : write_outcome (Printf_or_throw f fmt args).
Proof.
  unfold Printf_or_throw, Printf.
  destruct (o_quota f) as [[|k]|]; cbn; auto.
Qed.

Ltac write_step :=
  first [ apply Printf_or_throw_outcome
        | apply bind_write_outcome; [|intros ?]
        | match goal with |- write_outcome (if ?b then _ else _) => destruct b end
        | exact I ].

Lemma coord_list_loop_outcome points : forall k size f,
  write_outcome (coord_list_loop points k size f).
Proof.
  induction points as [|p rest IH]; intros k size f; [exact I|].
  cbn [coord_list_loop]. repeat write_step. apply IH.
Qed.

Lemma coord_index_loop_outcome turns : forall trndx numTriangles f,
  write_outcome (coord_index_loop turns trndx numTriangles f).
Proof.
  induction turns as [|k IH]; intros trndx numTriangles f; [exact I|].
  cbn [coord_index_loop]. repeat write_step. apply IH.
Qed.

Section Calls.

Variable NDEBUG : bool.
Variable atof : string -> float.

Lemma WriteFacetsToWrl_outcome points f :
  (List.length points mod 3 = 0)%nat ->
  write_outcome (WriteFacetsToWrl NDEBUG points f).
Proof.
  intros Hmod. unfold WriteFacetsToWrl, assert.
  rewrite Hmod. cbn [Nat.eqb]. rewrite orb_true_r. cbn [bind].
  destruct (List.length points / 3 <? 1)%nat; [exact I|].
  repeat write_step.
  - apply coord_list_loop_outcome.
  - apply coord_index_loop_outcome.
Qed.

(** A feed call of one triangle keeps the batch in whole triangles, and
    fails only by the write error, when the device refuses a write. *)
Lemma WriteFacetToWrl_safe w coords :
  whole_triangles w -> List.length coords = 3%nat ->
  match WriteFacetToWrl NDEBUG w coords with
  | Ok w' => whole_triangles w'
             /\ (o_quota (w_file w) = None -> o_quota (w_file w') = None)
  | Throw e => e = writeError /\ o_quota (w_file w) <> None
  | AssertFailed | Hang => False
  end.
Proof.
  intros Hw Hc.
  pose proof (WriterProps.WriteFacetToWrl_triangle NDEBUG w coords Hw Hc) as Htri.
  assert (Hout : write_outcome (WriteFacetToWrl NDEBUG w coords)).
  { unfold WriteFacetToWrl.
    destruct (maxPointsPerFaceSet <=? _)%nat; [|exact I].
    apply bind_write_outcome; [|intros ?; exact I].
    apply WriteFacetsToWrl_outcome.
    destruct Hw as [Hmod _]. unfold pending in Hmod.
    rewrite length_app, Hc, <- Nat.Div0.add_mod_idemp_l, Hmod. reflexivity. }
  destruct (WriteFacetToWrl NDEBUG w coords); cbn in Hout; auto.
Qed.

Lemma WriteEndOfWrl_safe w emin emax :
  whole_triangles w ->
  match WriteEndOfWrl NDEBUG w emin emax with
  | Ok _ => True
  | Throw e => e = writeError /\ o_quota (w_file w) <> None
  | AssertFailed | Hang => False
  end.
Proof.
  intros Hw.
  assert (Hout : write_outcome (WriteEndOfWrl NDEBUG w emin emax)).
  { unfold WriteEndOfWrl. apply bind_write_outcome.
    - destruct (m_triangles w) eqn:Em; [exact I|]. rewrite <- Em.
      apply WriteFacetsToWrl_outcome. apply Hw.
    - intros f1. repeat write_step. }
  destruct (WriteEndOfWrl NDEBUG w emin emax) eqn:E; cbn in Hout; auto.
  split; [exact Hout|]. intros Hq.
  destruct (DriverProps.WriteEndOfWrl_counts NDEBUG w emin emax Hq Hw) as (w' & E' & _).
  congruence.
Qed.

(** ** The reader throws format errors only *)

Lemma ReadHeaderFromStl_safe r :
  match ReadHeaderFromStl r with
  | Throw e => is_format_error (@Throw unit e) = true
  | AssertFailed => False
  | _ => True
  end.
Proof.
  unfold ReadHeaderFromStl. cbn [Seek].
  destruct (IsBinaryStl _) as [isBinary f1]. destruct isBinary.
  - unfold ReadHeaderFromBinaryStl. cbn [Seek negb]. unfold Read.
    destruct (negb (_ =? _)%nat); [reflexivity|].
    destruct (_ <? 1)%Z; [reflexivity | exact I].
  - pose proof (ReaderProps.ReadHeaderFromAsciiStl_outcome f1) as Hout.
    destruct (ReadHeaderFromAsciiStl f1); cbn [bind]; auto.
    destruct Hout as [msg ->]. reflexivity.
Qed.

Lemma ReadFacetFromStl_safe r :
  match ReadFacetFromStl atof r with
  | Ok (more, coords, _) => more = true -> List.length coords = 3%nat
  | Throw e => is_format_error (@Throw unit e) = true
  | AssertFailed => False
  | Hang => True
  end.
Proof.
  pose proof (ConversionProps.ReadFacetFromStl_three atof r) as Hthree.
  unfold ReadFacetFromStl in *. destruct (m_isBinaryStl r).
  - unfold ReadFacetFromBinaryStl, Read in *.
    destruct (m_curFacet r >=? m_numFacets r)%Z; [discriminate|].
    destruct (negb (_ =? _)%nat); [reflexivity|].
    destruct (negb (_ =? _)%Z); [reflexivity|]. reflexivity.
  - pose proof (FacetProps.ReadFacetFromAsciiStl_outcome atof (m_file r)) as Hout.
    destruct (ReadFacetFromAsciiStl atof (m_file r)) as [[[more cs] f1]| | |];
      cbn [bind]; auto.
    intros ->. apply Hout.
Qed.

(** ** The loop and the conversion *)

Lemma convert_loop_safe fuel : forall c,
  whole_triangles (c_writer c) ->
  match convert_loop NDEBUG atof fuel c with
  | Some (Ok c') =>
      whole_triangles (c_writer c')
      /\ (o_quota (w_file (c_writer c)) = None -> o_quota (w_file (c_writer c')) = None)
  | Some (Throw (WriteError msg)) =>
      WriteError msg = writeError /\ o_quota (w_file (c_writer c)) <> None
  | Some AssertFailed => False
  | _ => True
  end.
Proof.
  induction fuel as [|k IH]; intros c Hw; [exact I|].
  cbn [convert_loop].
  pose proof (ReadFacetFromStl_safe (c_reader c)) as Hread.
  destruct (ReadFacetFromStl atof (c_reader c)) as [[[more coords] r1]|e| |];
    [| destruct e; [exact I | discriminate Hread] | exact Hread | exact I].
  destruct more; cbn [negb]; [|cbn [c_writer]; auto].
  pose proof (WriteFacetToWrl_safe (c_writer c) coords Hw (Hread eq_refl)) as Hfeed.
  destruct (WriteFacetToWrl NDEBUG (c_writer c) coords) as [w1|e| |];
    [| destruct Hfeed as [-> Hq]; split; [reflexivity | exact Hq] | destruct Hfeed | destruct Hfeed].
  destruct Hfeed as [Hw1 Hq1].
  destruct (fold_left _ coords _) as [emin1 emax1].
  specialize (IH (mkConversion r1 w1 emin1 emax1 (S (numFacetsProcessed c))) Hw1).
  cbn [c_writer] in IH.
  destruct (convert_loop NDEBUG atof k _) as [[c'|e| |]|]; auto.
  - destruct IH as [Hw' Hq']. auto.
  - destruct e; [exact I|]. destruct IH as [He Hq]. split; [exact He|].
    intros H0. apply Hq, Hq1, H0.
Qed.

Lemma ConvertStlToWrl_safe inFile outFile :
  match ConvertStlToWrl NDEBUG atof inFile outFile with
  | Throw (WriteError msg) => WriteError msg = writeError /\ o_quota outFile <> None
  | AssertFailed => False
  | _ => True
  end.
Proof.
  unfold ConvertStlToWrl.
  pose proof (ReadHeaderFromStl_safe (new_reader inFile)) as Hheader.
  destruct (ReadHeaderFromStl (new_reader inFile)) as [r|e| |]; cbn [bind];
    [| destruct e; [exact I | discriminate Hheader] | exact Hheader | exact I].
  unfold WriteStartOfWrl, Printf_or_throw, Printf. cbn [new_writer w_file m_triangles].
  destruct (o_quota outFile) as [[|q]|] eqn:Hq; cbn [bind].
  - split; [reflexivity | discriminate].
  - set (w1 := mkWriter _ []).
    assert (Hw1 : whole_triangles w1)
      by (unfold whole_triangles, pending, maxPointsPerFaceSet; cbn; split;
          [reflexivity | lia]).
    pose proof (convert_loop_safe (S (List.length (f_data inFile)))
                  (mkConversion r w1 (mkPoint DBL_MAX DBL_MAX DBL_MAX)
                     (mkPoint (- DBL_MAX) (- DBL_MAX) (- DBL_MAX)) 0) Hw1) as Hloop.
    destruct (convert_loop NDEBUG atof _ _) as [[c|e| |]|]; cbn [bind]; auto.
    + destruct Hloop as [Hw _].
      pose proof (WriteEndOfWrl_safe (c_writer c) (c_emin c) (c_emax c) Hw) as Hend.
      destruct (WriteEndOfWrl NDEBUG (c_writer c) (c_emin c) (c_emax c)) as [w3|e| |];
        cbn [bind]; auto.
      destruct Hend as [-> _]. split; [reflexivity | discriminate].
    + destruct e; [exact I|]. destruct Hloop as [He _]. split; [exact He | discriminate].
  - set (w1 := mkWriter _ []).
    assert (Hw1 : whole_triangles w1)
      by (unfold whole_triangles, pending, maxPointsPerFaceSet; cbn; split;
          [reflexivity | lia]).
    pose proof (convert_loop_safe (S (List.length (f_data inFile)))
                  (mkConversion r w1 (mkPoint DBL_MAX DBL_MAX DBL_MAX)
                     (mkPoint (- DBL_MAX) (- DBL_MAX) (- DBL_MAX)) 0) Hw1) as Hloop.
    cbn [c_writer w1 w_file o_quota] in Hloop.
    destruct (convert_loop NDEBUG atof _ _) as [[c|e| |]|]; cbn [bind]; auto.
    + destruct Hloop as [Hw Hq'].
      pose proof (WriteEndOfWrl_safe (c_writer c) (c_emin c) (c_emax c) Hw) as Hend.
      destruct (WriteEndOfWrl NDEBUG (c_writer c) (c_emin c) (c_emax c)) as [w3|e| |];
        cbn [bind]; auto.
      destruct Hend as [_ Hne]. exfalso. apply Hne, Hq'. reflexivity.
Qed.

Lemma ReadFacetFromStl_false_points r coords r' :
  ReadFacetFromStl atof r = Ok (false, coords, r') -> coords = [].
Proof.
  unfold ReadFacetFromStl. destruct (m_isBinaryStl r).
  - unfold ReadFacetFromBinaryStl, Read.
    destruct (m_curFacet r >=? m_numFacets r)%Z; [now intros [= <- _]|].
    destruct (negb (_ =? _)%nat); [discriminate|].
    destruct (negb (_ =? _)%Z); discriminate.
  - destruct (ReadFacetFromAsciiStl atof (m_file r)) as [[[more cs] f1]| | |] eqn:E;
      cbn [bind]; try discriminate.
    intros [= -> <- _]. exact (FacetProps.ReadFacetFromAsciiStl_false_points _ _ _ _ E).
Qed.

(** A loop that has returned has read some facets and fed them to the
    writer. *)
Lemma convert_loop_reads fuel : forall c c',
  convert_loop NDEBUG atof fuel c = Some (Ok c') ->
  exists facets,
    reads_facets atof (c_reader c) facets (c_reader c')
    /\ feed_all NDEBUG (c_writer c) facets = Ok (c_writer c').
Proof.
  induction fuel as [|k IH]; intros c c' H; [discriminate|].
  cbn [convert_loop] in H.
  destruct (ReadFacetFromStl atof (c_reader c)) as [[[more coords] r1]| | |] eqn:Eread;
    try discriminate.
  destruct more; cbn [negb] in H.
  - destruct (WriteFacetToWrl NDEBUG (c_writer c) coords) as [w1| | |] eqn:Efeed;
      try discriminate.
    destruct (fold_left _ coords _) as [emin1 emax1].
    apply IH in H. cbn [c_reader c_writer] in H. destruct H as (facets & Hreads & Hfeed).
    exists (coords :: facets). split.
    + eapply reads_facet; [exact Eread | exact Hreads].
    + cbn [feed_all]. rewrite Efeed. exact Hfeed.
  - injection H as <-. cbn [c_reader c_writer].
    exists []. split; [|reflexivity].
    apply reads_end. now rewrite (ReadFacetFromStl_false_points _ _ _ Eread) in Eread.
Qed.

Lemma successful_conversion_reads inFile outFile out n :
  ConvertStlToWrl NDEBUG atof inFile outFile = Ok (out, n) ->
  exists r facets r_end,
    ReadHeaderFromStl (new_reader inFile) = Ok r
    /\ reads_facets atof r facets r_end.
Proof.
  unfold ConvertStlToWrl. intros H.
  destruct (ReadHeaderFromStl (new_reader inFile)) as [r| | |]; cbn [bind] in H;
    try discriminate.
  destruct (WriteStartOfWrl (new_writer outFile)) as [w1| | |]; cbn [bind] in H;
    try discriminate.
  destruct (convert_loop NDEBUG atof _ _) as [[c| | |]|] eqn:Eloop; cbn [bind] in H;
    try discriminate.
  apply convert_loop_reads in Eloop. cbn [c_reader] in Eloop.
  destruct Eloop as (facets & Hreads & _).
  exists r, facets, (c_reader c). split; [reflexivity | exact Hreads].
Qed.

End Calls.

(** X19.  What [ConvertStlToWrl] can do, for any input file, any output
    device, any [atof], with assertions or without.  No assertion ever
    fails: the reader hands over three points per facet, so the batch of
    the writer always holds whole triangles.  The only exceptions are the
    format errors of the reader and the write error of the writer, and the
    write error occurs only when the device has refused a write.  When the
    conversion returns on a device that takes the writes, whatever the
    input was, the text added to the output is the VRML text of as many
    triangles as facets were processed: the header, one Shape node per
    batch of 1000 triangles, and the end nodes. *)
Theorem ConvertStlToWrl_outcome (NDEBUG : bool) (atof : string -> float)
    (render_G render_15G : float -> string) (inFile : File) (outFile : OutFile) :
  match ConvertStlToWrl NDEBUG atof inFile outFile with
  | Ok (out, n) =>
      o_quota outFile = None ->
      exists facets,
        List.length facets = n
        /\ Forall (fun coords => List.length coords = 3%nat) facets
        /\ file_text render_G render_15G out
           = (file_text render_G render_15G outFile
              ++ conversion_text render_G render_15G facets)%string
  | Throw (FormatError _) => True
  | Throw (WriteError msg) => msg = "Failed writing to file."%string /\ o_quota outFile <> None
  | AssertFailed => False
  | Hang => True
  end.
Proof.
  pose proof (ConvertStlToWrl_safe NDEBUG atof inFile outFile) as Hsafe.
  destruct (ConvertStlToWrl NDEBUG atof inFile outFile) as [[out n]|e| |] eqn:E.
  - intros Hq.
    destruct (successful_conversion_reads NDEBUG atof _ _ _ _ E)
      as (r & facets & r_end & Hheader & Hreads).
    destruct (ConversionProps.ConvertStlToWrl_text NDEBUG atof render_G render_15G
                inFile outFile r facets r_end Hheader Hreads Hq) as (out' & E' & T).
    rewrite E in E'. injection E' as <- ->.
    exists facets. split; [reflexivity|]. split; [|exact T].
    exact (ConversionProps.reads_facets_triangles atof _ _ _ Hreads).
  - destruct e; [exact I|]. destruct Hsafe as [He Hq]. split; [|exact Hq].
    now injection He.
  - exact Hsafe.
  - exact I.
Qed.

End SafetyProps.

(* ================================================================== *)
(** * Properties of the program entry point *)

Module MainProps.
Import SimpleFile Reader Writer Driver Main.

Lemma reaches_Close_of_Ok NDEBUG atof inFile outFile out n :
  ConvertStlToWrl NDEBUG atof inFile outFile = Ok (out, n) ->
  reaches_Close NDEBUG atof inFile outFile = true.
Proof.
  unfold ConvertStlToWrl, reaches_Close.
  destruct (ReadHeaderFromStl (new_reader inFile)) as [r| | |]; cbn [bind];
    try discriminate.
  destruct (WriteStartOfWrl (new_writer outFile)) as [w1| | |]; cbn [bind];
    try discriminate.
  destruct (convert_loop NDEBUG atof _ _) as [[c| | |]|]; cbn [bind]; try discriminate.
  reflexivity.
Qed.

(** X20.  [wmain] returns EXIT_SUCCESS exactly when it is given two file
    names, the input file opens, the output file is created, and
    [ConvertStlToWrl] returns.  The run has then printed four lines, the
    last one "stl2vrml:  Done.", the output file is as the conversion left
    it, and [fclose] has been called three times on the stream of the input
    file: by [reader.Close()], which leaves [m_file] set, by the destructor
    of the copy of the [File] object that the reader holds by value, and by
    the destructor of [inFile]; it has been called once on the stream of
    the output file. *)
Theorem wmain_succeeds_iff (NDEBUG : bool) (atof : string -> float)
    (fs : FileSystem) (argv : list string) :
  exit_code (wmain NDEBUG atof fs argv) = Some EXIT_SUCCESS
  <-> exists data quota f n,
        List.length argv = 3%nat
        /\ fs_open fs (nth 1 argv "") = Some data
        /\ fs_create fs (nth 2 argv "") = Some quota
        /\ ConvertStlToWrl NDEBUG atof (open_file data) (create_file quota) = Ok (f, n)
        /\ wmain NDEBUG atof fs argv
           = Returned EXIT_SUCCESS
               [("Opening " ++ nth 1 argv "" ++ " for reading." ++ LFs)%string;
                ("stl2vrml:  Opening " ++ nth 2 argv "" ++ " for writing." ++ LFs)%string;
                ("stl2vrml:  Processing." ++ LFs)%string;
                ("stl2vrml:  Done." ++ LFs)%string]
               (Written f) 3 1.
Proof.
  split.
  - unfold wmain.
    destruct (List.length argv =? 3)%nat eqn:Eargc; cbn [negb]; [|discriminate].
    apply Nat.eqb_eq in Eargc.
    destruct (fs_open fs (nth 1 argv "")) as [data|] eqn:Eopen; [|discriminate].
    destruct (fs_create fs (nth 2 argv "")) as [quota|] eqn:Ecreate; [|discriminate].
    destruct (ConvertStlToWrl NDEBUG atof (open_file data) (create_file quota))
      as [[f n]|e| |] eqn:Econv; try discriminate.
    + intros _. exists data, quota, f, n. repeat split; try assumption.
      now rewrite (reaches_Close_of_Ok _ _ _ _ _ _ Econv).
    + destruct e; discriminate.
  - intros (data & quota & f & n & _ & _ & _ & _ & ->). reflexivity.
Qed.

(** X21.  Without exactly two file names, or when the input file does not
    open, [wmain] returns EXIT_FAILURE and the output file is not touched:
    its creation is not attempted, so the run is the same whatever the
    answer to a creation would have been, and a file of that name that
    exists is left as it is. *)
Theorem wmain_no_output_without_input (NDEBUG : bool) (atof : string -> float)
    (fs : FileSystem) (argv : list string) :
  List.length argv <> 3%nat \/ fs_open fs (nth 1 argv "") = None ->
  exit_code (wmain NDEBUG atof fs argv) = Some EXIT_FAILURE
  /\ output_of (wmain NDEBUG atof fs argv) = Some NotCreated
  /\ forall create,
       wmain NDEBUG atof (mkFs (fs_open fs) create) argv = wmain NDEBUG atof fs argv.
Proof.
  intros H. unfold wmain. cbn [fs_open fs_create].
  destruct (List.length argv =? 3)%nat eqn:Eargc; cbn [negb].
  - apply Nat.eqb_eq in Eargc. destruct H as [H | H]; [contradiction|].
    rewrite H. repeat split.
  - repeat split.
Qed.

Lemma wmain_no_output_without_input_witness :
  exit_code (wmain false Samples.atof_decimal Samples.one_file_fs
               ["stl2vrml"; "missing.stl"; "out.wrl"]) = Some EXIT_FAILURE
  /\ output_of (wmain false Samples.atof_decimal Samples.one_file_fs
                  ["stl2vrml"; "missing.stl"; "out.wrl"]) = Some NotCreated.
Proof.
  destruct (wmain_no_output_without_input false Samples.atof_decimal Samples.one_file_fs
              ["stl2vrml"; "missing.stl"; "out.wrl"]) as (Hcode & Hout & _).
  - right. reflexivity.
  - split; [exact Hcode | exact Hout].
Defined.

(** The facts of a run that has returned, read off its value. *)
Ltac returned_facts Hi :=
  split; [discriminate|];
  intros code stdout out i o [= <- <- <- <- <-];
  repeat split; auto; try discriminate; try lia; try (cbn; lia);
  try (intros [? ?]; discriminate);
  try (rewrite ?last_last; cbn; discriminate);
  try (intros ?; congruence);
  try (apply (proj2 (Hi _)));
  try (intros _; apply (proj1 (Hi _)));
  eauto.

(** X22.  Every run of [wmain], for any arguments, file system, [atof]
    and build.  No assertion aborts the program.  When [wmain] returns, the
    exit code is EXIT_SUCCESS or EXIT_FAILURE, and it is EXIT_SUCCESS
    exactly when the output file is as a conversion that returned has left
    it; the output file has not been created exactly when no [fclose] was
    called for it, and its stream is closed at most once.  The stream of
    the input file is closed at most three times, and at least twice
    whenever the output file was created: the reader's copy of the [File]
    object and [inFile] itself both close it.  The last line is
    "stl2vrml:  Aborted due to exception!", the report of the [catch(...)],
    only when the output device takes a limited number of writes: the
    message of the write error itself is caught by no handler that prints
    it. *)
Theorem wmain_outcome (NDEBUG : bool) (atof : string -> float)
    (fs : FileSystem) (argv : list string) :
  wmain NDEBUG atof fs argv <> AssertAbort
  /\ forall code stdout out i o,
       wmain NDEBUG atof fs argv = Returned code stdout out i o ->
       (code = EXIT_SUCCESS \/ code = EXIT_FAILURE)
       /\ (code = EXIT_SUCCESS <-> exists f, out = Written f)
       /\ (out = NotCreated <-> o = 0%nat)
       /\ (i <= 3)%nat /\ (o <= 1)%nat
       /\ (out <> NotCreated -> (2 <= i)%nat)
       /\ (List.last stdout "" = aborted_line ->
           exists k, fs_create fs (nth 2 argv "") = Some (Some k)).
Proof.
  unfold wmain.
  assert (Hi : forall b : bool,
            (2 <= h_fcloses (destroy (destroy (if b then Close opened else opened))) <= 3)%nat)
    by (intros [|]; cbn; lia).
  destruct (List.length argv =? 3)%nat; cbn [negb]; [|returned_facts Hi].
  destruct (fs_open fs (nth 1 argv "")) as [data|]; [|returned_facts Hi].
  destruct (fs_create fs (nth 2 argv "")) as [quota|]; [|returned_facts Hi].
  pose proof (SafetyProps.ConvertStlToWrl_safe NDEBUG atof (open_file data)
                (create_file quota)) as Hsafe.
  destruct (ConvertStlToWrl NDEBUG atof (open_file data) (create_file quota))
    as [[f n]|e| |].
  - returned_facts Hi.
  - destruct e as [text | msg]; [returned_facts Hi|].
    destruct Hsafe as [_ Hq]. cbn [create_file o_quota] in Hq.
    split; [discriminate|]. intros code stdout out i o [= <- <- <- <- <-].
    repeat split; auto; try discriminate; try (cbn; lia);
      try (apply (proj2 (Hi _))); try (intros _; apply (proj1 (Hi _)));
      try (intros [f Hf]; discriminate).
    intros _. destruct quota as [k|]; [eauto | contradiction].
  - destruct Hsafe.
  - split; discriminate.
Qed.

End MainProps.

(* ================================================================== *)
(** * Termination of the conversion *)

Module TerminationProps.
Import SimpleFile Tokenizer Reader Writer Driver.

Lemma ReadLine_hang f : ReadLine f true = Hang -> blank_CR_tail (f_data f).
Proof.
  unfold ReadLine. intros H. exists (f_pos f). fold (remaining f).
  destruct (remaining f) as [|b rest]; [discriminate H|].
  cbn [read_line_loop andb is_empty] in H.
  destruct (ascii_of_byte b =? LF)%char eqn:Elf; [discriminate H|].
  destruct (ascii_of_byte b =? CR)%char eqn:Ecr.
  - apply FileProps.is_CR_byte in Ecr. subst b. exists rest. split; [reflexivity|].
    apply (FileProps.loop_on_blank_hangs_iff rest 1 0).
    destruct (read_line_loop true rest "" true 1 0); [discriminate H | reflexivity].
  - exfalso.
    pose proof (FileProps.loop_with_text_returns rest true
                  (String (ascii_of_byte b) "") true 1 0 eq_refl) as Hn.
    cbn [append] in H.
    destruct (read_line_loop true rest _ true 1 0); [discriminate H | contradiction].
Qed.

Section Hangs.

Variable NDEBUG : bool.
Variable atof : string -> float.

Lemma ReadVertexFromAsciiStl_hang f :
  ReadVertexFromAsciiStl atof f = Hang -> blank_CR_tail (f_data f).
Proof.
  unfold ReadVertexFromAsciiStl.
  destruct (ReadLine f true) as [[[more text] f1]| | |] eqn:E; cbn [bind]; try discriminate.
  - destruct (negb more); [discriminate|].
    destruct (_ <? _)%nat; [discriminate|].
    destruct (negb _); [discriminate|].
    destruct (bad_conversion _ _); discriminate.
  - intros _. exact (ReadLine_hang f E).
Qed.

Lemma read_vertices_hang n : forall f coords,
  read_vertices atof n f coords = Hang -> blank_CR_tail (f_data f).
Proof.
  induction n as [|k IH]; intros f coords; [discriminate|].
  cbn [read_vertices].
  destruct (ReadVertexFromAsciiStl atof f) as [[point f1]| | |] eqn:E; cbn [bind];
    try discriminate.
  - intros H. apply IH in H.
    now rewrite (proj1 (DriverProps.ReadVertexFromAsciiStl_left atof _ _ _ E)) in H.
  - intros _. exact (ReadVertexFromAsciiStl_hang f E).
Qed.

Lemma ReadFacetFromAsciiStl_hang f :
  ReadFacetFromAsciiStl atof f = Hang -> blank_CR_tail (f_data f).
Proof.
  unfold ReadFacetFromAsciiStl.
  destruct (ReadLine f true) as [[[more text] f1]| | |] eqn:E1; cbn [bind];
    try discriminate; [|intros _; exact (ReadLine_hang f E1)].
  pose proof (DriverProps.ReadLine_left _ _ _ _ _ E1) as (D1 & _).
  destruct (negb more); [discriminate|].
  destruct (StringFields text) as [|t ts]; [discriminate|].
  destruct (_ || _); [discriminate|].
  destruct (field (t :: ts) 0 =? "facet")%string; [|discriminate].
  destruct (ReadLine f1 true) as [[[more2 text2] f2]| | |] eqn:E2; cbn [bind];
    try discriminate; [|intros _; rewrite <- D1; exact (ReadLine_hang f1 E2)].
  pose proof (DriverProps.ReadLine_left _ _ _ _ _ E2) as (D2 & _).
  destruct (negb more2); [discriminate|].
  destruct (negb (starts_with_keyword (StringFields text2) _ _ _)); [discriminate|].
  destruct (read_vertices atof 3 f2 []) as [[cs f3]| | |] eqn:E3; cbn [bind];
    try discriminate;
    [|intros _; rewrite <- D1, <- D2; exact (read_vertices_hang 3 f2 [] E3)].
  pose proof (DriverProps.read_vertices_left atof _ _ _ _ _ E3) as (D3 & _).
  destruct (ReadLine f3 true) as [[[more4 text4] f4]| | |] eqn:E4; cbn [bind];
    try discriminate;
    [|intros _; rewrite <- D1, <- D2, <- D3; exact (ReadLine_hang f3 E4)].
  pose proof (DriverProps.ReadLine_left _ _ _ _ _ E4) as (D4 & _).
  destruct (negb more4); [discriminate|].
  destruct (negb (starts_with_keyword (StringFields text4) _ _ _)); [discriminate|].
  destruct (ReadLine f4 true) as [[[more5 text5] f5]| | |] eqn:E5; cbn [bind];
    try discriminate;
    [|intros _; rewrite <- D1, <- D2, <- D3, <- D4; exact (ReadLine_hang f4 E5)].
  destruct (negb more5); [discriminate|].
  destruct (negb (starts_with_keyword (StringFields text5) _ _ _)); discriminate.
Qed.

Lemma ReadFacetFromStl_hang r :
  ReadFacetFromStl atof r = Hang ->
  m_isBinaryStl r = false /\ blank_CR_tail (f_data (m_file r)).
Proof.
  unfold ReadFacetFromStl. destruct (m_isBinaryStl r).
  - unfold ReadFacetFromBinaryStl, Read.
    destruct (m_curFacet r >=? m_numFacets r)%Z; [discriminate|].
    destruct (negb (_ =? _)%nat); [discriminate|].
    destruct (negb (_ =? _)%Z); discriminate.
  - destruct (ReadFacetFromAsciiStl atof (m_file r)) as [[[more cs] f1]| | |] eqn:E;
      cbn [bind]; try discriminate.
    intros _. split; [reflexivity | exact (ReadFacetFromAsciiStl_hang _ E)].
Qed.

Lemma ReadFacetFromStl_keeps r more coords r' :
  ReadFacetFromStl atof r = Ok (more, coords, r') ->
  m_isBinaryStl r' = m_isBinaryStl r
  /\ (more = true -> f_data (m_file r') = f_data (m_file r)).
Proof.
  intros H. split.
  - unfold ReadFacetFromStl in H. destruct (m_isBinaryStl r) eqn:Emode.
    + unfold ReadFacetFromBinaryStl, Read in H.
      destruct (m_curFacet r >=? m_numFacets r)%Z; [now injection H as _ _ <-|].
      destruct (negb (_ =? _)%nat); [discriminate|].
      destruct (negb (_ =? _)%Z); [discriminate|]. now injection H as _ _ <-.
    + destruct (ReadFacetFromAsciiStl atof (m_file r)) as [[[more1 cs] f1]| | |];
        cbn [bind] in H; try discriminate.
      now injection H as _ _ <-.
  - intros ->. exact (proj1 (DriverProps.ReadFacetFromStl_left atof _ _ _ H)).
Qed.

Lemma convert_loop_hang fuel : forall c,
  whole_triangles (c_writer c) ->
  convert_loop NDEBUG atof fuel c = Some Hang ->
  m_isBinaryStl (c_reader c) = false /\ blank_CR_tail (f_data (m_file (c_reader c))).
Proof.
  induction fuel as [|k IH]; intros c Hw H; [discriminate|].
  cbn [convert_loop] in H.
  pose proof (SafetyProps.ReadFacetFromStl_safe atof (c_reader c)) as Hsafe.
  destruct (ReadFacetFromStl atof (c_reader c)) as [[[more coords] r1]| | |] eqn:Eread;
    try discriminate; [|exact (ReadFacetFromStl_hang _ Eread)].
  destruct more; cbn [negb] in H; [|discriminate].
  pose proof (ReadFacetFromStl_keeps _ _ _ _ Eread) as [Hmode Hdata].
  pose proof (SafetyProps.WriteFacetToWrl_safe NDEBUG (c_writer c) coords Hw (Hsafe eq_refl))
    as Hfeed.
  destruct (WriteFacetToWrl NDEBUG (c_writer c) coords) as [w1| | |];
    try discriminate; [|destruct Hfeed].
  destruct Hfeed as [Hw1 _].
  destruct (fold_left _ coords _) as [emin1 emax1].
  apply IH in H; [|exact Hw1]. cbn [c_reader] in H.
  now rewrite Hmode, (Hdata eq_refl) in H.
Qed.

Lemma ReadHeaderFromStl_mode r r' :
  ReadHeaderFromStl r = Ok r' ->
  m_isBinaryStl r' = fst (IsBinaryStl (open_file (f_data (m_file r)))).
Proof.
  unfold ReadHeaderFromStl. cbn [Seek].
  set (f0 := mkFile (f_data (m_file r)) 0 (m_lineCounter (m_file r))).
  pose proof (FacetProps.IsBinaryStl_same f0) as Hsame.
  destruct (IsBinaryStl f0) as [b f1].
  unfold f0 in Hsame. cbn [fst f_data] in Hsame. rewrite <- Hsame.
  destruct b.
  - destruct (ReadHeaderFromBinaryStl f1) as [[n f2]| | |]; cbn [bind]; try discriminate.
    now intros [= <-].
  - destruct (ReadHeaderFromAsciiStl f1); cbn [bind]; try discriminate.
    now intros [= <-].
Qed.

Lemma ReadHeaderFromStl_hang r :
  ReadHeaderFromStl r = Hang ->
  fst (IsBinaryStl (open_file (f_data (m_file r)))) = false
  /\ blank_CR_tail (f_data (m_file r)).
Proof.
  unfold ReadHeaderFromStl. cbn [Seek].
  set (f0 := mkFile (f_data (m_file r)) 0 (m_lineCounter (m_file r))).
  pose proof (FacetProps.IsBinaryStl_same f0) as Hsame.
  pose proof (DriverProps.IsBinaryStl_file f0) as Hfile.
  destruct (IsBinaryStl f0) as [b f1].
  unfold f0 in Hsame, Hfile. cbn [fst snd f_data] in Hsame, Hfile. rewrite <- Hsame.
  destruct b.
  - unfold ReadHeaderFromBinaryStl. cbn [Seek negb]. unfold Read.
    destruct (negb (_ =? _)%nat); [discriminate|].
    destruct (_ <? 1)%Z; discriminate.
  - pose proof (ReaderProps.ReadHeaderFromAsciiStl_outcome f1) as Hout.
    destruct (ReadHeaderFromAsciiStl f1); cbn [bind]; try discriminate.
    intros _. split; [reflexivity|].
    apply ReadLine_hang in Hout. cbn [Seek snd f_data] in Hout.
    now rewrite Hfile in Hout.
Qed.

Lemma ConvertStlToWrl_hang inFile outFile :
  ConvertStlToWrl NDEBUG atof inFile outFile = Hang ->
  fst (IsBinaryStl (open_file (f_data inFile))) = false
  /\ blank_CR_tail (f_data inFile).
Proof.
  unfold ConvertStlToWrl.
  destruct (ReadHeaderFromStl (new_reader inFile)) as [r| | |] eqn:Eheader; cbn [bind];
    try discriminate; [|intros _; exact (ReadHeaderFromStl_hang _ Eheader)].
  pose proof (ReadHeaderFromStl_mode _ _ Eheader) as Hmode.
  pose proof (DriverProps.ReadHeaderFromStl_data _ _ Eheader) as Hdata.
  cbn [new_reader m_file] in Hmode, Hdata.
  unfold WriteStartOfWrl, Printf_or_throw, Printf. cbn [new_writer w_file m_triangles].
  assert (Hloop : forall w1, m_triangles w1 = [] ->
            (match convert_loop NDEBUG atof (S (List.length (f_data inFile)))
                     (mkConversion r w1 (mkPoint DBL_MAX DBL_MAX DBL_MAX)
                        (mkPoint (- DBL_MAX) (- DBL_MAX) (- DBL_MAX)) 0) with
             | Some looped =>
                 c <- looped ;;
                 writer1 <- WriteEndOfWrl NDEBUG (c_writer c) (c_emin c) (c_emax c) ;;
                 Ok (w_file writer1, numFacetsProcessed c)
             | None => Hang
             end) = Hang ->
            fst (IsBinaryStl (open_file (f_data inFile))) = false
            /\ blank_CR_tail (f_data inFile)).
  { intros w1 Hm.
    assert (Hw1 : whole_triangles w1)
      by (unfold whole_triangles, pending, maxPointsPerFaceSet; rewrite Hm; cbn; split;
          [reflexivity | lia]).
    pose proof (DriverProps.ConvertStlToWrl_loop_ends NDEBUG atof inFile r w1
                  (mkPoint DBL_MAX DBL_MAX DBL_MAX)
                  (mkPoint (- DBL_MAX) (- DBL_MAX) (- DBL_MAX)) 0 Eheader) as Hends.
    pose proof (SafetyProps.convert_loop_safe NDEBUG atof (S (List.length (f_data inFile)))
                  (mkConversion r w1 (mkPoint DBL_MAX DBL_MAX DBL_MAX)
                     (mkPoint (- DBL_MAX) (- DBL_MAX) (- DBL_MAX)) 0) Hw1) as Hsafe.
    pose proof (convert_loop_hang (S (List.length (f_data inFile)))
                  (mkConversion r w1 (mkPoint DBL_MAX DBL_MAX DBL_MAX)
                     (mkPoint (- DBL_MAX) (- DBL_MAX) (- DBL_MAX)) 0) Hw1) as Hhang.
    destruct (convert_loop NDEBUG atof _ _) as [[c|e| |]|]; cbn [bind];
      try discriminate; try contradiction.
    - destruct Hsafe as [Hw _].
      pose proof (SafetyProps.WriteEndOfWrl_safe NDEBUG (c_writer c) (c_emin c) (c_emax c) Hw)
        as Hend.
      destruct (WriteEndOfWrl NDEBUG (c_writer c) (c_emin c) (c_emax c)); cbn [bind];
        try discriminate. destruct Hend.
    - intros _. destruct (Hhang eq_refl) as [Hb Ht]. cbn [c_reader] in Hb, Ht.
      rewrite Hdata in Ht. split; [congruence | exact Ht]. }
  destruct (o_quota outFile) as [[|q]|]; cbn [bind]; try discriminate;
    apply Hloop; reflexivity.
Qed.

End Hangs.

(** X23.  Termination of the conversion.  [ConvertStlToWrl] fails to
    return only when the input is read as ASCII and ends in blank lines,
    one of them with a CR: from some byte on, a CR followed by nothing but
    CR and LF up to the end of the file.  So for every input that is taken
    for a binary STL, and for every input without a CR byte, whatever the
    output device, the conversion returns or throws: it does not hang and
    fails no assertion. *)
Theorem ConvertStlToWrl_terminates (NDEBUG : bool) (atof : string -> float)
    (inFile : File) (outFile : OutFile) :
  (ConvertStlToWrl NDEBUG atof inFile outFile = Hang ->
   fst (IsBinaryStl (open_file (f_data inFile))) = false
   /\ blank_CR_tail (f_data inFile))
  /\ (fst (IsBinaryStl (open_file (f_data inFile))) = true
      \/ ~ In x0d (f_data inFile) ->
      returns_or_throws (ConvertStlToWrl NDEBUG atof inFile outFile)).
Proof.
  split; [apply ConvertStlToWrl_hang|].
  intros Hcase.
  pose proof (SafetyProps.ConvertStlToWrl_safe NDEBUG atof inFile outFile) as Hsafe.
  pose proof (ConvertStlToWrl_hang NDEBUG atof inFile outFile) as Hhang.
  destruct (ConvertStlToWrl NDEBUG atof inFile outFile); cbn; auto.
  destruct (Hhang eq_refl) as [Hb (n & tail & Hskip & _)].
  destruct Hcase as [Hbin | Hcr]; [congruence|].
  apply Hcr. rewrite <- (firstn_skipn n (f_data inFile)), Hskip.
  apply in_or_app. right. now left.
Qed.

Lemma ConvertStlToWrl_terminates_witness :
  ConvertStlToWrl false Samples.atof_decimal
    (open_file (list_byte_of_string CRLF)) (create_file None) = Hang
  /\ blank_CR_tail (list_byte_of_string CRLF)
  /\ returns_or_throws
       (ConvertStlToWrl false Samples.atof_decimal
          (Samples.file_of_string Samples.ascii_one_facet) (create_file None)).
Proof.
  destruct (ConvertStlToWrl_terminates false Samples.atof_decimal
              (open_file (list_byte_of_string CRLF)) (create_file None)) as [Hhang _].
  assert (E : ConvertStlToWrl false Samples.atof_decimal
                (open_file (list_byte_of_string CRLF)) (create_file None) = Hang)
    by reflexivity.
  split; [exact E|]. split; [exact (proj2 (Hhang E))|].
  destruct (ConvertStlToWrl_terminates false Samples.atof_decimal
              (Samples.file_of_string Samples.ascii_one_facet) (create_file None))
    as [_ Hret].
  apply Hret. right. vm_compute. intros H.
  repeat (destruct H as [H | H]; [discriminate H|]). exact H.
Defined.

End TerminationProps.
